(** * Edge API gateway: routing trie, middleware chain, JWT trust layer

    A shallow embedding of the Go sources of the gateway
    ([api-gateway/internal/...]) and of the RBAC stage of the service
    behind it ([rest/internal/middleware/authz.go]), followed by the
    properties proved about them.

    Conventions.
    - A Go [error] result is an [option error]; [None] is [nil].
    - A Go [map[string]T] is a [gmap string T].
    - Iterating a Go map visits the entries in an unspecified order.  A
      loop that returns at the first entry satisfying a test can therefore
      return any entry satisfying it; such loops are modelled by the list
      of all their possible results.
    - Logging calls are left out: the logger is a sink that never feeds
      back into a decision. *)

From Stdlib Require Import ZArith QArith Ascii String.
From stdpp Require Import gmap strings list fin_maps pretty sorting.

#[local] Set Warnings "-register-all".
#[local] Open Scope Z_scope.

(* ===================================================================== *)
(** * JSON values, as [encoding/json] produces them                      *)
(* ===================================================================== *)

Module Json.

(** The value tree that [json.Marshal] writes.  An object lists its
    members in the order they are written: declaration order for a
    struct, key order for a map. *)
Inductive json :=
| JNull
| JBool (b : bool)
| JNum (n : Z)
| JStr (s : string)
| JArr (elems : list json)
| JObj (members : list (string * json)).


(** Member lookup (first occurrence). *)
Fixpoint assoc (k : string) (ms : list (string * json)) : option json :=
  match ms with
  | [] => None
  | (k', v) :: rest => if decide (k = k') then Some v else assoc k rest
  end.

Definition member (k : string) (j : json) : option json :=
  match j with
  | JObj ms => assoc k ms
  | _ => None
  end.

End Json.

(* ===================================================================== *)
(** * package errors                                                      *)
(* ===================================================================== *)

Module Errors.
Import Json.

(** [gatewayError]: the only implementation of [GatewayError]. *)
Record gatewayError := mkGatewayError {
  statusCode : Z;
  errorCode : string;
  message : string;
  (** [map[string]any]; its entries in key order, [[]] for nil or empty *)
  details : list (string * json)
}.

(** A Go [error] value: either a [GatewayError] or any other error, of
    which only the text of [Error()] is ever used. *)
Inductive error :=
| GatewayErr (e : gatewayError)
| PlainErr (msg : string).

Definition Error (e : error) : string :=
  match e with
  | GatewayErr g => message g
  | PlainErr msg => msg
  end.

Definition StatusOK : Z := 200.
Definition StatusNoContent : Z := 204.
Definition StatusBadRequest : Z := 400.
Definition StatusUnauthorized : Z := 401.
Definition StatusForbidden : Z := 403.
Definition StatusNotFound : Z := 404.
Definition StatusMethodNotAllowed : Z := 405.
Definition StatusInternalServerError : Z := 500.
Definition StatusBadGateway : Z := 502.
Definition StatusServiceUnavailable : Z := 503.
Definition StatusGatewayTimeout : Z := 504.

Definition NewError (status : Z) (code msg : string) : gatewayError :=
  {| statusCode := status; errorCode := code; message := msg; details := [] |}.

Definition NewErrorWithDetails (status : Z) (code msg : string)
    (ds : list (string * json)) : gatewayError :=
  {| statusCode := status; errorCode := code; message := msg; details := ds |}.

Definition NewBadRequestError (msg : string) : gatewayError :=
  NewError StatusBadRequest "BAD_REQUEST" msg.
Definition NewUnauthorizedError (msg : string) : gatewayError :=
  NewError StatusUnauthorized "UNAUTHORIZED" msg.
Definition NewForbiddenError (msg : string) : gatewayError :=
  NewError StatusForbidden "FORBIDDEN" msg.
Definition NewNotFoundError (msg : string) : gatewayError :=
  NewError StatusNotFound "NOT_FOUND" msg.
Definition NewInternalServerError (msg : string) : gatewayError :=
  NewError StatusInternalServerError "INTERNAL_SERVER_ERROR" msg.
Definition NewBadGatewayError (msg : string) : gatewayError :=
  NewError StatusBadGateway "BAD_GATEWAY" msg.
Definition NewGatewayTimeoutError (msg : string) : gatewayError :=
  NewError StatusGatewayTimeout "GATEWAY_TIMEOUT" msg.

(** [WrapError], on a non-nil error (every caller tests [err != nil]
    first): a [GatewayError] is returned as it is, anything else is
    wrapped with the given status and code. *)
Definition WrapError (err : error) (status : Z) (code : string) : gatewayError :=
  match err with
  | GatewayErr ge => ge
  | PlainErr msg => NewError status code msg
  end.

Definition IsGatewayError (err : error) : bool :=
  match err with
  | GatewayErr _ => true
  | PlainErr _ => false
  end.

(** [ToJSON]: marshals
    [ErrorResponse{Error: {Code, Message, Details (omitempty)}}]. *)
Definition ToJSON (err : gatewayError) : json :=
  JObj [("error",
         JObj ([("code", JStr (errorCode err));
                ("message", JStr (message err))]
               ++ match details err with
                  | [] => []
                  | ds => [("details", JObj ds)]
                  end))].

End Errors.

(* ===================================================================== *)
(** * The instants of package [time]                                      *)
(* ===================================================================== *)

Module GoTime.

(** An [int64] is a [Z] in the range [-2^63 <= z < 2^63]; [int64 z] is
    the value the machine keeps of a sum [z] that left the range. *)
Definition int64 (z : Z) : Z := (z + 2 ^ 63) mod 2 ^ 64 - 2 ^ 63.

(** A [time.Time] without a monotonic clock reading, which is what
    [time.Unix], [time.Parse] and [time.Time{}] make: [sec] is [t.sec()],
    the seconds since January 1 of year 1 (an [int64]), and [nsec] the
    nanoseconds within the second ([0 <= nsec < 10^9]).  The location is
    left out (no comparison looks at it). *)
Record Time := mkTime { sec : Z; nsec : Z }.

#[global] Instance Time_eq_dec : EqDecision Time.
Proof. solve_decision. Defined.

(** Seconds from January 1, year 1 to the Unix epoch. *)
Definition unixToInternal : Z := 62135596800.

(** [time.Time{}] *)
Definition zero : Time := {| sec := 0; nsec := 0 |}.

(** [time.Unix(s, 0)]: [unixTime] stores [s + unixToInternal], an
    [int64] addition that wraps around. *)
Definition Unix (s : Z) : Time := {| sec := int64 (s + unixToInternal); nsec := 0 |}.

(** [t.IsZero()]: [t.sec() == 0 && t.nsec() == 0]. *)
Definition IsZero (t : Time) : bool :=
  bool_decide (sec t = 0) && bool_decide (nsec t = 0).

(** [t.Before(u)]: the instant [t] is strictly before [u]. *)
Definition Before (t u : Time) : bool :=
  bool_decide (sec t < sec u)
  || (bool_decide (sec t = sec u) && bool_decide (nsec t < nsec u)).

(** The strict order of instants, stated independently of [Before]. *)
Definition lt (t u : Time) : Prop :=
  sec t * 1000000000 + nsec t < sec u * 1000000000 + nsec u.

Definition le (t u : Time) : Prop :=
  sec t * 1000000000 + nsec t <= sec u * 1000000000 + nsec u.

Definition valid (t : Time) : Prop := 0 <= nsec t < 1000000000.

(** [time.Duration]: a signed count of nanoseconds. *)
Definition Duration := Z.
Definition Hour : Duration := 3600 * 1000000000.

End GoTime.

(* ===================================================================== *)
(** * package strings (the functions the gateway uses)                    *)
(* ===================================================================== *)

Module Strings.

(** [Some rest] when [s = p ++ rest]. *)
Fixpoint strip_prefix (p s : string) : option string :=
  match p with
  | EmptyString => Some s
  | String c p' =>
      match s with
      | String c' s' => if decide (c = c') then strip_prefix p' s' else None
      | EmptyString => None
      end
  end.

Definition HasPrefix (s p : string) : bool :=
  match strip_prefix p s with Some _ => true | None => false end.

Definition TrimPrefix (s p : string) : string :=
  match strip_prefix p s with Some rest => rest | None => s end.

Definition slash : Ascii.ascii := "/"%char.

(** [strings.TrimLeft(s, "/")] *)
Fixpoint trim_left_slash (s : string) : string :=
  match s with
  | String c s' => if decide (c = slash) then trim_left_slash s' else s
  | EmptyString => EmptyString
  end.

(** [strings.TrimRight(s, "/")]: a slash is dropped when everything after
    it has been dropped. *)
Fixpoint trim_right_slash (s : string) : string :=
  match s with
  | EmptyString => EmptyString
  | String c s' =>
      match trim_right_slash s' with
      | EmptyString => if decide (c = slash) then EmptyString else String c EmptyString
      | t => String c t
      end
  end.

(** [strings.Trim(s, "/")] *)
Definition trim_slash (s : string) : string :=
  trim_right_slash (trim_left_slash s).

(** [split_slash cur s]: the pieces of [cur ++ s] between slashes, where
    [cur] (reversed) is the piece being read.  [strings.Split(s, "/")] is
    [split_slash "" s]; it returns one piece more than there are
    slashes, so empty pieces are kept. *)
Fixpoint split_slash (cur : string) (s : string) : list string :=
  match s with
  | EmptyString => [String.rev cur]
  | String c s' =>
      if decide (c = slash) then String.rev cur :: split_slash EmptyString s'
      else split_slash (String c cur) s'
  end.

Definition Split_slash (s : string) : list string := split_slash EmptyString s.

End Strings.

(* ===================================================================== *)
(** * pkg/redis and package repository                                    *)
(* ===================================================================== *)

Module Redis.
Import Errors GoTime.

(** The key-value server behind the client: its entries (value and
    time-to-live as given to SET) and, when it cannot be reached, the
    driver's error text. *)
Record Server := mkServer {
  fault : option string;
  entries : gmap string (string * Duration)
}.

(** [Client.Get]: a missing key ([redis.Nil]) reads as the empty string. *)
Definition Get (key : string) (srv : Server) : string * option error :=
  match fault srv with
  | Some cause =>
      ("", Some (PlainErr ("failed to get key " +:+ key +:+ ": " +:+ cause)))
  | None =>
      match entries srv !! key with
      | Some (v, _) => (v, None)
      | None => ("", None)
      end
  end.

(** [Client.Set] *)
Definition Set_ (key value : string) (expiration : Duration) (srv : Server)
    : option error * Server :=
  match fault srv with
  | Some cause =>
      (Some (PlainErr ("failed to set key " +:+ key +:+ ": " +:+ cause)), srv)
  | None =>
      (None, {| fault := None; entries := <[key := (value, expiration)]> (entries srv) |})
  end.

(** [Client.Delete] *)
Definition Delete (key : string) (srv : Server) : option error * Server :=
  match fault srv with
  | Some cause =>
      (Some (PlainErr ("failed to delete key " +:+ key +:+ ": " +:+ cause)), srv)
  | None =>
      (None, {| fault := None; entries := delete key (entries srv) |})
  end.

End Redis.

Module Repository.
Import Errors GoTime.

(** The [SessionRepository] interface, over a store state [W]. *)
Record SessionRepository (W : Type) := mkSessionRepository {
  SetRevokedTime : string → Time → Duration → W → option error * W;
  GetRevokedTime : string → W → Time * option error;
  DeleteRevokedTime : string → W → option error * W
}.
Arguments SetRevokedTime {W}.
Arguments GetRevokedTime {W}.
Arguments DeleteRevokedTime {W}.

(** [time.Time.Format(time.RFC3339)] and [time.Parse(time.RFC3339, _)]:
    the standard library's, taken as given. *)
Record RFC3339 := mkRFC3339 {
  Format : Time → string;
  (** the instant, or the text of the parse error *)
  Parse : string → string + Time
}.

Module RedisSessionRepository.

Record t := mk {
  codec : RFC3339;
  keyPrefix : string
}.

(** [NewRedisSessionRepository] *)
Definition New (codec : RFC3339) (keyPrefix : string) : t :=
  {| codec := codec;
     keyPrefix := if decide (keyPrefix = "") then "revoke:" else keyPrefix |}.

Definition makeKey (r : t) (userID : string) : string :=
  keyPrefix r +:+ userID.

Definition SetRevokedTime (r : t) (userID : string) (revokedTime : Time)
    (expiration : Duration) (srv : Redis.Server) : option error * Redis.Server :=
  if bool_decide (expiration <= 0) then (None, srv)
  else
    let key := makeKey r userID in
    let value := Format (codec r) revokedTime in
    match Redis.Set_ key value expiration srv with
    | (Some err, srv') =>
        (Some (PlainErr ("failed to set revoked time for user " +:+ userID
                         +:+ ": " +:+ Error err)), srv')
    | (None, srv') => (None, srv')
    end.

Definition GetRevokedTime (r : t) (userID : string) (srv : Redis.Server)
    : Time * option error :=
  let key := makeKey r userID in
  match Redis.Get key srv with
  | (_, Some err) =>
      (zero, Some (PlainErr ("failed to get revoked time for user " +:+ userID
                             +:+ ": " +:+ Error err)))
  | (value, None) =>
      if decide (value = "") then (zero, None)
      else
        match Parse (codec r) value with
        | inl cause =>
            (zero, Some (PlainErr ("failed to parse revoked time for user "
                                   +:+ userID +:+ ": " +:+ cause)))
        | inr revokedTime => (revokedTime, None)
        end
  end.

Definition DeleteRevokedTime (r : t) (userID : string) (srv : Redis.Server)
    : option error * Redis.Server :=
  let key := makeKey r userID in
  match Redis.Delete key srv with
  | (Some err, srv') =>
      (Some (PlainErr ("failed to delete revoked time for user " +:+ userID
                       +:+ ": " +:+ Error err)), srv')
  | (None, srv') => (None, srv')
  end.

(** [*RedisSessionRepository] implements [SessionRepository]. *)
Definition interface (r : t) : SessionRepository Redis.Server :=
  {| Repository.SetRevokedTime := SetRevokedTime r;
     Repository.GetRevokedTime := GetRevokedTime r;
     Repository.DeleteRevokedTime := DeleteRevokedTime r |}.

End RedisSessionRepository.

End Repository.

(* ===================================================================== *)
(** * net/http requests and request contexts                              *)
(* ===================================================================== *)

Module Http.

(** A claim or header value as [encoding/json] decodes it into [any],
    plus the integer types the unit tests store by hand.  A [float64] is
    given by its exact rational value. *)
Inductive Value :=
| VString (s : string)
| VFloat64 (q : Q)
| VInt64 (z : Z)
| VInt (z : Z)
| VBool (b : bool)
| VOther.

#[global] Instance Q_eq_dec : EqDecision Q.
Proof. solve_decision. Defined.

#[global] Instance Value_eq_dec : EqDecision Value.
Proof. solve_decision. Defined.

(** The whole part of a [float64]: the value truncated towards zero. *)
Definition truncate (q : Q) : Z := Z.quot (Qnum q) (Z.pos (Qden q)).

(** The conversion [int64(v)] of a [float64]: the truncated value where
    that is an [int64].  For the other values the language leaves the
    result to the implementation; the compiler for amd64 gives the least
    [int64] there, and that is what is written here. *)
Definition int64OfFloat64 (q : Q) : Z :=
  if decide (- 2 ^ 63 <= truncate q < 2 ^ 63) then truncate q else - 2 ^ 63.

(** [jwt.MapClaims] *)
Abbreviation MapClaims := (gmap string Value).

(** The request context: the value under [ClaimsContextKey], when it is a
    [jwt.MapClaims], and the values other stages have stored. *)
Record Context := mkContext {
  ctxClaims : option MapClaims;
  ctxValues : gmap string string
}.

Definition Background : Context := {| ctxClaims := None; ctxValues := ∅ |}.

(** [context.WithValue(ctx, ClaimsContextKey, claims)] *)
Definition WithClaims (ctx : Context) (claims : MapClaims) : Context :=
  {| ctxClaims := Some claims; ctxValues := ctxValues ctx |}.

(** An [*http.Request]: method, URL path, headers (under their canonical
    names, one value each) and the context it carries. *)
Record Request := mkRequest {
  Method : string;
  Path : string;
  Header : gmap string string;
  ReqContext : Context
}.

(** [r.WithContext(ctx)] *)
Definition WithContext (r : Request) (ctx : Context) : Request :=
  {| Method := Method r; Path := Path r; Header := Header r; ReqContext := ctx |}.

(** [req.Header.Get(name)] *)
Definition HeaderGet (req : Request) (name : string) : string :=
  match Header req !! name with Some v => v | None => "" end.

Definition MethodOptions : string := "OPTIONS".
Definition MethodPost : string := "POST".

End Http.

(* ===================================================================== *)
(** * github.com/golang-jwt/jwt/v5, as far as [jwt.Parse] is concerned    *)
(* ===================================================================== *)

Module Jwt.
Import Http GoTime.

(** The registered signing methods.  [RS256], [RS384] and [RS512] are the
    three values of type [*jwt.SigningMethodRSA]; the [PS] methods have
    type [*jwt.SigningMethodRSAPSS]. *)
Inductive SigningMethod :=
| HS256 | HS384 | HS512
| RS256 | RS384 | RS512
| PS256 | PS384 | PS512
| ES256 | ES384 | ES512
| EdDSA
| NoneMethod.

#[global] Instance SigningMethod_eq_dec : EqDecision SigningMethod.
Proof. solve_decision. Defined.

(** [jwt.GetSigningMethod(alg)] *)
Definition GetSigningMethod (alg : string) : option SigningMethod :=
  if decide (alg = "HS256") then Some HS256
  else if decide (alg = "HS384") then Some HS384
  else if decide (alg = "HS512") then Some HS512
  else if decide (alg = "RS256") then Some RS256
  else if decide (alg = "RS384") then Some RS384
  else if decide (alg = "RS512") then Some RS512
  else if decide (alg = "PS256") then Some PS256
  else if decide (alg = "PS384") then Some PS384
  else if decide (alg = "PS512") then Some PS512
  else if decide (alg = "ES256") then Some ES256
  else if decide (alg = "ES384") then Some ES384
  else if decide (alg = "ES512") then Some ES512
  else if decide (alg = "EdDSA") then Some EdDSA
  else if decide (alg = "none") then Some NoneMethod
  else None.

(** The type assertion of [token.Method] to [*jwt.SigningMethodRSA]. *)
Definition isSigningMethodRSA (m : SigningMethod) : bool :=
  match m with
  | RS256 | RS384 | RS512 => true
  | _ => false
  end.

(** An RSA key pair is named by a number; [*rsa.PublicKey] [k] is the
    public half of pair [k]. *)
Definition PublicKey := nat.

(** Signatures are symbolic: a signature is either the one that method
    [m] makes with the private half of pair [k] over a header and claims,
    or bytes that no method verifies. *)
Inductive Signature :=
| SignedBy (m : SigningMethod) (k : nat)
    (header : gmap string Value) (claims : MapClaims)
| Junk.

(** A token after [Parser.ParseUnverified]: decoded header and claims,
    and the signature segment. *)
Record Token := mkToken {
  TokenHeader : gmap string Value;
  Claims : MapClaims;
  TokenSignature : Signature
}.

(** The methods whose [Verify] takes an [*rsa.PublicKey]; every other
    method answers [ErrInvalidKeyType] to one. *)
Definition acceptsRSAPublicKey (m : SigningMethod) : bool :=
  match m with
  | RS256 | RS384 | RS512 | PS256 | PS384 | PS512 => true
  | _ => false
  end.

(** [token.Method.Verify(signingString, signature, key)] for a key of
    type [*rsa.PublicKey]. *)
Definition Verify (m : SigningMethod) (key : PublicKey) (tok : Token) : bool :=
  acceptsRSAPublicKey m &&
  match TokenSignature tok with
  | SignedBy m' k h c =>
      bool_decide (m' = m) && bool_decide (k = key)
      && bool_decide (h = TokenHeader tok) && bool_decide (c = Claims tok)
  | Junk => false
  end.


(** [MapClaims.parseNumericDate]: absent, or a zero number, is no date;
    a number is a date (to the second); anything else is an error. *)
Definition parseNumericDate (claims : MapClaims) (key : string)
    : option (option Time) :=
  match claims !! key with
  | None => Some None
  | Some (VFloat64 q) =>
      if Qeq_bool q 0 then Some None else Some (Some (Unix (int64OfFloat64 q)))
  | Some _ => None
  end.

(** The default [Validator.Validate] at time [now]: [exp], when present,
    must lie after [now]; [nbf], when present, must not. *)
Definition Validate (now : Time) (claims : MapClaims) : option string :=
  match parseNumericDate claims "exp", parseNumericDate claims "nbf" with
  | None, _ => Some "token has invalid claims: invalid type for claim: exp is invalid"
  | _, None => Some "token has invalid claims: invalid type for claim: nbf is invalid"
  | Some exp, Some nbf =>
      if match exp with Some e => negb (Before now e) | None => false end
      then Some "token has invalid claims: token is expired"
      else if match nbf with Some n => Before now n | None => false end
      then Some "token has invalid claims: token is not valid yet"
      else None
  end.

(** [jwt.Parse(tokenString, keyFunc)] with no parser options.
    [decode] is the library's reading of the compact serialisation
    (three base64url segments holding JSON); [keyFunc] returns the key or
    an error text.  The result is the verified token or the text of the
    error. *)
Definition Parse (decode : string → option Token) (now : Time)
    (tokenString : string)
    (keyFunc : Token → SigningMethod → string + PublicKey) : string + Token :=
  match decode tokenString with
  | None => inl "token is malformed"
  | Some tok =>
      match TokenHeader tok !! "alg" with
      | Some (VString alg) =>
          match GetSigningMethod alg with
          | None => inl "token is unverifiable: signing method (alg) is unavailable"
          | Some method =>
              match keyFunc tok method with
              | inl msg =>
                  inl ("token is unverifiable: error while executing keyfunc: " +:+ msg)
              | inr key =>
                  if negb (Verify method key tok)
                  then inl "token signature is invalid"
                  else
                    match Validate now (Claims tok) with
                    | Some msg => inl msg
                    | None => inr tok
                    end
              end
          end
      | _ => inl "token is unverifiable: signing method (alg) is unspecified"
      end
  end.

End Jwt.

(* ===================================================================== *)
(** * package auth: the jwt and revoke stages                             *)
(* ===================================================================== *)

Module Auth.
Import Errors GoTime Http Strings.

(** [GetClaimsFromContext] *)
Definition GetClaimsFromContext (ctx : Context) : option MapClaims :=
  ctxClaims ctx.

Module JWTMiddleware.

(** [JWTConfig] *)
Record t := mk {
  PublicKeys : gmap string Jwt.PublicKey;
  SkipValidation : bool;
  RequiredClaims : list string
}.

(** The key function handed to [jwt.Parse]. *)
Definition keyFunc (m : t) (token : Jwt.Token) (method : Jwt.SigningMethod)
    : string + Jwt.PublicKey :=
  if negb (Jwt.isSigningMethodRSA method) then
    inl ("unexpected signing method: "
         +:+ match Jwt.TokenHeader token !! "alg" with
             | Some (VString alg) => alg
             | _ => "<nil>"
             end)
  else
    match Jwt.TokenHeader token !! "kid" with
    | Some (VString kid) =>
        match PublicKeys m !! kid with
        | Some publicKey => inr publicKey
        | None => inl ("public key not found for kid: " +:+ kid)
        end
    | _ => inl "kid header not found"
    end.

Fixpoint validateRequiredClaims (required : list string) (claims : MapClaims)
    : option error :=
  match required with
  | [] => None
  | requiredClaim :: rest =>
      match claims !! requiredClaim with
      | None =>
          Some (GatewayErr (NewUnauthorizedError
                              ("missing required claim: " +:+ requiredClaim)))
      | Some _ => validateRequiredClaims rest claims
      end
  end.

(** [JWTMiddleware.Process].  After a successful [jwt.Parse] the token is
    valid and its claims are a [jwt.MapClaims], so the two tests that
    follow the call in the source never fail. *)
Definition Process (m : t) (decode : string → option Jwt.Token) (now : Time)
    (ctx : Context) (req : Request) : Context * option error :=
  let authHeader := HeaderGet req "Authorization" in
  if decide (authHeader = "") then
    (ctx, Some (GatewayErr (NewUnauthorizedError "missing authorization header")))
  else
    let tokenString := TrimPrefix authHeader "Bearer " in
    if decide (tokenString = authHeader) then
      (ctx, Some (GatewayErr (NewUnauthorizedError "invalid authorization header format")))
    else if SkipValidation m then
      (WithClaims ctx {[ "skip_validation" := VBool true ]}, None)
    else
      match Jwt.Parse decode now tokenString (keyFunc m) with
      | inl msg =>
          (ctx, Some (GatewayErr (NewUnauthorizedError ("invalid token: " +:+ msg))))
      | inr token =>
          let claims := Jwt.Claims token in
          match validateRequiredClaims (RequiredClaims m) claims with
          | Some err => (ctx, Some err)
          | None => (WithClaims ctx claims, None)
          end
      end.

End JWTMiddleware.

Module RevokeMiddleware.
Import Repository.

Record t (W : Type) := mk {
  repository : SessionRepository W;
  userIDClaim : string;
  issuedAtClaim : string;
  failOpen : bool
}.
Arguments mk {W}.
Arguments repository {W}.
Arguments userIDClaim {W}.
Arguments issuedAtClaim {W}.
Arguments failOpen {W}.

(** [NewRevokeMiddleware] *)
Definition New {W} (repo : SessionRepository W) (UserIDClaim IssuedAtClaim : string)
    (FailOpen : bool) : t W :=
  {| repository := repo;
     userIDClaim := if decide (UserIDClaim = "") then "sub" else UserIDClaim;
     issuedAtClaim := if decide (IssuedAtClaim = "") then "iat" else IssuedAtClaim;
     failOpen := FailOpen |}.

Definition getUserID {W} (m : t W) (claims : MapClaims) : string + string :=
  match claims !! userIDClaim m with
  | None => inl ("claim " +:+ userIDClaim m +:+ " not found")
  | Some (VString userID) =>
      if decide (userID = "") then inl ("claim " +:+ userIDClaim m +:+ " is empty")
      else inr userID
  | Some _ => inl ("claim " +:+ userIDClaim m +:+ " is not a string")
  end.

Definition getIssuedAt {W} (m : t W) (claims : MapClaims) : string + Time :=
  match claims !! issuedAtClaim m with
  | None => inl ("claim " +:+ issuedAtClaim m +:+ " not found")
  | Some (VFloat64 v) => inr (Unix (int64OfFloat64 v))
  | Some (VInt64 v) => inr (Unix v)
  | Some (VInt v) => inr (Unix v)
  | Some _ => inl ("claim " +:+ issuedAtClaim m +:+ " has invalid type")
  end.

(** [RevokeMiddleware.Process], against the store state [store]. *)
Definition Process {W} (m : t W) (store : W) (ctx : Context) (req : Request)
    : Context * option error :=
  match GetClaimsFromContext ctx with
  | None => (ctx, None)
  | Some claims =>
      match getUserID m claims with
      | inl _ =>
          (ctx, Some (GatewayErr
                        (NewError StatusUnauthorized "Unauthorized" "invalid token claims")))
      | inr userID =>
          match getIssuedAt m claims with
          | inl _ =>
              (ctx, Some (GatewayErr
                            (NewError StatusUnauthorized "Unauthorized" "invalid token claims")))
          | inr issuedAt =>
              match GetRevokedTime (repository m) userID store with
              | (_, Some _) =>
                  if failOpen m then (ctx, None)
                  else
                    (ctx, Some (GatewayErr
                                  (NewError StatusServiceUnavailable "ServiceUnavailable"
                                     "session service unavailable")))
              | (revokedTime, None) =>
                  if IsZero revokedTime then (ctx, None)
                  else if Before issuedAt revokedTime then
                    (ctx, Some (GatewayErr
                                  (NewError StatusUnauthorized "Unauthorized"
                                     "token has been revoked")))
                  else (ctx, None)
              end
          end
      end
  end.

End RevokeMiddleware.

End Auth.

(* ===================================================================== *)
(** * package routing: the trie and the router                            *)
(* ===================================================================== *)

Module Routing.
Import Errors GoTime Http Strings.

(** [config.MiddlewareConfig]: a type tag and a bag of options. *)
Record MiddlewareConfig := mkMiddlewareConfig {
  Type_ : string;
  Config : gmap string Value
}.

Record Backend := mkBackend {
  URL : string;
  Timeout : Duration
}.

Record Route := mkRoute {
  RoutePath : string;
  Methods : list string;
  RouteBackend : Backend;
  Middleware : list MiddlewareConfig;
  Priority : Z
}.

#[global] Instance MiddlewareConfig_eq_dec : EqDecision MiddlewareConfig.
Proof. solve_decision. Defined.
#[global] Instance Backend_eq_dec : EqDecision Backend.
Proof. solve_decision. Defined.
#[global] Instance Route_eq_dec : EqDecision Route.
Proof. solve_decision. Defined.

(** [Route.HasMethod] *)
Definition HasMethod (r : Route) (method : string) : bool :=
  match Methods r with
  | [] => true
  | ms => bool_decide (method ∈ ms)
  end.

Inductive nodeType := staticNode | paramNode | wildcardNode.

#[global] Instance nodeType_eq_dec : EqDecision nodeType.
Proof. solve_decision. Defined.

(** A trie node.  [children] is the Go map from segment to child. *)
Inductive node := Node {
  nodeKind : nodeType;
  segment : string;
  children : gmap string node;
  route : option Route;
  paramName : string
}.

(** [newNode] *)
Definition newNode (segment : string) : node :=
  if HasPrefix segment ":" then
    Node paramNode segment ∅ None (TrimPrefix segment ":")
  else if bool_decide (segment = "*" ∨ segment = "**") then
    Node wildcardNode segment ∅ None ""
  else
    Node staticNode segment ∅ None "".

(** [node.getChild] *)
Definition getChild (n : node) (segment : string) : option node :=
  children n !! segment.

(** The child that [node.addChild] returns: the existing one, or a new
    node (which [addChild] also stores under [segment]). *)
Definition addChild (n : node) (segment : string) : node :=
  match children n !! segment with
  | Some child => child
  | None => newNode segment
  end.

(** The children of a given kind.  The order of the list has no meaning:
    it stands for the set of entries a loop over the map can meet. *)
Definition childrenOfKind (k : nodeType) (n : node) : list node :=
  filter (λ c, nodeKind c = k) (snd <$> map_to_list (children n)).

(** [node.findMatchingChild]: the children the call can return.  The
    exact child is the only result when there is one; otherwise any
    parameter child can be the first the loop meets; with no parameter
    child, any wildcard child.  [[]] stands for [(nil, false)]. *)
Definition findMatchingChild (n : node) (segment : string) : list node :=
  match getChild n segment with
  | Some child => [child]
  | None =>
      match childrenOfKind paramNode n with
      | [] => childrenOfKind wildcardNode n
      | ps => ps
      end
  end.

(** [SplitPath] *)
Definition SplitPath (path : string) : list string :=
  let path := trim_slash path in
  if decide (path = "") then [] else Split_slash path.

(** The walk of [Router.AddRoute] from node [current]: [addChild] for
    every segment, then the route is stored at the node reached.  [None]
    when that node already has a route; the trie is then as it was, for
    a node that has a route was not created by this walk. *)
Fixpoint insert (segments : list string) (r : Route) (current : node)
    : option node :=
  match segments with
  | [] =>
      match route current with
      | Some _ => None
      | None =>
          Some (Node (nodeKind current) (segment current) (children current)
                  (Some r) (paramName current))
      end
  | seg :: rest =>
      match insert rest r (addChild current seg) with
      | None => None
      | Some child =>
          Some (Node (nodeKind current) (segment current)
                  (<[seg := child]> (children current))
                  (route current) (paramName current))
      end
  end.

(** A [Router] is its root node.  [NewRouter] *)
Definition NewRouter : node := newNode "".

(** [Router.AddRoute], for a non-nil route. *)
Definition AddRoute (root : node) (r : Route) : option error * node :=
  if decide (RoutePath r = "") then (Some (PlainErr "route path is empty"), root)
  else
    match insert (SplitPath (RoutePath r)) r root with
    | None =>
        (Some (PlainErr ("route already exists for path: " +:+ RoutePath r)), root)
    | Some root' => (None, root')
    end.

(** The registration loop of [Router.LoadFromConfig]: [AddRoute] on each
    route in turn, stopping at the first error. *)
Fixpoint addRoutes (root : node) (routes : list Route) : option error * node :=
  match routes with
  | [] => (None, root)
  | r :: rest =>
      match AddRoute root r with
      | (Some err, root') =>
          (Some (PlainErr ("failed to add route " +:+ RoutePath r +:+ ": " +:+ Error err)),
           root')
      | (None, root') => addRoutes root' rest
      end
  end.

(** [Router.findRoute]: the outcomes the call can have, each the route
    returned ([None] for nil) and the parameter map as the call leaves
    it. *)
Fixpoint findRoute (current : node) (segments : list string)
    (params : gmap string string) : list (option Route * gmap string string) :=
  match segments with
  | [] => [(route current, params)]
  | seg :: remaining =>
      match findMatchingChild current seg with
      | [] => [(None, params)]
      | cs =>
          c ← cs;
          findRoute c remaining
            (if decide (nodeKind c = paramNode) then <[paramName c := seg]> params
             else params)
      end
  end.

Record MatchResult := mkMatchResult {
  Route_ : Route;
  Params : gmap string string
}.

(** What [Router.Match] returns for one outcome of [findRoute]. *)
Definition matchOutcome (method path : string)
    (found : option Route * gmap string string) : gatewayError + MatchResult :=
  match found with
  | (None, _) => inl (NewNotFoundError ("no route found for path: " +:+ path))
  | (Some r, params) =>
      if negb (HasMethod r method) then
        inl (NewError 405 "METHOD_NOT_ALLOWED" ("method " +:+ method +:+ " not allowed"))
      else inr {| Route_ := r; Params := params |}
  end.

(** [Router.Match]: the results the call can have. *)
Definition Match (root : node) (method path : string)
    : list (gatewayError + MatchResult) :=
  matchOutcome method path <$> findRoute root (SplitPath path) ∅.

End Routing.

(* ===================================================================== *)
(** * package middleware: the chain                                       *)
(* ===================================================================== *)

Module Middleware.
Import Errors Http.

(** The [Middleware] interface: [Process(ctx, req)] returns the new
    context and an error.  A stage may act on the world outside the
    process (the session store, the clock), whose state is [W]. *)
Definition Middleware (W : Type) : Type :=
  Context → Request → W → (Context * option error) * W.

(** [Chain] *)
Definition Chain (W : Type) : Type := list (Middleware W).

Definition NewChain {W} (middlewares : list (Middleware W)) : Chain W := middlewares.

(** [Chain.Execute] *)
Fixpoint Execute {W} (c : Chain W) (ctx : Context) (req : Request) (s : W)
    : (Context * option error) * W :=
  match c with
  | [] => ((ctx, None), s)
  | mw :: rest =>
      match mw ctx req s with
      | ((ctx', Some err), s') => ((ctx', Some err), s')
      | ((ctx', None), s') => Execute rest ctx' req s'
      end
  end.

Definition Append {W} (c : Chain W) (middlewares : list (Middleware W)) : Chain W :=
  c ++ middlewares.

Definition Prepend {W} (c : Chain W) (middlewares : list (Middleware W)) : Chain W :=
  middlewares ++ c.

Definition Len {W} (c : Chain W) : nat := length c.

(** The revoke stage as a [Middleware]; the world holds the state of the
    session store, which the stage reads. *)
Definition revokeStage {W St} (m : Auth.RevokeMiddleware.t St) (store : W → St)
    : Middleware W :=
  λ ctx req s, (Auth.RevokeMiddleware.Process m (store s) ctx req, s).

(** The jwt stage as a [Middleware]; the state holds the clock. *)
Definition jwtStage {W} (m : Auth.JWTMiddleware.t)
    (decode : string → option Jwt.Token) (clock : W → GoTime.Time) : Middleware W :=
  λ ctx req s, (Auth.JWTMiddleware.Process m decode (clock s) ctx req, s).

End Middleware.

(* ===================================================================== *)
(** * Observing calls                                                     *)
(* ===================================================================== *)

Module Observe.
Import Errors Http Middleware.

(** What an observer of the gateway can see happen. *)
Inductive Event :=
| Invoked (stage : nat)
| Transported (backendURL : string).

#[global] Instance Event_eq_dec : EqDecision Event.
Proof. solve_decision. Defined.

(** The world with a journal of the calls made so far, oldest first. *)
Definition Observed (W : Type) : Type := W * list Event.

(** Stage number [i], with its invocation written to the journal. *)
Definition observedStage {W} (i : nat) (mw : Middleware W) : Middleware (Observed W) :=
  λ ctx req '(s, journal),
    let '(res, s') := mw ctx req s in
    (res, (s', journal ++ [Invoked i])).

(** The stages of a chain numbered from [i] on, each observed. *)
Fixpoint observedFrom {W} (i : nat) (c : Chain W) : Chain (Observed W) :=
  match c with
  | [] => []
  | mw :: rest => observedStage i mw :: observedFrom (S i) rest
  end.

Definition observedChain {W} (c : Chain W) : Chain (Observed W) := observedFrom 0 c.

End Observe.

(* ===================================================================== *)
(** * package handler: the gateway and the forced-revoke endpoint         *)
(* ===================================================================== *)

Module Handler.
Import Json Errors GoTime Http Routing Middleware.

(** Bytes written to the response body: a marshalled JSON value, or
    bytes of another origin. *)
Inductive Chunk :=
| JsonBytes (j : json)
| RawBytes (s : string).

(** An [http.ResponseWriter]: the header map, the status line once it is
    written (with the headers as they were then, which are the ones
    sent), and the body. *)
Record ResponseWriter := mkResponseWriter {
  header : gmap string string;
  wrote : option (Z * gmap string string);
  body : list Chunk
}.

(** [httptest.NewRecorder()] *)
Definition NewRecorder : ResponseWriter :=
  {| header := ∅; wrote := None; body := [] |}.

(** [w.Header().Set(k, v)] *)
Definition HeaderSet (k v : string) (w : ResponseWriter) : ResponseWriter :=
  {| header := <[k := v]> (header w); wrote := wrote w; body := body w |}.

(** [w.WriteHeader(code)]: only the first call counts. *)
Definition WriteHeader (code : Z) (w : ResponseWriter) : ResponseWriter :=
  match wrote w with
  | Some _ => w
  | None => {| header := header w; wrote := Some (code, header w); body := body w |}
  end.

(** [w.Write(b)]: writes the status line first if it is not written. *)
Definition Write (b : Chunk) (w : ResponseWriter) : ResponseWriter :=
  let w := WriteHeader StatusOK w in
  {| header := header w; wrote := wrote w; body := body w ++ [b] |}.

(** [transport.Backend] *)
Record TransportBackend := mkTransportBackend {
  BackendURL : string;
  BackendTimeout : Duration;
  BackendHeaders : gmap string string
}.

(** The [transport.Transporter] interface. *)
Definition Transporter (W : Type) : Type :=
  Context → ResponseWriter → Request → TransportBackend → W
  → (option error * ResponseWriter) * W.

(** [middleware.Factory], through its one method
    [Create(cfg) (Middleware, error)]. *)
Definition Factory (W : Type) : Type :=
  MiddlewareConfig → string + Middleware W.

Record Gateway (W : Type) := mkGateway {
  router : node;
  transporter : Transporter W;
  middlewareFactory : option (Factory W)
}.
Arguments router {W}.
Arguments transporter {W}.
Arguments middlewareFactory {W}.

(** The loop of [buildMiddlewareChain]. *)
Fixpoint createAll {W} (f : Factory W) (configs : list MiddlewareConfig)
    : error + list (Middleware W) :=
  match configs with
  | [] => inr []
  | cfg :: rest =>
      match f cfg with
      | inl msg =>
          inl (PlainErr ("failed to create middleware type=" +:+ Type_ cfg
                         +:+ ": " +:+ msg))
      | inr m =>
          match createAll f rest with
          | inl err => inl err
          | inr ms => inr (m :: ms)
          end
      end
  end.

(** [Gateway.buildMiddlewareChain] *)
Definition buildMiddlewareChain {W} (g : Gateway W) (configs : list MiddlewareConfig)
    : error + Chain W :=
  match middlewareFactory g with
  | None => inr (NewChain [])
  | Some f =>
      match createAll f configs with
      | inl err => inl err
      | inr middlewares => inr (NewChain middlewares)
      end
  end.

(** [Gateway.convertToTransportBackend] *)
Definition convertToTransportBackend (b : Backend) : TransportBackend :=
  {| BackendURL := URL b; BackendTimeout := Timeout b; BackendHeaders := ∅ |}.

(** [Gateway.handleError] *)
Definition handleError (w : ResponseWriter) (r : Request) (err : error)
    : ResponseWriter :=
  let gatewayErr :=
    match err with
    | GatewayErr ge => ge
    | PlainErr msg => NewInternalServerError msg
    end in
  let w := HeaderSet "Content-Type" "application/json" w in
  let w := WriteHeader (statusCode gatewayErr) w in
  Write (JsonBytes (ToJSON gatewayErr)) w.

(** The last step of [ServeHTTP]: forwarding to the backend. *)
Definition forward {W} (g : Gateway W) (w : ResponseWriter) (r : Request)
    (ctx : Context) (matchResult : MatchResult) (s : W) : ResponseWriter * W :=
  let backend := convertToTransportBackend (RouteBackend (Route_ matchResult)) in
  match transporter g ctx w r backend s with
  | ((Some err, w'), s') =>
      (handleError w' r (GatewayErr (WrapError err StatusBadGateway "TRANSPORT_ERROR")), s')
  | ((None, w'), s') => (w', s')
  end.

(** [ServeHTTP] from the result of [router.Match] on. *)
Definition serveMatched {W} (g : Gateway W) (w : ResponseWriter) (r : Request)
    (s : W) (matched : gatewayError + MatchResult) : ResponseWriter * W :=
  match matched with
  | inl err =>
      (handleError w r
         (GatewayErr (WrapError (GatewayErr err) StatusNotFound "ROUTING_ERROR")), s)
  | inr matchResult =>
      let ctx := ReqContext r in
      match Routing.Middleware (Route_ matchResult) with
      | [] => forward g w r ctx matchResult s
      | configs =>
          match buildMiddlewareChain g configs with
          | inl err =>
              (handleError w r
                 (GatewayErr (WrapError err StatusInternalServerError
                                "MIDDLEWARE_SETUP_ERROR")), s)
          | inr chain =>
              match Execute chain ctx r s with
              | ((_, Some err), s') =>
                  (handleError w r
                     (GatewayErr (WrapError err StatusUnauthorized "MIDDLEWARE_ERROR")),
                   s')
              | ((ctx', None), s') =>
                  forward g w (WithContext r ctx') ctx' matchResult s'
              end
          end
      end
  end.

(** [Gateway.ServeHTTP]: the outcomes the call can have, one for each
    result [router.Match] can have. *)
Definition ServeHTTP {W} (g : Gateway W) (w : ResponseWriter) (r : Request) (s : W)
    : list (ResponseWriter * W) :=
  if decide (Method r = MethodOptions) then
    [(WriteHeader StatusNoContent w, s)]
  else
    serveMatched g w r s <$> Match (router g) (Method r) (Path r).

(** A transporter whose calls are written to the journal. *)
Definition observedTransporter {W} (t : Transporter W)
    : Transporter (Observe.Observed W) :=
  λ ctx w r backend '(s, journal),
    let '(res, s') := t ctx w r backend s in
    (res, (s', journal ++ [Observe.Transported (BackendURL backend)])).

Module AdminRevokeHandler.

(** [AdminRevokeHandler.authenticate]: [None] is a nil error. *)
Definition authenticate (configured : string) (req : Request) : option error :=
  let apiKey := HeaderGet req "X-API-Key" in
  if decide (apiKey = "") then Some (PlainErr "X-API-Key header is missing")
  else if negb (bool_decide (apiKey = configured)) then Some (PlainErr "invalid API key")
  else None.

End AdminRevokeHandler.

End Handler.

(* ===================================================================== *)
(** * The service behind the gateway: the authorization stage             *)
(* ===================================================================== *)

Module Rest.

(** [auth.Claims], without the registered claims. *)
Record Claims := mkClaims {
  UserID : string;
  Role : string
}.

Definition RoleAdmin : string := "admin".
Definition RoleUser : string := "user".

(** [Claims.HasAnyRole] *)
Definition HasAnyRole (c : Claims) (roles : list string) : bool :=
  existsb (λ role, bool_decide (Role c = role)) roles.

(** The error types of package [myerrors] that the stage returns. *)
Inductive HTTPError :=
| UnauthorizedError (userMessage : string)
| ForbiddenError (userMessage : string).

(** An ogen [middleware.Request]: the operation id and what
    [auth.FromContext(req.Context)] finds. *)
Record Request := mkRequest {
  OperationID : string;
  FromContext : option Claims
}.

(** An ogen [middleware.Response]; [None] is the zero value. *)
Definition Response := option string.

(** [middleware.Next], acting on a world [W]. *)
Definition Next (W : Type) : Type :=
  Request → W → (Response * option HTTPError) * W.

Definition authorizeRoleMap : gmap string (list string) :=
  {[ "v1GetHello" := [RoleUser; RoleAdmin] ]}.

(** [AuthzMiddleware.Handle] *)
Definition Handle {W} (req : Request) (next : Next W) (s : W)
    : (Response * option HTTPError) * W :=
  match authorizeRoleMap !! OperationID req with
  | None =>
      ((None, Some (ForbiddenError
          "この操作を実行する権限がありません（ロールマッピング未定義）")), s)
  | Some allowedRoles =>
      match FromContext req with
      | None => ((None, Some (UnauthorizedError "認証情報が見つかりません")), s)
      | Some claims =>
          if negb (HasAnyRole claims allowedRoles) then
            ((None, Some (ForbiddenError "この操作を実行する権限がありません")), s)
          else next req s
      end
  end.

End Rest.

(* ===================================================================== *)
(** * Concrete instances                                                  *)
(* ===================================================================== *)

Module Examples.
Import Json Errors GoTime Http.

(** A repository that answers a fixed revoked time, like the mock of the
    unit tests; it has no state. *)
Definition fixedRepository (revokedTime : Time) : Repository.SessionRepository unit :=
  {| Repository.SetRevokedTime := λ _ _ _ s, (None, s);
     Repository.GetRevokedTime := λ _ _, (revokedTime, None);
     Repository.DeleteRevokedTime := λ _ s, (None, s) |}.

(** Claims of user [u1], issued at second 1000. *)
Definition claimsU1 : MapClaims :=
  {[ "sub" := VString "u1"; "iat" := VFloat64 (1000 # 1) ]}.

(** Claims of user [u1] with issue time [2^63 - 1024] seconds, a number
    that is a [float64] and an [int64]. *)
Definition claimsFarFuture : MapClaims :=
  {[ "sub" := VString "u1"; "iat" := VFloat64 (9223372036854774784 # 1) ]}.

Definition getUsers : Request :=
  {| Method := "GET"; Path := "/api/v1/users"; Header := ∅;
     ReqContext := Background |}.

(** An RFC 3339 codec that knows one instant. *)
Definition codec2000 : Repository.RFC3339 :=
  {| Repository.Format := λ _, "1970-01-01T00:33:20Z";
     Repository.Parse := λ s,
       if decide (s = "1970-01-01T00:33:20Z") then inr (Unix 2000)
       else inl "parsing time: cannot parse" |}.

Definition emptyServer : Redis.Server :=
  {| Redis.fault := None; Redis.entries := ∅ |}.

(** A token of user [u1] whose header names RS384 and key [k1], signed
    with RS384 by the private half of key pair 1. *)
Definition headerRS384 : gmap string Value :=
  {[ "alg" := VString "RS384"; "kid" := VString "k1"; "typ" := VString "JWT" ]}.

Definition tokenRS384 : Jwt.Token :=
  {| Jwt.TokenHeader := headerRS384;
     Jwt.Claims := claimsU1;
     Jwt.TokenSignature := Jwt.SignedBy Jwt.RS384 1 headerRS384 claimsU1 |}.

(** The same token under HS256, signed with key pair 1 used as a
    secret. *)
Definition headerHS256 : gmap string Value :=
  {[ "alg" := VString "HS256"; "kid" := VString "k1"; "typ" := VString "JWT" ]}.

Definition tokenHS256 : Jwt.Token :=
  {| Jwt.TokenHeader := headerHS256;
     Jwt.Claims := claimsU1;
     Jwt.TokenSignature := Jwt.SignedBy Jwt.HS256 1 headerHS256 claimsU1 |}.

(** The same token under RS256, signed with RS256 by key pair 1. *)
Definition headerRS256 : gmap string Value :=
  {[ "alg" := VString "RS256"; "kid" := VString "k1"; "typ" := VString "JWT" ]}.

Definition tokenRS256 : Jwt.Token :=
  {| Jwt.TokenHeader := headerRS256;
     Jwt.Claims := claimsU1;
     Jwt.TokenSignature := Jwt.SignedBy Jwt.RS256 1 headerRS256 claimsU1 |}.

(** A decoder that knows the compact form of these three tokens. *)
Definition decodeKnown (s : string) : option Jwt.Token :=
  if decide (s = "rs384.u1.sig") then Some tokenRS384
  else if decide (s = "hs256.u1.sig") then Some tokenHS256
  else if decide (s = "rs256.u1.sig") then Some tokenRS256
  else None.

(** A jwt stage that validates, with the public half of key pair 1
    registered as [k1]. *)
Definition jwtK1 : Auth.JWTMiddleware.t :=
  {| Auth.JWTMiddleware.PublicKeys := {[ "k1" := 1%nat ]};
     Auth.JWTMiddleware.SkipValidation := false;
     Auth.JWTMiddleware.RequiredClaims := ["sub"] |}.

Definition bearer (tokenString : string) : Request :=
  {| Method := "GET"; Path := "/api/v1/users";
     Header := {[ "Authorization" := "Bearer " +:+ tokenString ]};
     ReqContext := Background |}.

(** The three stages of the users route: jwt, revoke (the store holds the
    revoked time 2000 for every user) and a stage that lets everything
    pass.  The world is the clock. *)
Definition jwtStageK1 : Middleware.Middleware Time :=
  Middleware.jwtStage jwtK1 decodeKnown (λ now, now).

Definition revokeStage2000 : Middleware.Middleware Time :=
  Middleware.revokeStage
    (Auth.RevokeMiddleware.New (fixedRepository (Unix 2000)) "" "" false)
    (λ _, ()).

Definition passStage : Middleware.Middleware Time :=
  λ ctx req now, ((ctx, None), now).

Definition usersRoute : Routing.Route :=
  {| Routing.RoutePath := "/api/v1/users";
     Routing.Methods := ["GET"; "POST"];
     Routing.RouteBackend := {| Routing.URL := "http://users:8080"; Routing.Timeout := 30 * 1000000000 |};
     Routing.Middleware :=
       [ {| Routing.Type_ := "jwt"; Routing.Config := ∅ |};
         {| Routing.Type_ := "revoke"; Routing.Config := ∅ |};
         {| Routing.Type_ := "logging"; Routing.Config := ∅ |} ];
     Routing.Priority := 10 |}.

(** A factory that knows these three tags and builds observed stages,
    numbered as they stand in [usersRoute]. *)
Definition observedFactory : Handler.Factory (Observe.Observed Time) :=
  λ cfg,
    if decide (Routing.Type_ cfg = "jwt") then inr (Observe.observedStage 0 jwtStageK1)
    else if decide (Routing.Type_ cfg = "revoke") then inr (Observe.observedStage 1 revokeStage2000)
    else if decide (Routing.Type_ cfg = "logging") then inr (Observe.observedStage 2 passStage)
    else inl ("unknown middleware type: " +:+ Routing.Type_ cfg).

(** A backend that answers 200 with a fixed body. *)
Definition backend200 : Handler.Transporter Time :=
  λ ctx w r backend now,
    ((None, Handler.Write (Handler.RawBytes "{}") (Handler.WriteHeader 200 w)), now).

Definition usersGateway : Handler.Gateway (Observe.Observed Time) :=
  {| Handler.router := snd (Routing.AddRoute Routing.NewRouter usersRoute);
     Handler.transporter := Handler.observedTransporter backend200;
     Handler.middlewareFactory := Some observedFactory |}.

(** Routes for the routing examples; all accept every method. *)
Definition routeTo (path backendURL : string) : Routing.Route :=
  {| Routing.RoutePath := path;
     Routing.Methods := [];
     Routing.RouteBackend := {| Routing.URL := backendURL; Routing.Timeout := 0 |};
     Routing.Middleware := [];
     Routing.Priority := 0 |}.

Definition filesRoute : Routing.Route := routeTo "/files/*" "http://files".
Definition userById : Routing.Route := routeTo "/users/:id" "http://users".
Definition postsByName : Routing.Route := routeTo "/users/:name/posts" "http://posts".

(** A router holding [/files/*] only. *)
Definition filesRouter : Routing.node :=
  snd (Routing.addRoutes Routing.NewRouter [filesRoute]).

Definition filesNode : Routing.node :=
  default Routing.NewRouter (Routing.children filesRouter !! "files").

Definition starNode : Routing.node :=
  default Routing.NewRouter (Routing.children filesNode !! "*").

(** A router whose [users] node has two parameter children. *)
Definition usersRouter : Routing.node :=
  snd (Routing.addRoutes Routing.NewRouter [userById; postsByName]).


(** Two routes whose templates differ only by a trailing slash. *)
Definition slashless : Routing.Route := routeTo "/a" "http://one".
Definition slashed : Routing.Route := routeTo "/a/" "http://two".

Definition ordersRoutes : list Routing.Route :=
  [routeTo "/api/v1/orders/:orderId/items/:itemId" "http://orders";
   routeTo "/api/v1/orders" "http://orders";
   filesRoute].

(** A router with one parameter child per node. *)
Definition ordersRouter : Routing.node :=
  snd (Routing.addRoutes Routing.NewRouter ordersRoutes).

(** A request of the service behind the gateway for an operation that has
    no entry in the role map, made by an administrator. *)
Definition deleteUsersByAdmin : Rest.Request :=
  {| Rest.OperationID := "v1DeleteUsers";
     Rest.FromContext := Some {| Rest.UserID := "u1"; Rest.Role := "admin" |} |}.

(** A next handler that answers and counts its calls. *)
Definition countingNext : Rest.Next nat :=
  λ _ calls, ((Some "ok", None), S calls).

End Examples.

(* ===================================================================== *)
(** * Statements taken from the specification                             *)
(* ===================================================================== *)

Module Stated.
Import Json Errors Http.


(** The second a numeric claim names: the whole part of a [float64]
    (the type a JSON number decodes to), or the integer itself. *)
Definition wholeSecond (v : Value) : option Z :=
  match v with
  | VFloat64 q => Some (Z.quot (Qnum q) (Z.pos (Qden q)))
  | VInt64 z | VInt z => Some z
  | _ => None
  end.

(** The instant [t] as nanoseconds since the Unix epoch. *)
Definition unixNano (t : GoTime.Time) : Z :=
  (GoTime.sec t - GoTime.unixToInternal) * 1000000000 + GoTime.nsec t.

(** The node reached from [n] by following the children stored under
    the given segments. *)
Fixpoint descend (n : Routing.node) (segments : list string) : option Routing.node :=
  match segments with
  | [] => Some n
  | seg :: rest =>
      match Routing.children n !! seg with
      | Some child => descend child rest
      | None => None
      end
  end.

End Stated.

(* ===================================================================== *)
(** * package routing, continued                                          *)
(* ===================================================================== *)

Module Paths.
Import Strings Routing.

(** [strings.Join(segments, "/")] *)
Fixpoint Join_slash (segments : list string) : string :=
  match segments with
  | [] => ""
  | [s] => s
  | s :: rest => s +:+ "/" +:+ Join_slash rest
  end.

(** [JoinPath] *)
Definition JoinPath (segments : list string) : string :=
  match segments with
  | [] => "/"
  | _ => "/" +:+ Join_slash segments
  end.

(** The route stored at the node that the given segments lead to, each
    taken as the key of a child. *)
Definition routeAt (n : node) (segments : list string) : option Route :=
  match Stated.descend n segments with
  | Some x => route x
  | None => None
  end.

(** A template segment admits a path segment when it is a parameter or a
    wildcard, or is the path segment itself. *)
Definition admits (template seg : string) : bool :=
  HasPrefix template ":" || bool_decide (template = "*" ∨ template = "**")
  || bool_decide (template = seg).

(** A template admits a path when they have as many segments and each
    template segment admits its path segment. *)
Fixpoint admitsPath (template path : list string) : bool :=
  match template, path with
  | [], [] => true
  | t :: ts, p :: ps => admits t p && admitsPath ts ps
  | _, _ => false
  end.

(** The parameters a template binds on a path: each parameter segment
    [:name] binds [name] to the path segment at its place, later
    segments overwriting earlier ones of the same name. *)
Fixpoint bindParams (template path : list string) (params : gmap string string)
    : gmap string string :=
  match template, path with
  | t :: ts, p :: ps =>
      bindParams ts ps
        (if HasPrefix t ":" then <[TrimPrefix t ":" := p]> params else params)
  | _, _ => params
  end.

End Paths.

(** The segments of a path in normal form: no segment holds a slash, and
    the first and the last segment are not empty. *)
Module Segments.
Import Strings.

Fixpoint noSlash (s : string) : bool :=
  match s with
  | EmptyString => true
  | String c s' => negb (bool_decide (c = slash)) && noSlash s'
  end.

(** The string is not empty and its last character is not a slash. *)
Fixpoint endsClean (s : string) : bool :=
  match s with
  | EmptyString => false
  | String c EmptyString => negb (bool_decide (c = slash))
  | String c s' => endsClean s'
  end.

Definition clean (segments : list string) : Prop :=
  Forall (λ s, noSlash s = true) segments
  ∧ head segments ≠ Some ""
  ∧ last segments ≠ Some "".

End Segments.

(* ===================================================================== *)
(** * package strings and jwt, continued                                  *)
(* ===================================================================== *)

Module StringsMore.
Import Strings.

(** [occurs sep s]: [sep] is a substring of [s]. *)
Fixpoint occurs (sep s : string) : bool :=
  match s with
  | EmptyString => HasPrefix EmptyString sep
  | String _ s' => HasPrefix s sep || occurs sep s'
  end.

(** [split_on sep skip cur s]: the pieces of [s] between occurrences of
    [sep], where [cur] (reversed) is the piece being read and the first
    [skip] characters of [s] are the rest of a separator just found. *)
Fixpoint split_on (sep : string) (skip : nat) (cur : string) (s : string)
    : list string :=
  match s with
  | EmptyString => [String.rev cur]
  | String c s' =>
      match skip with
      | S k => split_on sep k cur s'
      | O =>
          if HasPrefix s sep then
            String.rev cur :: split_on sep (String.length sep - 1) EmptyString s'
          else split_on sep O (String c cur) s'
      end
  end.

(** [strings.Split(s, sep)] for a separator that is not empty: the
    pieces between the occurrences of [sep], taken from the left and not
    overlapping. *)
Definition Split (s sep : string) : list string :=
  split_on sep O EmptyString s.

End StringsMore.

Module JwtMore.
Import Http.

(** [Parser.ParseUnverified]: the token is decoded and the method its
    header names is looked up; nothing is verified. *)
Definition ParseUnverified (decode : string → option Jwt.Token)
    (tokenString : string) : string + (Jwt.Token * Jwt.SigningMethod) :=
  match decode tokenString with
  | None => inl "token is malformed"
  | Some tok =>
      match Jwt.TokenHeader tok !! "alg" with
      | Some (VString alg) =>
          match Jwt.GetSigningMethod alg with
          | None => inl "token is unverifiable: signing method (alg) is unavailable"
          | Some method => inr (tok, method)
          end
      | _ => inl "token is unverifiable: signing method (alg) is unspecified"
      end
  end.

End JwtMore.

(* ===================================================================== *)
(** * package handler, continued: logout and forced revoke                *)
(* ===================================================================== *)

Module Endpoints.
Import Json Errors GoTime Http Handler.

(** [writeError], the same in both handlers. *)
Definition writeError (w : ResponseWriter) (err : gatewayError) : ResponseWriter :=
  let w := HeaderSet "Content-Type" "application/json" w in
  let w := WriteHeader (statusCode err) w in
  Write (JsonBytes (ToJSON err)) w.

Definition MethodDelete : string := "DELETE".

Module AdminRevoke.

(** [RevokeRequest] *)
Record RevokeRequest := mkRevokeRequest { UserID : string }.

Record t (W : Type) := mk {
  repository : Repository.SessionRepository W;
  apiKey : string;
  jwtExpiration : Duration
}.
Arguments mk {W}.
Arguments repository {W}.
Arguments apiKey {W}.
Arguments jwtExpiration {W}.

(** [NewAdminRevokeHandler] *)
Definition New {W} (repo : Repository.SessionRepository W) (APIKey : string)
    (JWTExpiration : Duration) : t W :=
  {| repository := repo;
     apiKey := APIKey;
     jwtExpiration := if decide (JWTExpiration = 0) then 10 * Hour else JWTExpiration |}.

(** [AdminRevokeHandler.ServeHTTP].  [body] is the request body,
    [decodeBody] what [json.Decoder.Decode] makes of it, [format] the
    RFC 3339 formatting of package [time], and [now] the reading of the
    clock. *)
Definition ServeHTTP {W} (h : t W) (decodeBody : string → string + RevokeRequest)
    (format : Time → string) (now : Time)
    (w : ResponseWriter) (req : Request) (body : string) (s : W)
    : ResponseWriter * W :=
  if negb (bool_decide (Method req = MethodPost)) then
    (writeError w (NewError StatusMethodNotAllowed "MethodNotAllowed"
                     "only POST method is allowed"), s)
  else
    match AdminRevokeHandler.authenticate (apiKey h) req with
    | Some _ =>
        (writeError w (NewError StatusUnauthorized "Unauthorized"
                         "invalid or missing API key"), s)
    | None =>
        match decodeBody body with
        | inl _ =>
            (writeError w (NewError StatusBadRequest "BadRequest"
                             "invalid request body"), s)
        | inr parsed =>
            if decide (UserID parsed = "") then
              (writeError w (NewError StatusBadRequest "BadRequest"
                               "user_id is required"), s)
            else
              let revokedTime := now in
              let expiration := jwtExpiration h in
              match Repository.SetRevokedTime (repository h) (UserID parsed)
                      revokedTime expiration s with
              | (Some _, s') =>
                  (writeError w (NewError StatusInternalServerError
                                   "InternalServerError" "failed to process revoke"), s')
              | (None, s') =>
                  let w := HeaderSet "Content-Type" "application/json" w in
                  let w := WriteHeader StatusOK w in
                  (Write (JsonBytes
                            (JObj [("revoked_at", JStr (format revokedTime));
                                   ("success", JBool true);
                                   ("user_id", JStr (UserID parsed))])) w, s')
              end
        end
    end.

End AdminRevoke.

Module Logout.

Record t (W : Type) := mk {
  repository : Repository.SessionRepository W;
  userIDClaim : string;
  jwtExpiration : Duration
}.
Arguments mk {W}.
Arguments repository {W}.
Arguments userIDClaim {W}.
Arguments jwtExpiration {W}.

(** [NewLogoutHandler] *)
Definition New {W} (repo : Repository.SessionRepository W) (UserIDClaim : string)
    (JWTExpiration : Duration) : t W :=
  {| repository := repo;
     userIDClaim := if decide (UserIDClaim = "") then "sub" else UserIDClaim;
     jwtExpiration := if decide (JWTExpiration = 0) then 10 * Hour else JWTExpiration |}.

(** [LogoutHandler.extractToken]; [TrimSpace] is [strings.TrimSpace]. *)
Definition extractToken (TrimSpace : string → string) (req : Request)
    : string + string :=
  let authHeader := HeaderGet req "Authorization" in
  if decide (authHeader = "") then inl "authorization header is missing"
  else
    match StringsMore.Split authHeader "Bearer " with
    | [_; part] =>
        let token := TrimSpace part in
        if decide (token = "") then inl "token is empty" else inr token
    | _ => inl "invalid authorization header format"
    end.

(** [LogoutHandler.parseTokenUnverified] *)
Definition parseTokenUnverified (decode : string → option Jwt.Token)
    (tokenString : string) : string + MapClaims :=
  match JwtMore.ParseUnverified decode tokenString with
  | inl msg => inl ("failed to parse token: " +:+ msg)
  | inr (token, _) => inr (Jwt.Claims token)
  end.

(** [LogoutHandler.getUserID] *)
Definition getUserID {W} (h : t W) (claims : MapClaims) : string + string :=
  match claims !! userIDClaim h with
  | None => inl ("claim " +:+ userIDClaim h +:+ " not found")
  | Some (VString userID) =>
      if decide (userID = "") then inl ("claim " +:+ userIDClaim h +:+ " is empty")
      else inr userID
  | Some _ => inl ("claim " +:+ userIDClaim h +:+ " is not a string")
  end.

(** [LogoutHandler.ServeHTTP] *)
Definition ServeHTTP {W} (h : t W) (TrimSpace : string → string)
    (decode : string → option Jwt.Token) (now : Time)
    (w : ResponseWriter) (req : Request) (s : W) : ResponseWriter * W :=
  if negb (bool_decide (Method req = MethodDelete)) then
    (writeError w (NewError StatusMethodNotAllowed "MethodNotAllowed"
                     "only DELETE method is allowed"), s)
  else
    match extractToken TrimSpace req with
    | inl _ =>
        (writeError w (NewError StatusUnauthorized "Unauthorized"
                         "missing or invalid authorization header"), s)
    | inr token =>
        match parseTokenUnverified decode token with
        | inl _ =>
            (writeError w (NewError StatusUnauthorized "Unauthorized"
                             "invalid token format"), s)
        | inr claims =>
            match getUserID h claims with
            | inl _ =>
                (writeError w (NewError StatusUnauthorized "Unauthorized"
                                 "invalid token claims"), s)
            | inr userID =>
                let revokedTime := now in
                let expiration := jwtExpiration h in
                match Repository.SetRevokedTime (repository h) userID revokedTime
                        expiration s with
                | (Some _, s') =>
                    (writeError w (NewError StatusInternalServerError
                                     "InternalServerError" "failed to process logout"), s')
                | (None, s') => (WriteHeader StatusNoContent w, s')
                end
            end
        end
    end.

End Logout.

End Endpoints.

(* ===================================================================== *)
(** * More concrete instances                                             *)
(* ===================================================================== *)

Module MoreExamples.
Import Json Errors GoTime Http.

(** A body decoder that knows one body, which names user [u2]. *)
Definition decodeBodyU2 (body : string)
    : string + Endpoints.AdminRevoke.RevokeRequest :=
  if decide (body = "{user_id: u2}") then inr {| Endpoints.AdminRevoke.UserID := "u2" |}
  else inl "invalid character".


Definition revokeU2WrongKey : Request :=
  {| Method := "POST"; Path := "/revoke";
     Header := {[ "X-API-Key" := "guess" ]};
     ReqContext := Background |}.

Definition redisRepository : Repository.RedisSessionRepository.t :=
  Repository.RedisSessionRepository.New Examples.codec2000 "".



(** Trimming of the ASCII space only, for headers that hold no other
    white space. *)
Fixpoint trimLeftSpaces (s : string) : string :=
  match s with
  | String c s' => if decide (c = " "%char) then trimLeftSpaces s' else s
  | EmptyString => EmptyString
  end.

Definition trimSpaces (s : string) : string :=
  String.rev (trimLeftSpaces (String.rev (trimLeftSpaces s))).

Definition logoutU1 : Request :=
  {| Method := "DELETE"; Path := "/logout";
     Header := {[ "Authorization" := "Bearer none.u1." ]};
     ReqContext := Background |}.

(** The stages of the users route over a store whose revoked time, 500,
    is before the token of [u1] was issued. *)
Definition revokeStage500 : Middleware.Middleware Time :=
  Middleware.revokeStage
    (Auth.RevokeMiddleware.New (Examples.fixedRepository (Unix 500)) "" "" false)
    (λ _, ()).

Definition passingFactory : Handler.Factory (Observe.Observed Time) :=
  λ cfg,
    if decide (Routing.Type_ cfg = "jwt") then
      inr (Observe.observedStage 0 Examples.jwtStageK1)
    else if decide (Routing.Type_ cfg = "revoke") then
      inr (Observe.observedStage 1 revokeStage500)
    else if decide (Routing.Type_ cfg = "logging") then
      inr (Observe.observedStage 2 Examples.passStage)
    else inl ("unknown middleware type: " +:+ Routing.Type_ cfg).

Definition passingGateway : Handler.Gateway (Observe.Observed Time) :=
  {| Handler.router := snd (Routing.AddRoute Routing.NewRouter Examples.usersRoute);
     Handler.transporter := Handler.observedTransporter Examples.backend200;
     Handler.middlewareFactory := Some passingFactory |}.

(** The same gateway built without a factory. *)
Definition bareGateway : Handler.Gateway (Observe.Observed Time) :=
  {| Handler.router := snd (Routing.AddRoute Routing.NewRouter Examples.usersRoute);
     Handler.transporter := Handler.observedTransporter Examples.backend200;
     Handler.middlewareFactory := None |}.

(** A route that lists a middleware type no factory knows. *)
Definition limitedRoute : Routing.Route :=
  {| Routing.RoutePath := "/api/v1/reports";
     Routing.Methods := [];
     Routing.RouteBackend := {| Routing.URL := "http://reports:8080"; Routing.Timeout := 0 |};
     Routing.Middleware :=
       [ {| Routing.Type_ := "jwt"; Routing.Config := ∅ |};
         {| Routing.Type_ := "ratelimit"; Routing.Config := ∅ |} ];
     Routing.Priority := 0 |}.

Definition getNowhere : Request :=
  {| Method := "GET"; Path := "/nowhere"; Header := ∅; ReqContext := Background |}.

End MoreExamples.

(* ===================================================================== *)
(** * package middleware, continued: the cors stage                       *)
(* ===================================================================== *)

Module Cors.
Import Errors Http.

Record CORSConfig := mkCORSConfig {
  AllowedOrigins : list string;
  AllowedMethods : list string;
  AllowedHeaders : list string;
  ExposedHeaders : list string;
  AllowCredentials : bool;
  MaxAge : Z
}.

(** [NewCORSMiddleware]: the configuration the stage keeps. *)
Definition NewCORSMiddleware (config : CORSConfig) : CORSConfig :=
  {| AllowedOrigins := AllowedOrigins config;
     AllowedMethods :=
       match AllowedMethods config with
       | [] => ["GET"; "POST"; "PUT"; "DELETE"; "OPTIONS"]
       | ms => ms
       end;
     AllowedHeaders :=
       match AllowedHeaders config with
       | [] => ["Accept"; "Content-Type"; "Authorization"]
       | hs => hs
       end;
     ExposedHeaders := ExposedHeaders config;
     AllowCredentials := AllowCredentials config;
     MaxAge := if decide (MaxAge config = 0) then 3600 else MaxAge config |}.

(** [len(AllowedOrigins) == 1 && AllowedOrigins[0] == "*"] *)
Definition onlyWildcard (m : CORSConfig) : bool :=
  bool_decide (AllowedOrigins m = ["*"]).

(** [CORSMiddleware.isOriginAllowed] *)
Definition isOriginAllowed (m : CORSConfig) (origin : string) : bool :=
  if onlyWildcard m then true
  else bool_decide (origin ∈ AllowedOrigins m).

(** [strings.Join(elems, sep)] *)
Fixpoint Join (elems : list string) (sep : string) : string :=
  match elems with
  | [] => ""
  | [e] => e
  | e :: rest => e +:+ sep +:+ Join rest sep
  end.

(** The header map that [setCORSContext] builds. *)
Definition corsHeadersFor (m : CORSConfig) (origin : string) : gmap string string :=
  let h : gmap string string :=
    {[ "Access-Control-Allow-Origin" := if onlyWildcard m then "*" else origin ]} in
  let h := match AllowedMethods m with
           | [] => h
           | ms => <["Access-Control-Allow-Methods" := Join ms ", "]> h
           end in
  let h := match AllowedHeaders m with
           | [] => h
           | hs => <["Access-Control-Allow-Headers" := Join hs ", "]> h
           end in
  let h := match ExposedHeaders m with
           | [] => h
           | hs => <["Access-Control-Expose-Headers" := Join hs ", "]> h
           end in
  let h := if AllowCredentials m
           then <["Access-Control-Allow-Credentials" := "true"]> h else h in
  if bool_decide (0 < MaxAge m)
  then <["Access-Control-Max-Age" := pretty (MaxAge m)]> h else h.

(** The request context as the cors stage sees it: the context of the
    other stages and the value under [corsHeadersKey], when it is a
    header map. *)
Record CorsContext := mkCorsContext {
  base : Context;
  corsHeaders : option (gmap string string)
}.

(** [CORSMiddleware.setCORSContext] *)
Definition setCORSContext (m : CORSConfig) (ctx : CorsContext) (origin : string)
    : CorsContext :=
  {| base := base ctx; corsHeaders := Some (corsHeadersFor m origin) |}.

(** [CORSMiddleware.Process] *)
Definition Process (m : CORSConfig) (ctx : CorsContext) (req : Request)
    : CorsContext * option error :=
  let origin := HeaderGet req "Origin" in
  if decide (origin = "") then (ctx, None)
  else if negb (isOriginAllowed m origin) then (ctx, None)
  else (setCORSContext m ctx origin, None).

(** [GetCORSHeaders] *)
Definition GetCORSHeaders (ctx : CorsContext) : option (gmap string string) :=
  corsHeaders ctx.

End Cors.

(* ===================================================================== *)
(** * The service behind the gateway, continued: errors and authentication *)
(* ===================================================================== *)

Module MyErrors.

(** An error value of the service, as [errors.As], [errors.Is] and
    unwrapping see it.  The error types of package [myerrors] have no
    [Unwrap], so they end a chain; ogen's decoding and security errors
    and [errors.WithStack] wrap a cause.  [Foreign] and [Wrapped] stand
    for every other error, without and with a cause. *)
Inductive error :=
| InvalidArgumentError (userMessage validationCode rawMessage : string)
| UnauthorizedError (userMessage : string)
| ForbiddenError (userMessage : string)
| NotFoundError (userMessage : string)
| ConflictError (userMessage : string)
| UnprocessableEntityError (userMessage : string)
| SystemError (userMessage detailMessage : string)
| SecurityError (Err : error)
| ErrSecurityRequirementIsNotSatisfied
| DecodeParamsError (Name : string) (Err : error)
| DecodeParamError (Name In : string) (Err : error)
| DecodeBodyError (Err : error)
| WithStack (cause : error)
| Foreign (text : string)
| Wrapped (text : string) (cause : error).

#[global] Instance error_eq_dec : EqDecision error.
Proof. solve_decision. Defined.

(** The errors [errors.As] and [errors.Is] visit: the error, then its
    cause, and so on. *)
Fixpoint chain (e : error) : list error :=
  e :: match e with
       | SecurityError c | DecodeParamsError _ c | DecodeParamError _ _ c
       | DecodeBodyError c | WithStack c | Wrapped _ c => chain c
       | _ => []
       end.

(** [errors.As(err, &target)], where [target] says what a value of the
    wanted type yields: the first error of the chain that has the type. *)
Definition As {A} (target : error → option A) (e : error) : option A :=
  head (omap target (chain e)).

(** [errors.Is(err, reference)] *)
Definition Is (e reference : error) : bool :=
  bool_decide (reference ∈ chain e).

Definition StatusOK : Z := 200.
Definition StatusBadRequest : Z := 400.
Definition StatusUnauthorized : Z := 401.
Definition StatusForbidden : Z := 403.
Definition StatusNotFound : Z := 404.
Definition StatusConflict : Z := 409.
Definition StatusUnprocessableEntity : Z := 422.
Definition StatusInternalServerError : Z := 500.

Definition DefaultMessages : gmap Z string :=
  {[ StatusBadRequest := "入力内容に誤りがあります";
     StatusUnauthorized := "認証が必要です";
     StatusForbidden := "アクセスが許可されていません。再ログインしてください";
     StatusNotFound := "リソースが見つかりません";
     StatusConflict := "リクエストが競合しています";
     StatusUnprocessableEntity := "処理できないリクエストです";
     StatusInternalServerError := "サーバーエラーが発生しました" ]}.

Definition ValidationNameRequired : string := "name.required".
Definition ValidationNameTooShort : string := "name.too_short".
Definition ValidationNameTooLong : string := "name.too_long".
Definition ValidationNameInvalidFormat : string := "name.invalid_format".
Definition ValidationBodyRequired : string := "body.required".
Definition ValidationBodyInvalidFormat : string := "body.invalid_format".
Definition ValidationParameterRequired : string := "parameter.required".
Definition ValidationParameterInvalid : string := "parameter.invalid".
Definition ValidationUnknown : string := "validation.unknown".

Definition ValidationMessages : gmap string string :=
  {[ ValidationNameRequired := "名前を入力してください";
     ValidationNameTooShort := "名前は1文字以上で入力してください";
     ValidationNameTooLong := "名前は100文字以内で入力してください";
     ValidationNameInvalidFormat := "名前の形式が正しくありません";
     ValidationBodyRequired := "リクエストボディを入力してください";
     ValidationBodyInvalidFormat := "リクエストボディの形式が正しくありません";
     ValidationParameterRequired := "必須パラメータが不足しています";
     ValidationParameterInvalid := "パラメータの形式が正しくありません";
     ValidationUnknown := "入力内容に誤りがあります" ]}.

(** [GetValidationMessage]; a missing key reads as the empty string. *)
Definition GetValidationMessage (code : string) : string :=
  match ValidationMessages !! code with
  | Some message => message
  | None => default "" (ValidationMessages !! ValidationUnknown)
  end.

(** [GetDefaultMessage] *)
Definition GetDefaultMessage (statusCode : Z) : string :=
  match DefaultMessages !! statusCode with
  | Some message => message
  | None => "エラーが発生しました"
  end.

(** [NewInvalidArgument], called without details. *)
Definition NewInvalidArgument (userMessage : string) : error :=
  WithStack (InvalidArgumentError userMessage "" "").

Definition NewInvalidArgumentWithCode (code rawMessage : string) : error :=
  WithStack (InvalidArgumentError (GetValidationMessage code) code rawMessage).

Definition NewUnauthorized (userMessage : string) : error :=
  WithStack (UnauthorizedError userMessage).

Definition NewForbidden (userMessage : string) : error :=
  WithStack (ForbiddenError userMessage).

Definition NewConflict (userMessage : string) : error :=
  WithStack (ConflictError userMessage).

(** The cause is dropped. *)
Definition NewUnprocessableEntity (userMessage : string) (cause : option error) : error :=
  WithStack (UnprocessableEntityError userMessage).

(** The cause is dropped. *)
Definition NewSystemError (userMessage detailMessage : string) (cause : option error)
    : error :=
  WithStack (SystemError userMessage detailMessage).

(** What [errors.As] yields for each target type: the [userMessage] of
    the error found, for an [InvalidArgumentError] with its raw message. *)
Definition asInvalidArgument (e : error) : option (string * string) :=
  match e with InvalidArgumentError um _ raw => Some (um, raw) | _ => None end.
Definition asUnauthorized (e : error) : option string :=
  match e with UnauthorizedError um => Some um | _ => None end.
Definition asForbidden (e : error) : option string :=
  match e with ForbiddenError um => Some um | _ => None end.
Definition asNotFound (e : error) : option string :=
  match e with NotFoundError um => Some um | _ => None end.
Definition asConflict (e : error) : option string :=
  match e with ConflictError um => Some um | _ => None end.
Definition asUnprocessable (e : error) : option string :=
  match e with UnprocessableEntityError um => Some um | _ => None end.
Definition asSystem (e : error) : option string :=
  match e with SystemError um _ => Some um | _ => None end.

(** The field [userMessage] of [baseHTTPError], for the error types that
    embed it. *)
Definition userMessageOf (e : error) : option string :=
  match e with
  | InvalidArgumentError um _ _ | UnauthorizedError um | ForbiddenError um
  | NotFoundError um | ConflictError um | UnprocessableEntityError um
  | SystemError um _ => Some um
  | _ => None
  end.

(** [ToHTTPStatus] *)
Definition ToHTTPStatus (err : option error) : Z :=
  match err with
  | None => StatusOK
  | Some e =>
      if As asInvalidArgument e is Some _ then StatusBadRequest
      else if As asUnauthorized e is Some _ then StatusUnauthorized
      else if As asForbidden e is Some _ then StatusForbidden
      else if As asNotFound e is Some _ then StatusNotFound
      else if As asConflict e is Some _ then StatusConflict
      else if As asUnprocessable e is Some _ then StatusUnprocessableEntity
      else if As asSystem e is Some _ then StatusInternalServerError
      else StatusInternalServerError
  end.

(** [GetUserMessage] *)
Definition GetUserMessage (err : option error) : string :=
  match err with
  | None => ""
  | Some e =>
      match As asInvalidArgument e with
      | Some (um, _) => um
      | None =>
      match As asUnauthorized e with
      | Some um => um
      | None =>
      match As asForbidden e with
      | Some um => um
      | None =>
      match As asNotFound e with
      | Some um => um
      | None =>
      match As asConflict e with
      | Some um => um
      | None =>
      match As asUnprocessable e with
      | Some um => um
      | None =>
      match As asSystem e with
      | Some um => um
      | None => "An unexpected error occurred"
      end end end end end end end
  end.

End MyErrors.

Module ErrorHandling.
Import Json MyErrors.

(** [contains]: some index [i] with [0 <= i <= len(s) - len(substr)] has
    [s[i:i+len(substr)] == substr]. *)
Definition contains (s substr : string) : bool :=
  if decide (String.length substr ≤ String.length s)%nat then
    existsb (λ i, bool_decide (substring i (String.length substr) s = substr))
            (seq 0 (String.length s - String.length substr + 1))
  else false.

Definition quote : string := String (ascii_of_nat 34) EmptyString.

Section Ogen.

(** The [Error()] method of the errors. *)
Variable Error : error → string.

(** [mapOgenParamsError], on the operation name and the cause of a
    [DecodeParamsError]. *)
Definition mapOgenParamsError (Name : string) (Err : error) : string * string :=
  let rawMsg := "invalid parameters for operation " +:+ Name +:+ ": " +:+ Error Err in
  let innerMsg := Error Err in
  if contains innerMsg ("query: " +:+ quote +:+ "name" +:+ quote) then
    if contains innerMsg "greater than maximum" || contains innerMsg "maxLength" then
      (ValidationNameTooLong, rawMsg)
    else if contains innerMsg "less than minimum" || contains innerMsg "minLength" then
      (ValidationNameTooShort, rawMsg)
    else if contains innerMsg "required" then
      (ValidationNameRequired, rawMsg)
    else (ValidationParameterInvalid, rawMsg)
  else (ValidationParameterInvalid, rawMsg).

(** [mapOgenParamError] *)
Definition mapOgenParamError (Name In : string) (Err : error) : string * string :=
  let rawMsg :=
    "invalid parameter: " +:+ Name +:+ " (" +:+ In +:+ "): " +:+ Error Err in
  let errMsg := Error Err in
  let paramName := Name in
  if decide (paramName = "name") then
    if contains errMsg "required" then (ValidationNameRequired, rawMsg)
    else if contains errMsg "minLength" || contains errMsg "short" then
      (ValidationNameTooShort, rawMsg)
    else if contains errMsg "maxLength" || contains errMsg "exceed"
            || contains errMsg "long" then
      (ValidationNameTooLong, rawMsg)
    else if contains errMsg "format" then (ValidationNameInvalidFormat, rawMsg)
    else (ValidationParameterInvalid, rawMsg)
  else (ValidationParameterInvalid, rawMsg).

(** [mapOgenBodyError] *)
Definition mapOgenBodyError (Err : error) : string * string :=
  let rawMsg := "invalid request body: " +:+ Error Err in
  let errMsg := Error Err in
  if contains errMsg "required" then (ValidationBodyRequired, rawMsg)
  else (ValidationBodyInvalidFormat, rawMsg).

Definition asSecurityError (e : error) : option error :=
  match e with SecurityError c => Some c | _ => None end.
Definition asDecodeParamsError (e : error) : option (string * error) :=
  match e with DecodeParamsError n c => Some (n, c) | _ => None end.
Definition asDecodeParamError (e : error) : option (string * string * error) :=
  match e with DecodeParamError n i c => Some (n, i, c) | _ => None end.
Definition asDecodeBodyError (e : error) : option error :=
  match e with DecodeBodyError c => Some c | _ => None end.

(** [ConvertOgenError] *)
Definition ConvertOgenError (err : option error) : option error :=
  match err with
  | None => None
  | Some e =>
      Some (
        if As asSecurityError e is Some _ then NewUnauthorized "認証が必要です"
        else if Is e ErrSecurityRequirementIsNotSatisfied then
          NewUnauthorized "認証が必要です"
        else
          match As asDecodeParamsError e with
          | Some (n, c) =>
              let '(code, rawMsg) := mapOgenParamsError n c in
              NewInvalidArgumentWithCode code rawMsg
          | None =>
          match As asDecodeParamError e with
          | Some (n, i, c) =>
              let '(code, rawMsg) := mapOgenParamError n i c in
              NewInvalidArgumentWithCode code rawMsg
          | None =>
          match As asDecodeBodyError e with
          | Some c =>
              let '(code, rawMsg) := mapOgenBodyError c in
              NewInvalidArgumentWithCode code rawMsg
          | None => WithStack e
          end end end)
  end.

(** [classify] *)
Definition classify (err : error) : Z * string * string * string :=
  let status := ToHTTPStatus (Some err) in
  let title := GetDefaultMessage status in
  let detail := GetUserMessage (Some err) in
  let detail :=
    if decide (detail = "" ∨ detail = "An unexpected error occurred")
    then title else detail in
  match As asInvalidArgument err with
  | Some (msg, raw) =>
      (status, title, if decide (msg ≠ "") then msg else detail, raw)
  | None => (status, title, detail, "")
  end.

(** A [*http.Request] with its URL, either of which may be nil: the path
    of the URL when both are there. *)
Definition HttpRequest := option (option string).

(** [ProblemDetails] *)
Definition ProblemDetails := gmap string json.

(** [buildProblemDetails] *)
Definition buildProblemDetails (r : HttpRequest) (status : Z) (title detail : string)
    : ProblemDetails :=
  let title := if decide (title = "") then GetDefaultMessage status else title in
  let detail :=
    if decide (detail = "" ∨ detail = "An unexpected error occurred")
    then title else detail in
  let pd : ProblemDetails :=
    {[ "type" := JStr "about:blank";
       "title" := JStr title;
       "status" := JNum status;
       "detail" := JStr detail ]} in
  match r with
  | Some (Some path) => <["instance" := JStr path]> pd
  | _ => pd
  end.

(** [json.NewEncoder(w).Encode(pd)] writes the members of a map in the
    order of their keys. *)
Definition Encode (pd : ProblemDetails) : json :=
  JObj (merge_sort (λ a b, Is_true (String.leb a.1 b.1)) (map_to_list pd)).

(** The members of a problem-details object, in the order of their
    names. *)
Definition problemMembers (r : HttpRequest) (status : Z) (title detail : string)
    : list (string * json) :=
  ("detail", JStr detail)
  :: match r with
     | Some (Some path) => [("instance", JStr path)]
     | _ => []
     end
  ++ [("status", JNum status); ("title", JStr title); ("type", JStr "about:blank")].

Inductive Level := LevelWarn | LevelError.

(** A log record: its level, the map logged as [err] and the stack
    logged with it, if any. *)
Record LogRecord := mkLogRecord {
  level : Level;
  logErr : ProblemDetails;
  stack : option string
}.

(** The text [fmt.Sprintf] gives an error for the verb [%+v]. *)
Variable Verbose : error → string.

(** [ErrorHandler], acting on the response writer and on the records
    logged so far (the last one first).  Writing to the response writer
    does not fail. *)
Definition ErrorHandler (w : Handler.ResponseWriter) (r : HttpRequest)
    (err : option error) (log : list LogRecord)
    : Handler.ResponseWriter * list LogRecord :=
  match ConvertOgenError err with
  | None => (w, log)
  | Some err =>
      let '(statusCode, title, detail, rawMessage) := classify err in
      let pd := buildProblemDetails r statusCode title detail in
      let logErr :=
        if decide (rawMessage ≠ "") then <["raw_err" := JStr rawMessage]> pd
        else pd in
      let record :=
        if decide (StatusInternalServerError ≤ statusCode) then
          mkLogRecord LevelError logErr (Some (Verbose err))
        else mkLogRecord LevelWarn logErr None in
      let w := Handler.HeaderSet "Content-Type" "application/problem+json" w in
      let w := Handler.WriteHeader statusCode w in
      (Handler.Write (Handler.JsonBytes (Encode pd)) w, record :: log)
  end.

End Ogen.

End ErrorHandling.

Module Authn.
Import Strings StringsMore Rest.

(** [auth.IsValidRole] *)
Definition IsValidRole (role : string) : bool :=
  bool_decide (role = RoleAdmin) || bool_decide (role = RoleUser).

(** An ogen [middleware.Request] as the authentication stage sees it:
    the operation, the [Authorization] header of the raw request and the
    claims its context holds. *)
Record Request := mkRequest {
  OperationID : string;
  Authorization : string;
  Context : option Claims
}.

(** [middleware.Next] *)
Definition Next (W : Type) : Type :=
  Request → W → (Response * option MyErrors.error) * W.

Section Decoders.

(** [base64.RawURLEncoding.DecodeString] and [json.Unmarshal] into
    [auth.Claims]; [None] is an error. *)
Variable DecodeString : string → option string.
Variable Unmarshal : string → option Claims.

(** [extractClaims] *)
Definition extractClaims (tokenString : string) : MyErrors.error + Claims :=
  let parts := Split tokenString "." in
  if decide (length parts ≠ 3%nat) then
    inl (MyErrors.NewUnauthorized "トークン形式が不正です")
  else
    match DecodeString (default "" (parts !! 1%nat)) with
    | None => inl (MyErrors.NewUnauthorized "ペイロードのデコードに失敗しました")
    | Some payload =>
        match Unmarshal payload with
        | None => inl (MyErrors.NewUnauthorized "Claimsの解析に失敗しました")
        | Some claims => inr claims
        end
    end.

(** [AuthnMiddleware.Handle] *)
Definition Handle {W} (req : Request) (next : Next W) (s : W)
    : (Response * option MyErrors.error) * W :=
  let authHeader := Authorization req in
  if decide (authHeader = "") then
    ((None, Some (MyErrors.NewUnauthorized "認証トークンが必要です")), s)
  else
    let bearerPrefix := "Bearer " in
    if negb (HasPrefix authHeader bearerPrefix) then
      ((None, Some (MyErrors.NewUnauthorized "認証形式が不正です")), s)
    else
      let tokenString := TrimPrefix authHeader bearerPrefix in
      if decide (tokenString = "") then
        ((None, Some (MyErrors.NewUnauthorized "認証トークンが空です")), s)
      else
        match extractClaims tokenString with
        | inl _ =>
            ((None, Some (MyErrors.NewUnauthorized "トークンの解析に失敗しました")), s)
        | inr claims =>
            if negb (IsValidRole (Role claims)) then
              ((None, Some (MyErrors.NewUnauthorized "無効なロールです")), s)
            else
              next {| OperationID := OperationID req;
                      Authorization := Authorization req;
                      Context := Some claims |} s
        end.

End Decoders.

(** The error of the authorization stage, as package [myerrors] builds
    it. *)
Definition httpError (e : HTTPError) : MyErrors.error :=
  match e with
  | Rest.UnauthorizedError userMessage => MyErrors.NewUnauthorized userMessage
  | Rest.ForbiddenError userMessage => MyErrors.NewForbidden userMessage
  end.

(** [AuthzMiddleware.Handle] as the next stage of the authentication
    stage: it is given the request passed on, and its error is the value
    package [myerrors] builds. *)
Definition thenAuthz {W} (next : Rest.Next W) : Next W :=
  λ req s,
    let '((resp, err), s') :=
      Rest.Handle {| Rest.OperationID := OperationID req;
                     Rest.FromContext := Context req |} next s in
    ((resp, httpError <$> err), s').

End Authn.

(* ===================================================================== *)
(** * Properties                                                          *)
(* ===================================================================== *)

Import Json Errors GoTime Http.

(** ** Instants *)

Lemma Before_lt (t u : Time) :
  valid t → valid u → (Before t u = true ↔ lt t u).
Proof.
  unfold valid, Before, lt. intros Ht Hu.
  rewrite orb_true_iff, andb_true_iff, !bool_decide_eq_true. lia.
Qed.

Lemma Before_false_le (t u : Time) :
  valid t → valid u → (Before t u = false ↔ le u t).
Proof.
  intros Ht Hu. rewrite <- not_true_iff_false, Before_lt by done.
  unfold lt, le. lia.
Qed.

Lemma Unix_valid (s : Z) : valid (Unix s).
Proof. unfold valid, Unix. simpl. lia. Qed.

Lemma int64_in_range (z : Z) : - 2 ^ 63 <= z < 2 ^ 63 → int64 z = z.
Proof. intros H. unfold int64. rewrite Z.mod_small by lia. lia. Qed.

Lemma Unix_in_range (s : Z) :
  - 2 ^ 63 <= s + unixToInternal < 2 ^ 63 → sec (Unix s) = s + unixToInternal.
Proof. intros H. simpl. by apply int64_in_range. Qed.

(** ** The revocation stage *)

Section Revoke.
Context {W : Type} (m : Auth.RevokeMiddleware.t W).
Import Auth.RevokeMiddleware.

Lemma getIssuedAt_valid (claims : MapClaims) (T0 : Time) :
  getIssuedAt m claims = inr T0 → valid T0.
Proof.
  unfold getIssuedAt. intros H.
  destruct (claims !! issuedAtClaim m) as [[]|]; simplify_eq; apply Unix_valid.
Qed.

Lemma getUserID_of_claim (claims : MapClaims) (u : string) :
  claims !! userIDClaim m = Some (VString u) → u ≠ "" →
  getUserID m claims = inr u.
Proof. intros Hu Hne. unfold getUserID. rewrite Hu. by rewrite decide_False. Qed.

Lemma getIssuedAt_numeric (claims : MapClaims) (v : Value) (s : Z) :
  claims !! issuedAtClaim m = Some v → Stated.wholeSecond v = Some s →
  ∃ T0, getIssuedAt m claims = inr T0.
Proof.
  intros Hv Hs. unfold getIssuedAt. rewrite Hv.
  destruct v; simplify_eq/=; eauto.
Qed.

Lemma getIssuedAt_of_claim (claims : MapClaims) (v : Value) (s : Z) :
  claims !! issuedAtClaim m = Some v → Stated.wholeSecond v = Some s →
  - 2 ^ 63 <= s < 2 ^ 63 →
  getIssuedAt m claims = inr (Unix s).
Proof.
  intros Hv Hs Hr. unfold getIssuedAt. rewrite Hv.
  destruct v; simplify_eq/=; try done.
  unfold int64OfFloat64, truncate. by rewrite decide_True.
Qed.

(** The decision of the stage for claims that give user [u] and second
    [T0], against the revoked time [T1] the store answers. *)
Lemma Process_at_second (store : W) (ctx : Context) (req : Request)
    (claims : MapClaims) (u : string) (v : Value) (T0 : Z) (T1 : Time) :
  Auth.GetClaimsFromContext ctx = Some claims →
  claims !! userIDClaim m = Some (VString u) →
  u ≠ "" →
  claims !! issuedAtClaim m = Some v →
  Stated.wholeSecond v = Some T0 →
  - 2 ^ 63 <= T0 < 2 ^ 63 - unixToInternal →
  Repository.GetRevokedTime (repository m) u store = (T1, None) →
  valid T1 →
  Process m store ctx req
  = (ctx, if IsZero T1 then None
          else if decide (T0 * 1000000000 < Stated.unixNano T1)
               then Some (GatewayErr (NewError StatusUnauthorized "Unauthorized"
                                        "token has been revoked"))
               else None).
Proof.
  intros Hc Hu Hne Hv Hw Hr Hs Hv1.
  assert (Hi : getIssuedAt m claims = inr (Unix T0)).
  { apply (getIssuedAt_of_claim claims v); [done..|]. unfold unixToInternal in Hr. lia. }
  pose proof (Unix_valid T0) as Hv0.
  assert (Hsec : sec (Unix T0) = T0 + unixToInternal).
  { apply Unix_in_range. unfold unixToInternal in *. lia. }
  unfold Process. rewrite Hc, (getUserID_of_claim claims u Hu Hne), Hi, Hs.
  destruct (IsZero T1); [done|].
  destruct (Before (Unix T0) T1) eqn:Hb.
  - apply Before_lt in Hb as Hlt; [|done..].
    unfold lt in Hlt. rewrite Hsec in Hlt. change (nsec (Unix T0)) with 0 in Hlt.
    rewrite decide_True; [done|]. unfold Stated.unixNano. lia.
  - apply Before_false_le in Hb as Hle; [|done..].
    unfold le in Hle. rewrite Hsec in Hle. change (nsec (Unix T0)) with 0 in Hle.
    rewrite decide_False; [done|]. unfold Stated.unixNano. lia.
Qed.

(** C1, amended. When the context carries claims with user id [u] and a
    numeric issued-at claim whose whole second is [T0], a second that
    [time.Unix] holds without wrapping around
    ([-2^63 <= T0 < 2^63 - 62135596800]), and the session store answers
    the revoked time [T1] for [u]: the stage passes if [T1] is the zero
    time (no marker) or if the instant [T1] is not after second [T0];
    and it returns the 401 error with message "token has been revoked"
    exactly when there is a marker and second [T0] is before [T1]. *)
Theorem revoke_process_decision (store : W) (ctx : Context) (req : Request)
    (claims : MapClaims) (u : string) (v : Value) (T0 : Z) (T1 : Time) :
  Auth.GetClaimsFromContext ctx = Some claims →
  claims !! userIDClaim m = Some (VString u) →
  u ≠ "" →
  claims !! issuedAtClaim m = Some v →
  Stated.wholeSecond v = Some T0 →
  - 2 ^ 63 <= T0 < 2 ^ 63 - unixToInternal →
  Repository.GetRevokedTime (repository m) u store = (T1, None) →
  valid T1 →
  (IsZero T1 = true ∨ Stated.unixNano T1 <= T0 * 1000000000
   → Process m store ctx req = (ctx, None))
  ∧ (Process m store ctx req
       = (ctx, Some (GatewayErr (NewError StatusUnauthorized "Unauthorized"
                                   "token has been revoked")))
     ↔ IsZero T1 = false ∧ T0 * 1000000000 < Stated.unixNano T1).
Proof.
  intros Hc Hu Hne Hv Hw Hr Hs Hv1.
  rewrite (Process_at_second store ctx req claims u v T0 T1) by done.
  destruct (IsZero T1).
  - split; [done|]. split; [discriminate | intros [? _]; discriminate].
  - case_decide as Hlt.
    + split; [intros [?|?]; [done|lia] | done].
    + split; [done|]. split; [discriminate | intros [_ ?]; lia].
Qed.

End Revoke.

(** With the Redis repository, a user without an entry has the zero
    revoked time. *)
Lemma redis_absent_marker_is_zero (r : Repository.RedisSessionRepository.t)
    (u : string) (srv : Redis.Server) :
  Redis.fault srv = None →
  Redis.entries srv !! Repository.RedisSessionRepository.makeKey r u = None →
  Repository.RedisSessionRepository.GetRevokedTime r u srv = (zero, None).
Proof.
  intros Hf He. unfold Repository.RedisSessionRepository.GetRevokedTime, Redis.Get.
  rewrite Hf, He. done.
Qed.

(** ** The session repository *)

(** C9. For every user id, revoked time and every time-to-live that is
    not positive, [SetRevokedTime] returns nil and leaves the store as it
    was. *)
Theorem set_revoked_time_nonpositive_ttl (r : Repository.RedisSessionRepository.t)
    (userID : string) (revokedTime : Time) (expiration : Duration)
    (srv : Redis.Server) :
  expiration <= 0 →
  Repository.RedisSessionRepository.SetRevokedTime r userID revokedTime expiration srv
  = (None, srv).
Proof.
  intros H. unfold Repository.RedisSessionRepository.SetRevokedTime.
  by rewrite bool_decide_eq_true_2.
Qed.

(** With a positive time-to-live and a reachable server the entry is
    written, so the guard above is what keeps the store unchanged. *)
Lemma set_revoked_time_positive_ttl (r : Repository.RedisSessionRepository.t)
    (userID : string) (revokedTime : Time) (expiration : Duration)
    (srv : Redis.Server) :
  0 < expiration → Redis.fault srv = None →
  Redis.entries
    (snd (Repository.RedisSessionRepository.SetRevokedTime r userID revokedTime
            expiration srv))
  !! Repository.RedisSessionRepository.makeKey r userID
  = Some (Repository.Format (Repository.RedisSessionRepository.codec r) revokedTime,
          expiration).
Proof.
  intros H Hf. unfold Repository.RedisSessionRepository.SetRevokedTime, Redis.Set_.
  rewrite bool_decide_eq_false_2 by lia. rewrite Hf. simpl.
  apply lookup_insert_eq.
Qed.

Lemma revoke_process_decision_witness :
  let m := Auth.RevokeMiddleware.New (Examples.fixedRepository (Unix 2000)) "" "" false in
  let ctx := WithClaims Background Examples.claimsU1 in
  (IsZero (Unix 2000) = true ∨ Stated.unixNano (Unix 2000) <= 1000 * 1000000000
   → Auth.RevokeMiddleware.Process m () ctx Examples.getUsers = (ctx, None))
  ∧ (Auth.RevokeMiddleware.Process m () ctx Examples.getUsers
       = (ctx, Some (GatewayErr (NewError StatusUnauthorized "Unauthorized"
                                   "token has been revoked")))
     ↔ IsZero (Unix 2000) = false ∧ 1000 * 1000000000 < Stated.unixNano (Unix 2000)).
Proof.
  apply (revoke_process_decision
           (Auth.RevokeMiddleware.New (Examples.fixedRepository (Unix 2000)) "" "" false)
           () (WithClaims Background Examples.claimsU1) Examples.getUsers
           Examples.claimsU1 "u1" (VFloat64 (1000 # 1)) 1000 (Unix 2000)).
  - reflexivity.
  - reflexivity.
  - discriminate.
  - reflexivity.
  - reflexivity.
  - unfold unixToInternal; lia.
  - reflexivity.
  - unfold valid; simpl; lia.
Defined.

(** Outside that range the decision is another: for claims issued at
    second [2^63 - 1024] (a [float64]) and the marker at second 2000, the
    marker is not after the issue time, and the stage answers 401
    "token has been revoked": [time.Unix] wraps the second around to an
    instant before the marker. *)
Lemma revoke_process_wraps_issued_at :
  let m := Auth.RevokeMiddleware.New (Examples.fixedRepository (Unix 2000)) "" "" false in
  let ctx := WithClaims Background Examples.claimsFarFuture in
  Examples.claimsFarFuture !! "sub" = Some (VString "u1")
  ∧ Examples.claimsFarFuture !! "iat" = Some (VFloat64 (9223372036854774784 # 1))
  ∧ Stated.wholeSecond (VFloat64 (9223372036854774784 # 1)) = Some 9223372036854774784
  ∧ Stated.unixNano (Unix 2000) <= 9223372036854774784 * 1000000000
  ∧ Auth.RevokeMiddleware.Process m () ctx Examples.getUsers
    = (ctx, Some (GatewayErr (NewError StatusUnauthorized "Unauthorized"
                                "token has been revoked")))
  ∧ ¬ (IsZero (Unix 2000) = true
       ∨ Stated.unixNano (Unix 2000) <= 9223372036854774784 * 1000000000
       → Auth.RevokeMiddleware.Process m () ctx Examples.getUsers = (ctx, None)).
Proof.
  assert (Hp : Auth.RevokeMiddleware.Process
                 (Auth.RevokeMiddleware.New (Examples.fixedRepository (Unix 2000)) "" "" false)
                 () (WithClaims Background Examples.claimsFarFuture) Examples.getUsers
               = (WithClaims Background Examples.claimsFarFuture,
                  Some (GatewayErr (NewError StatusUnauthorized "Unauthorized"
                                      "token has been revoked")))).
  { vm_compute. reflexivity. }
  intros m ctx. split_and!.
  - reflexivity.
  - reflexivity.
  - reflexivity.
  - vm_compute. discriminate.
  - exact Hp.
  - intros H.
    assert (Hle : Stated.unixNano (Unix 2000) <= 9223372036854774784 * 1000000000)
      by (vm_compute; discriminate).
    specialize (H (or_intror Hle)).
    unfold m, ctx in H. rewrite Hp in H. discriminate H.
Qed.

Lemma set_revoked_time_nonpositive_ttl_witness :
  Repository.RedisSessionRepository.SetRevokedTime
    (Repository.RedisSessionRepository.New Examples.codec2000 "")
    "u1" (Unix 2000) 0 Examples.emptyServer
  = (None, Examples.emptyServer).
Proof.
  apply (set_revoked_time_nonpositive_ttl
           (Repository.RedisSessionRepository.New Examples.codec2000 "")
           "u1" (Unix 2000) 0 Examples.emptyServer).
  lia.
Defined.

(** ** The error writer of the gateway *)




(** ** The jwt stage *)

Lemma length_append (a b : string) :
  String.length (a +:+ b) = (String.length a + String.length b)%nat.
Proof. induction a as [|c a IH]; simpl; [done | by rewrite IH]. Qed.

Lemma bearer_prefix_trimmed (ts : string) :
  Strings.TrimPrefix ("Bearer " +:+ ts) "Bearer " = ts
  ∧ ts ≠ "Bearer " +:+ ts
  ∧ "Bearer " +:+ ts ≠ "".
Proof.
  split; [reflexivity|]. split; [|discriminate].
  intros H. apply (f_equal String.length) in H.
  rewrite length_append in H. simpl in H. lia.
Qed.

(** The names of the methods that pass the type test of the key
    function. *)
Lemma isSigningMethodRSA_names (alg : string) (method : Jwt.SigningMethod) :
  Jwt.GetSigningMethod alg = Some method →
  Jwt.isSigningMethodRSA method = true →
  alg ∈ ["RS256"; "RS384"; "RS512"].
Proof.
  unfold Jwt.GetSigningMethod. intros H Hrsa.
  repeat (case_decide; [simplify_eq; first [discriminate Hrsa | set_solver] |]).
  discriminate.
Qed.

(** A token that names RS384 and is signed accordingly, with a known
    key, is accepted although its algorithm is not RS256: the stage
    stores its claims and returns no error. *)
Lemma jwt_accepts_RS384 :
  Jwt.TokenHeader Examples.tokenRS384 !! "alg" = Some (VString "RS384")
  ∧ Auth.JWTMiddleware.SkipValidation Examples.jwtK1 = false
  ∧ Auth.JWTMiddleware.Process Examples.jwtK1 Examples.decodeKnown (Unix 1500)
      Background (Examples.bearer "rs384.u1.sig")
    = (WithClaims Background Examples.claimsU1, None).
Proof. split; [|split]; vm_compute; reflexivity. Qed.

(** C3, amended. With skip-validation off, for every bearer token whose
    header names an algorithm other than RS256, RS384 and RS512 (the
    three methods of the RSA PKCS #1 v1.5 family), [Process] returns an
    Unauthorized error and leaves the context as it was. *)
Theorem jwt_rejects_non_RSA (m : Auth.JWTMiddleware.t)
    (decode : string → option Jwt.Token) (now : Time) (ctx : Context)
    (req : Request) (tokenString alg : string) (tok : Jwt.Token) :
  Auth.JWTMiddleware.SkipValidation m = false →
  HeaderGet req "Authorization" = "Bearer " +:+ tokenString →
  decode tokenString = Some tok →
  Jwt.TokenHeader tok !! "alg" = Some (VString alg) →
  alg ∉ ["RS256"; "RS384"; "RS512"] →
  ∃ msg, Auth.JWTMiddleware.Process m decode now ctx req
         = (ctx, Some (GatewayErr (NewUnauthorizedError msg))).
Proof.
  intros Hskip Hh Hd Halg Hnot.
  destruct (bearer_prefix_trimmed tokenString) as (Htrim & Hne & Hnonempty).
  unfold Auth.JWTMiddleware.Process. rewrite Hh, Htrim.
  destruct (decide _) as [He|_]; [by destruct Hnonempty|].
  destruct (decide _) as [He|_]; [by destruct Hne|].
  rewrite Hskip. unfold Jwt.Parse. rewrite Hd, Halg.
  destruct (Jwt.GetSigningMethod alg) as [method|] eqn:Hm; [|by eexists].
  unfold Auth.JWTMiddleware.keyFunc.
  destruct (Jwt.isSigningMethodRSA method) eqn:Hrsa; [|by eexists].
  destruct Hnot. by eapply isSigningMethodRSA_names.
Qed.

Lemma jwt_rejects_non_RSA_witness :
  ∃ msg, Auth.JWTMiddleware.Process Examples.jwtK1 Examples.decodeKnown (Unix 1500)
           Background (Examples.bearer "hs256.u1.sig")
         = (Background, Some (GatewayErr (NewUnauthorizedError msg))).
Proof.
  apply (jwt_rejects_non_RSA Examples.jwtK1 Examples.decodeKnown (Unix 1500)
           Background (Examples.bearer "hs256.u1.sig") "hs256.u1.sig" "HS256"
           Examples.tokenHS256).
  - reflexivity.
  - reflexivity.
  - reflexivity.
  - reflexivity.
  - intros H. repeat (apply elem_of_cons in H as [H|H]; [discriminate H|]).
    by apply elem_of_nil in H.
Defined.

(** ** The authorization stage of the service *)

(** For an operation without an entry in the role map the stage denies
    with a Forbidden error, but its message is not the one stated. *)
Lemma authz_message_differs :
  Rest.authorizeRoleMap !! Rest.OperationID Examples.deleteUsersByAdmin = None
  ∧ ∃ msg, Rest.Handle Examples.deleteUsersByAdmin Examples.countingNext 0%nat
           = ((None, Some (Rest.ForbiddenError msg)), 0%nat)
           ∧ msg ≠ "no role mapping — default deny".
Proof.
  split; [reflexivity|]. eexists. split; [reflexivity|]. discriminate.
Qed.

(** C8, amended. For every request whose operation id is absent from the
    role map, whatever claims it carries, the stage returns the zero
    response and a Forbidden error whose message is
    "この操作を実行する権限がありません（ロールマッピング未定義）",
    and the world is as it was: the next handler, whatever it does to
    the world, is not invoked. *)
Theorem authz_default_deny {W : Type} (req : Rest.Request) (next : Rest.Next W) (s : W) :
  Rest.authorizeRoleMap !! Rest.OperationID req = None →
  Rest.Handle req next s
  = ((None, Some (Rest.ForbiddenError
        "この操作を実行する権限がありません（ロールマッピング未定義）")), s).
Proof. intros H. unfold Rest.Handle. by rewrite H. Qed.

Lemma authz_default_deny_witness :
  Rest.Handle Examples.deleteUsersByAdmin Examples.countingNext 0%nat
  = ((None, Some (Rest.ForbiddenError
        "この操作を実行する権限がありません（ロールマッピング未定義）")), 0%nat).
Proof.
  apply (authz_default_deny Examples.deleteUsersByAdmin Examples.countingNext 0%nat).
  reflexivity.
Defined.

(** ** The gateway handler *)

(** C10. For every request with method OPTIONS the handler has one
    outcome: status 204 is written on the response, nothing is added to
    the body, and the observed world is as it was, so no stage was
    invoked (no authentication, revocation or authorization check ran)
    and the transporter was not called.  The router is not consulted:
    the outcome does not depend on it. *)
Theorem options_no_content {W : Type} (g : Handler.Gateway (Observe.Observed W))
    (w : Handler.ResponseWriter) (r : Request) (s : W) (journal : list Observe.Event) :
  Method r = MethodOptions →
  Handler.ServeHTTP g w r (s, journal)
  = [(Handler.WriteHeader StatusNoContent w, (s, journal))]
  ∧ Handler.body (Handler.WriteHeader StatusNoContent w) = Handler.body w
  ∧ (Handler.wrote w = None →
     Handler.wrote (Handler.WriteHeader StatusNoContent w) = Some (204, Handler.header w)).
Proof.
  intros Hm. unfold Handler.ServeHTTP. rewrite decide_True by done.
  split; [done|]. unfold Handler.WriteHeader.
  destruct (Handler.wrote w); split; done.
Qed.

Lemma options_no_content_witness :
  let r := {| Method := "OPTIONS"; Path := "/api/v1/users"; Header := ∅;
              ReqContext := Background |} in
  Handler.ServeHTTP Examples.usersGateway Handler.NewRecorder r (Unix 1500, [])
  = [(Handler.WriteHeader StatusNoContent Handler.NewRecorder, (Unix 1500, []))]
  ∧ Handler.body (Handler.WriteHeader StatusNoContent Handler.NewRecorder)
    = Handler.body Handler.NewRecorder
  ∧ (Handler.wrote Handler.NewRecorder = None →
     Handler.wrote (Handler.WriteHeader StatusNoContent Handler.NewRecorder)
     = Some (204, Handler.header Handler.NewRecorder)).
Proof.
  apply (options_no_content Examples.usersGateway Handler.NewRecorder
           {| Method := "OPTIONS"; Path := "/api/v1/users"; Header := ∅;
              ReqContext := Background |} (Unix 1500) []).
  reflexivity.
Defined.

(** ** The middleware chain *)

Section Chain.
Context {W : Type}.
Import Middleware Observe.

(** Stages that all pass leave one journal entry each. *)
Lemma execute_observed_pass (pre rest : Chain W) (i : nat) (ctx ctx1 : Context)
    (req : Request) (s s1 : W) (journal : list Event) :
  Execute pre ctx req s = ((ctx1, None), s1) →
  Execute (observedFrom i (pre ++ rest)) ctx req (s, journal)
  = Execute (observedFrom (i + length pre) rest) ctx1 req
      (s1, journal ++ (Invoked <$> seq i (length pre))).
Proof.
  revert i ctx s journal.
  induction pre as [|mw pre IH]; intros i ctx s journal H; simpl in *.
  - simplify_eq. by rewrite Nat.add_0_r, app_nil_r.
  - unfold observedStage.
    destruct (mw ctx req s) as [[ctx' [err|]] s'] eqn:Hmw; [discriminate|].
    rewrite (IH (S i) ctx' s' (journal ++ [Invoked i]) H).
    by rewrite <- app_assoc, Nat.add_succ_r.
Qed.

(** The observed chain stops at the first stage that returns an error. *)
Lemma execute_observed_stop (pre post : Chain W) (failing : Middleware W)
    (ctx ctx1 ctx2 : Context) (req : Request) (s s1 s2 : W) (err : error)
    (journal : list Event) :
  Execute pre ctx req s = ((ctx1, None), s1) →
  failing ctx1 req s1 = ((ctx2, Some err), s2) →
  Execute (observedChain (pre ++ failing :: post)) ctx req (s, journal)
  = ((ctx2, Some err), (s2, journal ++ (Invoked <$> seq 0 (S (length pre))))).
Proof.
  intros Hpre Hfail. unfold observedChain.
  rewrite (execute_observed_pass pre (failing :: post) 0 ctx ctx1 req s s1 journal Hpre).
  rewrite seq_S, fmap_app, app_assoc.
  simpl. unfold observedStage. by rewrite Hfail.
Qed.

End Chain.

(** C7. Let the chain built for the matched route be
    [pre ++ failing :: post], observed, where the stages of [pre] pass
    and [failing] returns an error.  Then [Chain.Execute] returns that
    error having invoked stages [0 .. length pre] and no other; the
    handler answers with the error and the same journal, so the journal
    gains no invocation of a later stage and no call of the transporter
    (the backend is not contacted); and this is an outcome of
    [ServeHTTP] whenever the router can return that match. *)
Theorem failing_stage_stops_pipeline {W : Type}
    (g : Handler.Gateway (Observe.Observed W)) (t : Handler.Transporter W)
    (w : Handler.ResponseWriter) (r : Request) (mr : Routing.MatchResult)
    (pre post : Middleware.Chain W) (failing : Middleware.Middleware W)
    (ctx1 ctx2 : Context) (s s1 s2 : W) (err : error)
    (journal : list Observe.Event) :
  Handler.transporter g = Handler.observedTransporter t →
  Handler.buildMiddlewareChain g (Routing.Middleware (Routing.Route_ mr))
  = inr (Observe.observedChain (pre ++ failing :: post)) →
  Middleware.Execute pre (ReqContext r) r s = ((ctx1, None), s1) →
  failing ctx1 r s1 = ((ctx2, Some err), s2) →
  let journal' := journal ++ (Observe.Invoked <$> seq 0 (S (length pre))) in
  let outcome :=
    (Handler.handleError w r
       (GatewayErr (WrapError err StatusUnauthorized "MIDDLEWARE_ERROR")),
     (s2, journal')) in
  Middleware.Execute (Observe.observedChain (pre ++ failing :: post))
    (ReqContext r) r (s, journal)
  = ((ctx2, Some err), (s2, journal'))
  ∧ Handler.serveMatched g w r (s, journal) (inr mr) = outcome
  ∧ (∀ k, Observe.Invoked k ∈ journal' →
          Observe.Invoked k ∈ journal ∨ (k ≤ length pre)%nat)
  ∧ (∀ url, Observe.Transported url ∈ journal' → Observe.Transported url ∈ journal)
  ∧ (Method r ≠ MethodOptions →
     inr mr ∈ Routing.Match (Handler.router g) (Method r) (Path r) →
     outcome ∈ Handler.ServeHTTP g w r (s, journal)).
Proof.
  intros Ht Hbuild Hpre Hfail journal' outcome.
  pose proof (execute_observed_stop pre post failing (ReqContext r) ctx1 ctx2 r
                s s1 s2 err journal Hpre Hfail) as Hexec.
  assert (Hserve : Handler.serveMatched g w r (s, journal) (inr mr) = outcome).
  { unfold Handler.serveMatched.
    destruct (Routing.Middleware (Routing.Route_ mr)) as [|cfg cfgs] eqn:Hcfgs.
    - unfold Handler.buildMiddlewareChain in Hbuild.
      destruct (Handler.middlewareFactory g); simpl in Hbuild;
        injection Hbuild as Hbuild; by destruct pre.
    - rewrite Hbuild, Hexec. done. }
  split; [done|]. split; [done|]. split; [|split].
  - intros k Hk. subst journal'. apply elem_of_app in Hk as [Hk|Hk]; [by left|].
    right. apply list_elem_of_fmap in Hk as (i & Hi & Hin). simplify_eq.
    apply elem_of_seq in Hin. lia.
  - intros url Hu. subst journal'. apply elem_of_app in Hu as [Hu|Hu]; [done|].
    apply list_elem_of_fmap in Hu as (i & Hi & _). discriminate.
  - intros Hopt Hin. unfold Handler.ServeHTTP. rewrite decide_False by done.
    rewrite <- Hserve. apply list_elem_of_fmap. by eexists.
Qed.

(** The token of [u1] issued at second 1000 against a store holding the
    revoked time 2000: the jwt stage passes, the revoke stage fails, the
    third stage and the backend are not reached. *)
Lemma failing_stage_stops_pipeline_witness :
  Handler.serveMatched Examples.usersGateway Handler.NewRecorder
    (Examples.bearer "rs256.u1.sig") (Unix 1500, [])
    (inr {| Routing.Route_ := Examples.usersRoute; Routing.Params := ∅ |})
  = (Handler.handleError Handler.NewRecorder (Examples.bearer "rs256.u1.sig")
       (GatewayErr (NewError StatusUnauthorized "Unauthorized" "token has been revoked")),
     (Unix 1500, [Observe.Invoked 0; Observe.Invoked 1])).
Proof.
  refine (proj1 (proj2 (failing_stage_stops_pipeline
    Examples.usersGateway Examples.backend200 Handler.NewRecorder
    (Examples.bearer "rs256.u1.sig")
    {| Routing.Route_ := Examples.usersRoute; Routing.Params := ∅ |}
    [Examples.jwtStageK1] [Examples.passStage] Examples.revokeStage2000
    (WithClaims Background Examples.claimsU1)
    (WithClaims Background Examples.claimsU1)
    (Unix 1500) (Unix 1500) (Unix 1500)
    (GatewayErr (NewError StatusUnauthorized "Unauthorized" "token has been revoked"))
    [] _ _ _ _))).
  - reflexivity.
  - reflexivity.
  - vm_compute. reflexivity.
  - vm_compute. reflexivity.
Defined.

(** ** The routing trie *)

Section Trie.
Import Routing.

(** *** Wildcard children *)

(** With [/files/*] as the only route, the path [/files/a] reaches the
    wildcard child and matches, but [/files/a/b], which reaches the same
    child with one more segment to go, is not found: the walk goes on
    below the wildcard node. *)
Lemma wildcard_does_not_match_remainder :
  fst (addRoutes NewRouter [Examples.filesRoute]) = None
  ∧ (∃ files star,
       children Examples.filesRouter !! "files" = Some files
       ∧ findMatchingChild files "a" = [star]
       ∧ nodeKind star = wildcardNode)
  ∧ SplitPath "/files/a/b" = ["files"; "a"; "b"]
  ∧ Match Examples.filesRouter "GET" "/files/a"
    = [inr {| Route_ := Examples.filesRoute; Params := ∅ |}]
  ∧ Match Examples.filesRouter "GET" "/files/a/b"
    = [inl (NewNotFoundError "no route found for path: /files/a/b")].
Proof.
  split; [by vm_compute|]. split.
  - eexists _, _. split; [by vm_compute|]. split; by vm_compute.
  - split; [by vm_compute|]. split; by vm_compute.
Qed.

Lemma findMatchingChild_wildcard_params (c : node) (seg : string)
    (params : gmap string string) :
  nodeKind c = wildcardNode →
  (if decide (nodeKind c = paramNode) then <[paramName c := seg]> params else params)
  = params.
Proof. intros H. rewrite decide_False; [done | by rewrite H]. Qed.

Lemma findRoute_leaf (c : node) (rest : list string) (params : gmap string string) :
  children c = ∅ → rest ≠ [] → findRoute c rest params = [(None, params)].
Proof.
  intros Hc Hr. destruct rest as [|seg rest]; [done|]. simpl.
  unfold findMatchingChild, getChild, childrenOfKind.
  rewrite Hc, lookup_empty, map_to_list_empty. done.
Qed.

(** One step of the walk, when some child matches. *)
Lemma findRoute_step (n : node) (seg : string) (rest : list string)
    (params : gmap string string) :
  findMatchingChild n seg ≠ [] →
  findRoute n (seg :: rest) params
  = findMatchingChild n seg ≫= λ c,
      findRoute c rest
        (if decide (nodeKind c = paramNode) then <[paramName c := seg]> params
         else params).
Proof.
  intros H. cbn [findRoute]. by destruct (findMatchingChild n seg).
Qed.

(** C5, amended. A wildcard child matches one segment.  When the walk at
    node [n] can take the wildcard child [c] for segment [seg], it goes
    on from [c] with the remaining segments and records no parameter.
    So with no segment remaining the result is the route of [c], and
    [Match] succeeds with it when it accepts the method; with segments
    remaining and no children below [c] (the template ended in the
    wildcard) no route is found. *)
Theorem wildcard_matches_one_segment (n c : node) (seg : string) (rest : list string)
    (params : gmap string string) :
  c ∈ findMatchingChild n seg →
  nodeKind c = wildcardNode →
  (∀ out, out ∈ findRoute c rest params → out ∈ findRoute n (seg :: rest) params)
  ∧ findRoute c [] params = [(route c, params)]
  ∧ (∀ r method path, route c = Some r → HasMethod r method = true →
       matchOutcome method path (route c, params)
       = inr {| Route_ := r; Params := params |})
  ∧ (children c = ∅ → rest ≠ [] → findRoute c rest params = [(None, params)]).
Proof.
  intros Hin Hk. split; [|split; [done|split]].
  - intros out Hout. rewrite findRoute_step.
    + apply list_elem_of_bind. exists c. split; [|done].
      by rewrite findMatchingChild_wildcard_params.
    + intros Hnil. rewrite Hnil in Hin. by apply elem_of_nil in Hin.
  - intros r method path Hr Hm. unfold matchOutcome. by rewrite Hr, Hm.
  - apply findRoute_leaf.
Qed.

(** *** Insertion order *)

Lemma insert_again_fails (segments : list string) (r1 r2 : Route) (n n1 : node) :
  insert segments r1 n = Some n1 → insert segments r2 n1 = None.
Proof.
  revert n n1. induction segments as [|seg rest IH]; intros n n1 H; simpl in *.
  - destruct (route n); simplify_eq. done.
  - destruct (insert rest r1 (addChild n seg)) as [c1|] eqn:Hc; simplify_eq.
    unfold addChild at 1. simpl. rewrite lookup_insert_eq.
    by rewrite (IH _ _ Hc).
Qed.

(** Two insertions at different paths commute. *)
Lemma insert_commute_paths (segs1 segs2 : list string) (r1 r2 : Route)
    (n n1 n12 : node) :
  segs1 ≠ segs2 →
  insert segs1 r1 n = Some n1 →
  insert segs2 r2 n1 = Some n12 →
  ∃ n2, insert segs2 r2 n = Some n2 ∧ insert segs1 r1 n2 = Some n12.
Proof.
  revert segs2 n n1 n12.
  induction segs1 as [|s1 rest1 IH]; intros [|s2 rest2] n n1 n12 Hne H1 H2;
    try done; simpl in *.
  - destruct (route n) eqn:Hr; simplify_eq. unfold addChild in *. simpl in *.
    destruct (insert rest2 r2 _) as [c2|]; simplify_eq.
    eexists. split; [done|]. simpl. by rewrite ?Hr.
  - destruct (insert rest1 r1 (addChild n s1)) as [c1|] eqn:Hc1; simplify_eq.
    simpl in *. destruct (route n) eqn:Hr; simplify_eq.
    eexists. split; [done|]. simpl. unfold addChild in *. simpl. by rewrite Hc1.
  - destruct (insert rest1 r1 (addChild n s1)) as [c1|] eqn:Hc1; simplify_eq.
    unfold addChild in H2 at 1. simpl in H2.
    destruct (decide (s1 = s2)) as [<-|Hs].
    + rewrite lookup_insert_eq in H2.
      destruct (insert rest2 r2 c1) as [c12|] eqn:Hc12; simplify_eq. simpl.
      destruct (IH rest2 (addChild n s1) c1 c12) as (c2 & Hc2 & Hc21);
        [congruence|done..|].
      rewrite Hc2. eexists. split; [done|]. simpl.
      unfold addChild at 1. simpl. rewrite lookup_insert_eq, Hc21.
      by rewrite !insert_insert_eq.
    + rewrite lookup_insert_ne in H2 by done.
      fold (addChild n s2) in H2.
      destruct (insert rest2 r2 (addChild n s2)) as [c2|] eqn:Hc2; simplify_eq. simpl.
      eexists. split; [done|]. simpl.
      unfold addChild at 1. simpl. rewrite lookup_insert_ne by done.
      fold (addChild n s1). rewrite Hc1.
      by rewrite insert_insert_ne.
Qed.

Lemma AddRoute_ok (root root' : node) (r : Route) :
  AddRoute root r = (None, root') ↔
  RoutePath r ≠ "" ∧ insert (SplitPath (RoutePath r)) r root = Some root'.
Proof.
  unfold AddRoute. destruct (decide (RoutePath r = "")) as [He|He].
  - split; [discriminate | by intros [? _]].
  - destruct (insert _ r root) as [n|]; split; intros H; simplify_eq; try done.
    + by destruct H as [_ [= ->]].
    + by destruct H.
Qed.

Lemma addRoutes_cons (root t : node) (r : Route) (routes : list Route) :
  addRoutes root (r :: routes) = (None, t) ↔
  ∃ root', AddRoute root r = (None, root') ∧ addRoutes root' routes = (None, t).
Proof.
  simpl. destruct (AddRoute root r) as [[err|] root'] eqn:Hr.
  - split; [discriminate | intros (? & [=] & _)].
  - split; [by eexists | by intros (? & [= <-] & ?)].
Qed.

Lemma AddRoute_swap (root n1 n12 : node) (r1 r2 : Route) :
  AddRoute root r1 = (None, n1) →
  AddRoute n1 r2 = (None, n12) →
  ∃ n2, AddRoute root r2 = (None, n2) ∧ AddRoute n2 r1 = (None, n12).
Proof.
  rewrite !AddRoute_ok. intros [He1 H1] [He2 H2].
  destruct (decide (SplitPath (RoutePath r1) = SplitPath (RoutePath r2))) as [Heq|Hne].
  - rewrite <- Heq in H2. by rewrite (insert_again_fails _ _ _ _ _ H1) in H2.
  - destruct (insert_commute_paths _ _ _ _ _ _ _ Hne H1 H2) as (n2 & Hn2 & Hn21).
    exists n2. by rewrite !AddRoute_ok.
Qed.

(** X29. The order of insertion alone does not change a load that
    succeeds: if adding a list of routes to a router succeeds, adding
    the same routes in any other order succeeds too and builds the same
    trie.  So the order in which the sort by priority leaves the routes
    has no effect on the routes matched after a successful load. *)
Lemma addRoutes_permutation (routes routes' : list Route) :
  routes ≡ₚ routes' →
  ∀ root t, addRoutes root routes = (None, t) → addRoutes root routes' = (None, t).
Proof.
  induction 1 as [|r l l' _ IH|r1 r2 l|l l' l'' _ IH1 _ IH2]; intros root t H.
  - done.
  - apply addRoutes_cons in H as (root' & Hr & Hl).
    apply addRoutes_cons. eauto.
  - apply addRoutes_cons in H as (n1 & Hr1 & H).
    apply addRoutes_cons in H as (n12 & Hr2 & Hl).
    destruct (AddRoute_swap _ _ _ _ _ Hr1 Hr2) as (n2 & Hn2 & Hn21).
    apply addRoutes_cons. exists n2. split; [done|].
    apply addRoutes_cons. eauto.
  - eauto.
Qed.

(** *** The children a segment selects *)

Lemma childrenOfKind_child (k : nodeType) (n c : node) :
  c ∈ childrenOfKind k n → ∃ key, children n !! key = Some c.
Proof.
  unfold childrenOfKind. intros H.
  apply list_elem_of_filter in H as [_ H].
  apply list_elem_of_fmap in H as ([key c'] & -> & H).
  exists key. by apply elem_of_map_to_list.
Qed.

Lemma findMatchingChild_child (n c : node) (seg : string) :
  c ∈ findMatchingChild n seg → ∃ key, children n !! key = Some c.
Proof.
  unfold findMatchingChild, getChild.
  destruct (children n !! seg) as [c'|] eqn:Hc.
  - intros ->%list_elem_of_singleton. eauto.
  - destruct (childrenOfKind paramNode n) eqn:Hp.
    + apply childrenOfKind_child.
    + rewrite <- Hp. apply childrenOfKind_child.
Qed.

(** C6. The registration loop accepts the two routes [/users/:id] and
    [/users/:name/posts]; their parameter nodes are both children of the
    [users] node.  On the trie it builds, [Match] for [GET] on
    [/users/7/posts] has two possible results, the posts route and the
    404 error: [findMatchingChild] returns the first parameter child
    that the iteration over the map of children meets, so the result is
    not a function of the routes, the method and the path. *)
Lemma match_not_a_function :
  addRoutes NewRouter [Examples.userById; Examples.postsByName]
  = (None, Examples.usersRouter)
  ∧ inl (NewNotFoundError "no route found for path: /users/7/posts")
      ∈ Match Examples.usersRouter "GET" "/users/7/posts"
  ∧ inr {| Route_ := Examples.postsByName; Params := {[ "name" := "7" ]} |}
      ∈ Match Examples.usersRouter "GET" "/users/7/posts"
  ∧ ¬ ∃ result, Match Examples.usersRouter "GET" "/users/7/posts" = [result].
Proof.
  split_and!.
  - by vm_compute.
  - apply list_elem_of_In. vm_compute. tauto.
  - apply list_elem_of_In. vm_compute. tauto.
  - intros [result H]. vm_compute in H. discriminate H.
Qed.

(** Of two routes whose templates differ by a trailing slash only the
    first inserted is kept: [AddRoute] answers the second with an
    error. *)
Lemma trailing_slash_first_insert_kept :
  fst (AddRoute (snd (AddRoute NewRouter Examples.slashless)) Examples.slashed)
  = Some (PlainErr "route already exists for path: /a/")
  ∧ Match (snd (AddRoute (snd (AddRoute NewRouter Examples.slashless)) Examples.slashed))
      "GET" "/a"
    = [inr {| Route_ := Examples.slashless; Params := ∅ |}]
  ∧ Match (snd (AddRoute (snd (AddRoute NewRouter Examples.slashed)) Examples.slashless))
      "GET" "/a"
    = [inr {| Route_ := Examples.slashed; Params := ∅ |}].
Proof. split_and!; by vm_compute. Qed.

End Trie.

Lemma wildcard_matches_one_segment_witness :
  (∀ out, out ∈ Routing.findRoute Examples.starNode ["b"] ∅ →
          out ∈ Routing.findRoute Examples.filesNode ["a"; "b"] ∅)
  ∧ Routing.findRoute Examples.starNode [] ∅
    = [(Routing.route Examples.starNode, ∅)]
  ∧ (∀ r method path, Routing.route Examples.starNode = Some r →
       Routing.HasMethod r method = true →
       Routing.matchOutcome method path (Routing.route Examples.starNode, ∅)
       = inr {| Routing.Route_ := r; Routing.Params := ∅ |})
  ∧ (Routing.children Examples.starNode = ∅ → ["b"] ≠ [] →
     Routing.findRoute Examples.starNode ["b"] ∅ = [(None, ∅)]).
Proof.
  apply (wildcard_matches_one_segment Examples.filesNode Examples.starNode "a" ["b"] ∅).
  - apply list_elem_of_In. vm_compute. tauto.
  - reflexivity.
Defined.

Lemma addRoutes_permutation_witness :
  Routing.addRoutes Routing.NewRouter (reverse Examples.ordersRoutes)
  = (None, Examples.ordersRouter).
Proof.
  apply (addRoutes_permutation Examples.ordersRoutes (reverse Examples.ordersRoutes)).
  - symmetry. apply reverse_Permutation.
  - vm_compute. reflexivity.
Defined.

(** ** The forced-revoke endpoint *)

(** The key check accepts exactly the non-empty header value equal to
    the configured key.  (How long the comparison takes is outside this
    model.) *)
Lemma authenticate_accepts_iff (configured : string) (req : Request) :
  Handler.AdminRevokeHandler.authenticate configured req = None
  ↔ HeaderGet req "X-API-Key" ≠ "" ∧ HeaderGet req "X-API-Key" = configured.
Proof.
  unfold Handler.AdminRevokeHandler.authenticate.
  destruct (decide (HeaderGet req "X-API-Key" = "")) as [He|He].
  - split; [discriminate | by intros [? _]].
  - destruct (bool_decide (HeaderGet req "X-API-Key" = configured)) eqn:Hb; simpl.
    + apply bool_decide_eq_true in Hb. done.
    + apply bool_decide_eq_false in Hb. split; [discriminate | by intros [_ ?]].
Qed.

(** ** More on the routing trie *)

Section TrieMore.
Import Strings Routing Paths.

(** *** Paths *)

Lemma trim_right_slash_snoc (s : string) :
  trim_right_slash (s +:+ "/") = trim_right_slash s.
Proof.
  induction s as [|c s IH]; [reflexivity|].
  simpl. by rewrite IH.
Qed.

Lemma trim_left_slash_snoc (s : string) :
  (trim_left_slash (s +:+ "/") = "" ∧ trim_left_slash s = "")
  ∨ trim_left_slash (s +:+ "/") = trim_left_slash s +:+ "/".
Proof.
  induction s as [|c s IH]; [by left|].
  simpl. destruct (decide (c = slash)); [done|by right].
Qed.

Lemma trim_slash_snoc (s : string) : trim_slash (s +:+ "/") = trim_slash s.
Proof.
  unfold trim_slash. destruct (trim_left_slash_snoc s) as [[-> ->] | ->]; [done|].
  apply trim_right_slash_snoc.
Qed.

(** X1. A path and the same path with one more slash at its end split
    into the same segments, so the walk of the trie is the same for
    both. *)
Theorem SplitPath_trailing_slash (path : string) :
  SplitPath (path +:+ "/") = SplitPath path
  ∧ ∀ root params, findRoute root (SplitPath (path +:+ "/")) params
                   = findRoute root (SplitPath path) params.
Proof.
  assert (H : SplitPath (path +:+ "/") = SplitPath path).
  { unfold SplitPath. by rewrite trim_slash_snoc. }
  split; [done|]. intros. by rewrite H.
Qed.

(** *** Lookups *)

(** X2. On a router without routes every path is not found, whatever the
    method. *)
Theorem Match_empty_router (method path : string) :
  Match NewRouter method path
  = [inl (NewNotFoundError ("no route found for path: " +:+ path))].
Proof.
  unfold Match. destruct (SplitPath path) as [|seg rest]; [reflexivity|].
  cbn [findRoute]. unfold findMatchingChild, getChild, childrenOfKind.
  change (children NewRouter) with (∅ : gmap string node).
  rewrite lookup_empty, map_to_list_empty. reflexivity.
Qed.

(** The walk along the keys of existing children follows them: an exact
    child has priority at every step. *)
Lemma findRoute_exact (segments : list string) (n x : node)
    (params : gmap string string) :
  Stated.descend n segments = Some x →
  ∃ params', findRoute n segments params = [(route x, params')].
Proof.
  revert n params. induction segments as [|seg rest IH]; intros n params H;
    simpl in H.
  - simplify_eq. by eexists.
  - destruct (children n !! seg) as [c|] eqn:Hc; [|done].
    destruct (IH c (if decide (nodeKind c = paramNode)
                    then <[paramName c := seg]> params else params) H)
      as [params' Hp].
    exists params'. cbn [findRoute]. unfold findMatchingChild, getChild.
    rewrite Hc. simpl. by rewrite Hp.
Qed.

Lemma routeAt_insert (segments : list string) (r : Route) (n n' : node) :
  insert segments r n = Some n' → routeAt n' segments = Some r.
Proof.
  unfold routeAt. revert n n'.
  induction segments as [|seg rest IH]; intros n n' H; simpl in *.
  - destruct (route n); by simplify_eq.
  - destruct (insert rest r (addChild n seg)) as [c|] eqn:Hc; simplify_eq.
    simpl. rewrite lookup_insert_eq. by eapply IH.
Qed.

(** An insertion leaves every route stored before where it was. *)
Lemma routeAt_insert_keeps (segs2 segs : list string) (r1 r2 : Route) (n n' : node) :
  insert segs2 r2 n = Some n' →
  routeAt n segs = Some r1 → routeAt n' segs = Some r1.
Proof.
  unfold routeAt. revert segs n n'.
  induction segs2 as [|s2 rest2 IH]; intros segs n n' H H1; simpl in H.
  - destruct (route n) eqn:Hr; simplify_eq.
    destruct segs as [|s rest]; simpl in *; [by rewrite Hr in H1|done].
  - destruct (insert rest2 r2 (addChild n s2)) as [c2|] eqn:Hc2; simplify_eq.
    destruct segs as [|s rest]; simpl in *; [done|].
    destruct (decide (s2 = s)) as [->|Hne].
    + rewrite lookup_insert_eq.
      destruct (children n !! s) as [c|] eqn:Hc; [|done].
      unfold addChild in Hc2. rewrite Hc in Hc2. by eapply IH.
    + by rewrite lookup_insert_ne.
Qed.

Lemma routeAt_addRoutes_keeps (routes : list Route) (root t : node)
    (segs : list string) (r : Route) :
  addRoutes root routes = (None, t) →
  routeAt root segs = Some r → routeAt t segs = Some r.
Proof.
  revert root. induction routes as [|r' routes IH]; intros root H Hr.
  - simpl in H. by simplify_eq.
  - apply addRoutes_cons in H as (root' & Hadd & Hrest).
    apply AddRoute_ok in Hadd as [_ Hins].
    eapply IH; [done|]. by eapply routeAt_insert_keeps.
Qed.

Lemma routeAt_addRoutes (routes : list Route) (root t : node) (r : Route) :
  addRoutes root routes = (None, t) → r ∈ routes →
  routeAt t (SplitPath (RoutePath r)) = Some r.
Proof.
  revert root. induction routes as [|r' routes IH]; intros root H Hin.
  - by apply elem_of_nil in Hin.
  - apply addRoutes_cons in H as (root' & Hadd & Hrest).
    apply elem_of_cons in Hin as [->|Hin]; [|by eapply IH].
    apply AddRoute_ok in Hadd as [_ Hins].
    eapply routeAt_addRoutes_keeps; [done|]. by eapply routeAt_insert.
Qed.

(** X3. After a list of routes is loaded without error, [Match] on the
    template path of any of them has one possible result: that route
    (with some parameter map) when it accepts the method, and the 405
    error otherwise.  Later insertions do not displace it, and no
    parameter or wildcard sibling is preferred to it. *)
Theorem loaded_route_matches_its_template (routes : list Route) (root t : node)
    (r : Route) (method : string) :
  addRoutes root routes = (None, t) →
  r ∈ routes →
  ∃ params,
    Match t method (RoutePath r)
    = [if HasMethod r method then inr {| Route_ := r; Params := params |}
       else inl (NewError 405 "METHOD_NOT_ALLOWED"
                   ("method " +:+ method +:+ " not allowed"))].
Proof.
  intros Hload Hin.
  pose proof (routeAt_addRoutes routes root t r Hload Hin) as Hat.
  unfold routeAt in Hat.
  destruct (Stated.descend t (SplitPath (RoutePath r))) as [x|] eqn:Hx; [|done].
  destruct (findRoute_exact _ _ _ ∅ Hx) as [params Hp].
  exists params. unfold Match. rewrite Hp, Hat. simpl.
  by destruct (HasMethod r method).
Qed.

(** X4. Once a route is stored, adding a route whose template splits
    into the same segments (the same template, or one that differs in
    leading or trailing slashes) is refused with the error
    "route already exists for path", and the trie is left as it was. *)
Theorem AddRoute_rejects_same_template (root root1 : node) (r1 r2 : Route) :
  AddRoute root r1 = (None, root1) →
  RoutePath r2 ≠ "" →
  SplitPath (RoutePath r2) = SplitPath (RoutePath r1) →
  AddRoute root1 r2
  = (Some (PlainErr ("route already exists for path: " +:+ RoutePath r2)), root1).
Proof.
  intros H1 Hne Hsame. apply AddRoute_ok in H1 as [_ Hins].
  unfold AddRoute. rewrite decide_False by done.
  rewrite Hsame. by rewrite (insert_again_fails _ r1 r2 _ _ Hins).
Qed.

(** *** A router with one route *)

Lemma newNode_fresh (seg : string) :
  children (newNode seg) = ∅ ∧ route (newNode seg) = None.
Proof.
  unfold newNode. destruct (HasPrefix seg ":"); [done|].
  by destruct (bool_decide _).
Qed.

Lemma newNode_kind (seg : string) :
  nodeKind (newNode seg)
  = if HasPrefix seg ":" then paramNode
    else if bool_decide (seg = "*" ∨ seg = "**") then wildcardNode
    else staticNode.
Proof.
  unfold newNode. destruct (HasPrefix seg ":"); [done|].
  by destruct (bool_decide _).
Qed.

Lemma newNode_paramName (seg : string) :
  HasPrefix seg ":" = true → paramName (newNode seg) = TrimPrefix seg ":".
Proof. unfold newNode. by intros ->. Qed.

Lemma insert_keeps_kind (segments : list string) (r : Route) (n n' : node) :
  insert segments r n = Some n' →
  nodeKind n' = nodeKind n ∧ paramName n' = paramName n.
Proof.
  destruct segments as [|seg rest]; simpl.
  - destruct (route n); by intros [= <-].
  - destruct (insert rest r _); by intros [= <-].
Qed.

(** Under a node with one child, stored under [s] and of the kind of
    [s], a segment finds that child exactly when [s] admits it. *)
Lemma findMatchingChild_single (t c : node) (s p : string) :
  children t = {[ s := c ]} →
  nodeKind c = nodeKind (newNode s) →
  findMatchingChild t p = if admits s p then [c] else [].
Proof.
  intros Hch Hk. unfold findMatchingChild, getChild, childrenOfKind, admits.
  rewrite Hch, map_to_list_singleton. simpl.
  rewrite !filter_cons, !filter_nil, Hk, newNode_kind.
  destruct (decide (s = p)) as [->|Hne].
  - rewrite lookup_singleton_eq, (bool_decide_eq_true_2 (p = p)) by done.
    by rewrite !orb_true_r.
  - rewrite lookup_singleton_ne by done.
    rewrite (bool_decide_eq_false_2 (s = p)) by done. rewrite orb_false_r.
    destruct (HasPrefix s ":"); simpl;
      [|destruct (bool_decide (s = "*" ∨ s = "**")); simpl];
      repeat case_decide; done.
Qed.

Lemma findRoute_single (r : Route) (template : list string) :
  ∀ (path : list string) (n0 t : node) (params : gmap string string),
    children n0 = ∅ → route n0 = None →
    insert template r n0 = Some t →
    ∃ params',
      findRoute t path params
      = [(if admitsPath template path then Some r else None, params')]
      ∧ (admitsPath template path = true → params' = bindParams template path params).
Proof.
  induction template as [|s ts IH]; intros path n0 t params Hch Hr Hins;
    simpl in Hins.
  - rewrite Hr in Hins. simplify_eq. destruct path as [|p ps].
    + by eexists.
    + exists params. split; [|done]. cbn [findRoute].
      unfold findMatchingChild, getChild, childrenOfKind. simpl.
      by rewrite Hch, lookup_empty, map_to_list_empty.
  - destruct (insert ts r (addChild n0 s)) as [c|] eqn:Hc; simplify_eq.
    unfold addChild in Hc. rewrite Hch, lookup_empty in Hc.
    destruct (newNode_fresh s) as [Hfc Hfr].
    destruct (insert_keeps_kind _ _ _ _ Hc) as [Hk Hn].
    destruct path as [|p ps].
    + exists params. simpl. by rewrite Hr.
    + cbn [findRoute admitsPath bindParams].
      rewrite (findMatchingChild_single _ c s p); [|by rewrite Hch|done].
      destruct (admits s p) eqn:Ha; [|by exists params].
      destruct (IH ps (newNode s) c
                  (if decide (nodeKind c = paramNode)
                   then <[paramName c := p]> params else params) Hfc Hfr Hc)
        as (params' & Hp & Hb).
      exists params'. simpl. rewrite Hp, app_nil_r. split; [done|].
      intros Hps. rewrite (Hb Hps). f_equal.
      rewrite Hk, Hn, newNode_kind.
      destruct (HasPrefix s ":") eqn:Hpre.
      * rewrite decide_True by done. by rewrite newNode_paramName.
      * rewrite decide_False; [done|]. by destruct (bool_decide _).
Qed.

(** X5. On a router holding one route, [Match] has one possible result.
    A path is matched exactly when it has as many segments as the
    template and each template segment is a parameter, a wildcard, or
    equal to the path segment at its place.  The result is then the
    route with each parameter name bound to its path segment (or the
    405 error when the route does not accept the method); otherwise it
    is the not-found error. *)
Theorem single_route_match (r : Route) (t : node) (method path : string) :
  AddRoute NewRouter r = (None, t) →
  Match t method path
  = [if admitsPath (SplitPath (RoutePath r)) (SplitPath path) then
       if HasMethod r method then
         inr {| Route_ := r;
                Params := bindParams (SplitPath (RoutePath r)) (SplitPath path) ∅ |}
       else inl (NewError 405 "METHOD_NOT_ALLOWED"
                   ("method " +:+ method +:+ " not allowed"))
     else inl (NewNotFoundError ("no route found for path: " +:+ path))].
Proof.
  intros H. apply AddRoute_ok in H as [_ Hins].
  destruct (newNode_fresh "") as [Hfc Hfr].
  destruct (findRoute_single r _ (SplitPath path) NewRouter t ∅ Hfc Hfr Hins)
    as (params' & Hp & Hb).
  unfold Match. rewrite Hp. simpl.
  destruct (admitsPath _ _); [|done].
  rewrite (Hb eq_refl). by destruct (HasMethod r method).
Qed.

End TrieMore.

(** ** Splitting and joining paths *)

Section SplitJoin.
Import Strings Routing Paths Segments.

Lemma str_app_cons (a : ascii) (s t : string) :
  String a s +:+ t = String a (s +:+ t).
Proof. reflexivity. Qed.

Lemma str_app_empty (a b : string) : a +:+ b = "" → b = "".
Proof.
  destruct a; [by intros H | rewrite str_app_cons; discriminate].
Qed.

Lemma rev_app_app (s t u : string) :
  String.rev_app (String.rev_app s t) u = String.rev_app t (s +:+ u).
Proof.
  revert t u. induction s as [|a s IH]; intros t u; simpl; [done|].
  by rewrite IH.
Qed.

Lemma str_app_nil_r (s : string) : s +:+ "" = s.
Proof. induction s as [|a s IH]; [done|]. by rewrite str_app_cons, IH. Qed.

Lemma rev_rev_app (s : string) : String.rev (String.rev_app s "") = s.
Proof. unfold String.rev. rewrite rev_app_app. simpl. apply str_app_nil_r. Qed.

Lemma rev_app_length (s t : string) :
  String.length (String.rev_app s t) = (String.length s + String.length t)%nat.
Proof.
  revert t. induction s as [|a s IH]; intros t; simpl; [done|].
  rewrite IH. simpl. lia.
Qed.

Lemma rev_nonempty (cur : string) : cur ≠ "" → String.rev cur ≠ "".
Proof.
  intros Hne Hrev. apply (f_equal String.length) in Hrev.
  unfold String.rev in Hrev. rewrite rev_app_length in Hrev.
  destruct cur; [done|]. simpl in Hrev. lia.
Qed.

Lemma noSlash_rev_app (s t : string) :
  noSlash (String.rev_app s t) = noSlash s && noSlash t.
Proof.
  revert t. induction s as [|a s IH]; intros t; simpl; [done|].
  rewrite IH. simpl. destruct (bool_decide (a = slash)); simpl.
  - by rewrite andb_false_r.
  - done.
Qed.

(** A piece without slash is read whole into the piece under way. *)
Lemma split_slash_piece (s t cur : string) :
  noSlash s = true →
  split_slash cur (s +:+ t) = split_slash (String.rev_app s cur) t.
Proof.
  revert cur. induction s as [|a s IH]; intros cur H; simpl in *; [done|].
  apply andb_true_iff in H as [Ha Hs].
  apply negb_true_iff, bool_decide_eq_false in Ha.
  rewrite decide_False by done. by apply IH.
Qed.

Lemma split_slash_join (s : string) (rest : list string) (cur : string) :
  Forall (λ s, noSlash s = true) (s :: rest) →
  split_slash cur (Join_slash (s :: rest))
  = String.rev (String.rev_app s cur) :: rest.
Proof.
  revert s cur. induction rest as [|s2 rest IH]; intros s cur H.
  - apply Forall_cons in H as [Hs _]. simpl.
    rewrite <- (str_app_nil_r s) at 1. by rewrite split_slash_piece.
  - apply Forall_cons in H as [Hs Hrest].
    change (Join_slash (s :: s2 :: rest))
      with (s +:+ "/" +:+ Join_slash (s2 :: rest)).
    rewrite split_slash_piece by done.
    change (split_slash (String.rev_app s cur) ("/" +:+ Join_slash (s2 :: rest)))
      with (String.rev (String.rev_app s cur)
            :: split_slash "" (Join_slash (s2 :: rest))).
    by rewrite IH, rev_rev_app.
Qed.

Lemma endsClean_nonempty (s : string) : endsClean s = true → s ≠ "".
Proof. by destruct s. Qed.

Lemma trim_right_slash_clean (s : string) :
  endsClean s = true → trim_right_slash s = s.
Proof.
  induction s as [|c s IH]; [done|]. intros H.
  destruct s as [|c' s'].
  - simpl in *. apply negb_true_iff, bool_decide_eq_false in H.
    by rewrite decide_False.
  - change (endsClean (String c (String c' s'))) with (endsClean (String c' s')) in H.
    cbn [trim_right_slash]. cbn [trim_right_slash] in IH. rewrite (IH H). done.
Qed.

Lemma endsClean_app (a b : string) : endsClean b = true → endsClean (a +:+ b) = true.
Proof.
  intros Hb. induction a as [|c a IH]; [done|].
  rewrite str_app_cons. simpl. destruct (a +:+ b) eqn:Hab; [|done].
  apply str_app_empty in Hab. by subst b.
Qed.

Lemma endsClean_noSlash (s : string) :
  noSlash s = true → s ≠ "" → endsClean s = true.
Proof.
  induction s as [|c s IH]; [done|]. intros H _.
  simpl in H. apply andb_true_iff in H as [Hc Hs].
  destruct s as [|c' s']; [done|]. apply IH; done.
Qed.

Lemma endsClean_join (segments : list string) :
  Forall (λ s, noSlash s = true) segments →
  last segments ≠ Some "" → segments ≠ [] →
  endsClean (Join_slash segments) = true.
Proof.
  induction segments as [|s rest IH]; [done|]. intros Hall Hlast _.
  apply Forall_cons in Hall as [Hs Hrest].
  destruct rest as [|s2 rest].
  - simpl in *. apply endsClean_noSlash; [done|]. by intros ->.
  - change (Join_slash (s :: s2 :: rest))
      with (s +:+ "/" +:+ Join_slash (s2 :: rest)).
    apply endsClean_app, (endsClean_app "/"). apply IH; done.
Qed.

Lemma trim_left_slash_clean (s : string) :
  noSlash s = true → ∀ t, s ≠ "" → trim_left_slash (s +:+ t) = s +:+ t.
Proof.
  destruct s as [|c s]; [done|]. simpl. intros H t _.
  apply andb_true_iff in H as [Hc _].
  apply negb_true_iff, bool_decide_eq_false in Hc. by rewrite decide_False.
Qed.

Lemma Join_slash_head (s : string) (rest : list string) :
  ∃ t, Join_slash (s :: rest) = s +:+ t.
Proof.
  destruct rest as [|s2 rest].
  - exists "". simpl. by rewrite str_app_nil_r.
  - by eexists.
Qed.

(** X6. Joining segments in normal form (no slash inside a segment,
    first and last segment not empty) and splitting the result gives the
    segments back; the empty list is joined to [/] and split to the
    empty list. *)
Theorem SplitPath_JoinPath (segments : list string) :
  clean segments → SplitPath (JoinPath segments) = segments.
Proof.
  intros (Hall & Hhead & Hlast).
  destruct segments as [|s rest]; [reflexivity|].
  assert (Hs : noSlash s = true) by (by apply Forall_cons in Hall as [? _]).
  assert (Hne : s ≠ "") by (intros ->; by apply Hhead).
  destruct (Join_slash_head s rest) as [t Ht].
  unfold SplitPath, JoinPath, trim_slash.
  change (trim_left_slash ("/" +:+ Join_slash (s :: rest)))
    with (trim_left_slash (Join_slash (s :: rest))).
  rewrite Ht, trim_left_slash_clean, <- Ht by done.
  rewrite trim_right_slash_clean by (by apply endsClean_join).
  rewrite decide_False.
  - unfold Split_slash. rewrite split_slash_join by done. by rewrite rev_rev_app.
  - rewrite Ht. by destruct s.
Qed.

Lemma split_slash_noSlash (s cur : string) :
  noSlash cur = true → Forall (λ s, noSlash s = true) (split_slash cur s).
Proof.
  assert (Hrev : ∀ cur, noSlash cur = true → noSlash (String.rev cur) = true).
  { intros c Hc. unfold String.rev. by rewrite noSlash_rev_app, Hc. }
  revert cur. induction s as [|c s IH]; intros cur Hcur; simpl.
  - apply Forall_singleton. by apply Hrev.
  - destruct (decide (c = slash)) as [->|Hc].
    + apply Forall_cons. split; [by apply Hrev | by apply IH].
    + apply IH. simpl. by rewrite bool_decide_eq_false_2, Hcur.
Qed.

Lemma split_slash_nonempty (s cur : string) : split_slash cur s ≠ [].
Proof.
  revert cur. induction s as [|c s IH]; intros cur; simpl; [done|].
  destruct (decide (c = slash)); [done | apply IH].
Qed.

Lemma last_cons_cons_ne {A} (x : A) (l : list A) : l ≠ [] → last (x :: l) = last l.
Proof. by destruct l. Qed.

Lemma split_slash_cons (c : ascii) (s cur : string) :
  split_slash cur (String c s)
  = if decide (c = slash) then String.rev cur :: split_slash "" s
    else split_slash (String c cur) s.
Proof. reflexivity. Qed.

Lemma split_slash_head (s cur : string) :
  cur ≠ "" → head (split_slash cur s) ≠ Some "".
Proof.
  revert cur. induction s as [|c s IH]; intros cur Hcur; simpl.
  - intros [= H]. by apply (rev_nonempty cur).
  - destruct (decide (c = slash)).
    + simpl. intros [= H]. by apply (rev_nonempty cur).
    + by apply IH.
Qed.

Lemma split_slash_last (s cur : string) :
  endsClean s = true → last (split_slash cur s) ≠ Some "".
Proof.
  revert cur. induction s as [|c s IH]; intros cur H; [done|].
  destruct s as [|c' s'].
  - simpl in *. apply negb_true_iff, bool_decide_eq_false in H.
    rewrite decide_False by done. simpl. intros [= Hr].
    by apply (rev_nonempty (String c cur)).
  - change (endsClean (String c (String c' s'))) with (endsClean (String c' s')) in H.
    rewrite split_slash_cons. destruct (decide (c = slash)).
    + rewrite last_cons_cons_ne by apply split_slash_nonempty. by apply IH.
    + by apply IH.
Qed.

Lemma trim_left_slash_start (s : string) :
  trim_left_slash s = ""
  ∨ ∃ c x, trim_left_slash s = String c x ∧ c ≠ slash.
Proof.
  induction s as [|c s IH]; [by left|]. simpl.
  destruct (decide (c = slash)); [done|]. right. by eexists _, _.
Qed.

Lemma trim_right_slash_end (s : string) :
  trim_right_slash s = "" ∨ endsClean (trim_right_slash s) = true.
Proof.
  induction s as [|c s IH]; [by left|]. simpl.
  destruct (trim_right_slash s) as [|c' t] eqn:Ht.
  - destruct (decide (c = slash)); [by left|]. right. simpl.
    by rewrite bool_decide_eq_false_2.
  - right. by destruct IH.
Qed.

Lemma trim_right_slash_start (c : ascii) (x : string) :
  c ≠ slash → ∃ y, trim_right_slash (String c x) = String c y.
Proof.
  intros Hc. simpl. destruct (trim_right_slash x).
  - rewrite decide_False by done. by eexists.
  - by eexists.
Qed.

(** X7. The segments [SplitPath] returns are in normal form, for every
    path: no segment holds a slash and the first and last are not empty
    (segments in between can be, as in [/a//b]). *)
Theorem SplitPath_clean (path : string) : clean (SplitPath path).
Proof.
  unfold SplitPath, trim_slash.
  destruct (decide _) as [He|Hne]; [by repeat split|].
  destruct (trim_right_slash_end (trim_left_slash path)) as [He|Hend]; [done|].
  destruct (trim_left_slash_start path) as [Hl|(c & x & Hl & Hc)].
  { rewrite Hl in Hne. by destruct Hne. }
  rewrite Hl in *. destruct (trim_right_slash_start c x Hc) as [y Hy].
  repeat split.
  - by apply split_slash_noSlash.
  - rewrite Hy. unfold Split_slash. simpl. rewrite decide_False by done.
    by apply split_slash_head.
  - by apply split_slash_last.
Qed.

End SplitJoin.

Lemma loaded_route_matches_its_template_witness :
  ∃ params,
    Routing.Match Examples.ordersRouter "GET"
      (Routing.RoutePath (Examples.routeTo "/api/v1/orders" "http://orders"))
    = [if Routing.HasMethod (Examples.routeTo "/api/v1/orders" "http://orders") "GET"
       then inr {| Routing.Route_ := Examples.routeTo "/api/v1/orders" "http://orders";
                   Routing.Params := params |}
       else inl (NewError 405 "METHOD_NOT_ALLOWED"
                   ("method " +:+ "GET" +:+ " not allowed"))].
Proof.
  apply (loaded_route_matches_its_template Examples.ordersRoutes Routing.NewRouter
           Examples.ordersRouter (Examples.routeTo "/api/v1/orders" "http://orders") "GET").
  - vm_compute. reflexivity.
  - apply list_elem_of_In. simpl. tauto.
Defined.

Lemma AddRoute_rejects_same_template_witness :
  Routing.AddRoute (snd (Routing.AddRoute Routing.NewRouter Examples.slashless))
    Examples.slashed
  = (Some (PlainErr ("route already exists for path: "
                     +:+ Routing.RoutePath Examples.slashed)),
     snd (Routing.AddRoute Routing.NewRouter Examples.slashless)).
Proof.
  apply (AddRoute_rejects_same_template Routing.NewRouter
           (snd (Routing.AddRoute Routing.NewRouter Examples.slashless))
           Examples.slashless Examples.slashed).
  - vm_compute. reflexivity.
  - discriminate.
  - vm_compute. reflexivity.
Defined.

(** The order items route on the path of order 456, item 789. *)
Lemma single_route_match_witness :
  let r := Examples.routeTo "/api/v1/orders/:orderId/items/:itemId" "http://orders" in
  let t := snd (Routing.AddRoute Routing.NewRouter r) in
  Routing.Match t "GET" "/api/v1/orders/456/items/789"
  = [inr {| Routing.Route_ := r;
            Routing.Params := {[ "orderId" := "456"; "itemId" := "789" ]} |}].
Proof.
  intros r t.
  refine (eq_trans (single_route_match r t "GET" "/api/v1/orders/456/items/789" _) _).
  - vm_compute. reflexivity.
  - vm_compute. reflexivity.
Defined.

Lemma SplitPath_JoinPath_witness :
  Routing.SplitPath (Paths.JoinPath ["api"; ""; "v1"]) = ["api"; ""; "v1"].
Proof.
  apply (SplitPath_JoinPath ["api"; ""; "v1"]).
  split; [|split].
  - repeat constructor.
  - discriminate.
  - discriminate.
Defined.

(** ** More on the middleware chain *)

(** X8. Executing a chain followed by more stages is executing the chain
    and then, if it returned no error, the added stages from the context
    and world it left; an error of the chain is returned as it is.
    This is what [Append] and [Prepend] build. *)
Theorem Execute_app {W : Type} (c1 c2 : Middleware.Chain W) (ctx : Context)
    (req : Request) (s : W) :
  Middleware.Execute (Middleware.Append c1 c2) ctx req s
  = match Middleware.Execute c1 ctx req s with
    | ((ctx', Some err), s') => ((ctx', Some err), s')
    | ((ctx', None), s') => Middleware.Execute c2 ctx' req s'
    end
  ∧ Middleware.Execute (Middleware.Prepend c2 c1) ctx req s
    = Middleware.Execute (Middleware.Append c1 c2) ctx req s.
Proof.
  split; [|done]. unfold Middleware.Append.
  revert ctx s. induction c1 as [|mw c1 IH]; intros ctx s; simpl; [done|].
  destruct (mw ctx req s) as [[ctx' [err|]] s']; [done|]. apply IH.
Qed.

(** ** More on the jwt stage *)

Lemma strip_prefix_app (p s rest : string) :
  Strings.strip_prefix p s = Some rest → s = p +:+ rest.
Proof.
  revert s. induction p as [|c p IH]; intros s H; simpl in H.
  - by simplify_eq.
  - destruct s as [|c' s]; [done|].
    destruct (decide (c = c')) as [<-|]; [|done].
    rewrite str_app_cons. f_equal. by apply IH.
Qed.

Lemma TrimPrefix_changed (s p : string) :
  Strings.TrimPrefix s p ≠ s → s = p +:+ Strings.TrimPrefix s p.
Proof.
  unfold Strings.TrimPrefix.
  destruct (Strings.strip_prefix p s) as [rest|] eqn:H; [|done].
  intros _. by apply strip_prefix_app.
Qed.

(** What [validateRequiredClaims] returns, by induction on the list of
    required claims. *)
Lemma validateRequiredClaims_cases (required : list string) (claims : MapClaims) :
  (Auth.JWTMiddleware.validateRequiredClaims required claims = None
   ↔ Forall (λ c, is_Some (claims !! c)) required)
  ∧ ∀ err, Auth.JWTMiddleware.validateRequiredClaims required claims = Some err →
      ∃ present missing rest,
        required = present ++ missing :: rest
        ∧ Forall (λ c, is_Some (claims !! c)) present
        ∧ claims !! missing = None
        ∧ err = GatewayErr (NewUnauthorizedError
                              ("missing required claim: " +:+ missing)).
Proof.
  induction required as [|c required [IHnone IHerr]]; simpl.
  - split; [split; [by constructor|done] | done].
  - destruct (claims !! c) as [v|] eqn:Hc.
    + split.
      * rewrite Forall_cons, IHnone. split; [|by intros [_ ?]].
        intros ?. split; [by rewrite Hc|done].
      * intros err Herr.
        destruct (IHerr err Herr) as (present & missing & rest & -> & Hp & Hm & ->).
        exists (c :: present), missing, rest. repeat split; try done.
        apply Forall_cons. split; [by rewrite Hc|done].
    + split.
      * split; [done|]. rewrite Forall_cons, Hc. intros [[? [=]] _].
      * intros err [= <-]. exists [], c, required. repeat split; try done.
Qed.

(** X9. [validateRequiredClaims] returns nil exactly when every required
    claim is a key of the claims; otherwise its error is the 401 error
    naming the first required claim that is missing. *)
Theorem validateRequiredClaims_spec (required : list string) (claims : MapClaims) :
  (Auth.JWTMiddleware.validateRequiredClaims required claims = None
   ↔ Forall (λ c, is_Some (claims !! c)) required)
  ∧ ∀ err, Auth.JWTMiddleware.validateRequiredClaims required claims = Some err →
      ∃ present missing rest,
        required = present ++ missing :: rest
        ∧ Forall (λ c, is_Some (claims !! c)) present
        ∧ claims !! missing = None
        ∧ err = GatewayErr (NewUnauthorizedError
                              ("missing required claim: " +:+ missing)).
Proof. apply validateRequiredClaims_cases. Qed.

(** X10. Whatever the request and the configuration, the jwt stage
    returns either no error, or an error of status 401 and code
    UNAUTHORIZED, and in that case the context it returns is the one it
    was given. *)
Theorem jwt_errors_are_unauthorized (m : Auth.JWTMiddleware.t)
    (decode : string → option Jwt.Token) (now : Time) (ctx : Context) (req : Request) :
  (∃ ctx', Auth.JWTMiddleware.Process m decode now ctx req = (ctx', None))
  ∨ ∃ msg, Auth.JWTMiddleware.Process m decode now ctx req
           = (ctx, Some (GatewayErr (NewUnauthorizedError msg))).
Proof.
  unfold Auth.JWTMiddleware.Process.
  destruct (decide _); [right; by eexists|].
  destruct (decide _); [right; by eexists|].
  destruct (Auth.JWTMiddleware.SkipValidation m); [left; by eexists|].
  destruct (Jwt.Parse _ _ _ _) as [msg|token]; [right; by eexists|].
  destruct (Auth.JWTMiddleware.validateRequiredClaims _ _) as [err|] eqn:Hv;
    [|left; by eexists].
  destruct (proj2 (validateRequiredClaims_cases _ _) err Hv)
    as (_ & missing & _ & _ & _ & _ & ->).
  right. by eexists.
Qed.

(** X11. With skip-validation off, a request passes the jwt stage only
    if its Authorization header is [Bearer ] followed by a token that
    decodes, whose algorithm names one of the RSA methods, whose [kid]
    names a configured public key, whose signature is the one that
    method makes with the private half of that key over this header and
    these claims, whose [exp] and [nbf] hold at the time of the request,
    and whose claims include every required claim; the context returned
    then carries exactly the claims of that token. *)
Theorem jwt_accepts_only_verified (m : Auth.JWTMiddleware.t)
    (decode : string → option Jwt.Token) (now : Time) (ctx ctx' : Context)
    (req : Request) :
  Auth.JWTMiddleware.SkipValidation m = false →
  Auth.JWTMiddleware.Process m decode now ctx req = (ctx', None) →
  ∃ tokenString tok alg method kid key,
    HeaderGet req "Authorization" = "Bearer " +:+ tokenString
    ∧ decode tokenString = Some tok
    ∧ Jwt.TokenHeader tok !! "alg" = Some (VString alg)
    ∧ Jwt.GetSigningMethod alg = Some method
    ∧ Jwt.isSigningMethodRSA method = true
    ∧ Jwt.TokenHeader tok !! "kid" = Some (VString kid)
    ∧ Auth.JWTMiddleware.PublicKeys m !! kid = Some key
    ∧ Jwt.TokenSignature tok
      = Jwt.SignedBy method key (Jwt.TokenHeader tok) (Jwt.Claims tok)
    ∧ Jwt.Validate now (Jwt.Claims tok) = None
    ∧ Forall (λ c, is_Some (Jwt.Claims tok !! c)) (Auth.JWTMiddleware.RequiredClaims m)
    ∧ ctx' = WithClaims ctx (Jwt.Claims tok).
Proof.
  intros Hskip. unfold Auth.JWTMiddleware.Process.
  destruct (decide _) as [|Hne]; [done|].
  destruct (decide _) as [|Hpre]; [done|].
  rewrite Hskip. unfold Jwt.Parse.
  destruct (decode _) as [tok|] eqn:Hd; [|done].
  destruct (Jwt.TokenHeader tok !! "alg") as [[alg| | | | |]|] eqn:Halg; try done.
  destruct (Jwt.GetSigningMethod alg) as [method|] eqn:Hm; [|done].
  unfold Auth.JWTMiddleware.keyFunc.
  destruct (Jwt.isSigningMethodRSA method) eqn:Hrsa; [|done]. simpl.
  destruct (Jwt.TokenHeader tok !! "kid") as [[kid| | | | |]|] eqn:Hkid; try done.
  destruct (Auth.JWTMiddleware.PublicKeys m !! kid) as [key|] eqn:Hkey; [|done].
  destruct (Jwt.Verify method key tok) eqn:Hver; [|done]. simpl.
  destruct (Jwt.Validate now (Jwt.Claims tok)) eqn:Hval; [done|].
  destruct (Auth.JWTMiddleware.validateRequiredClaims _ _) eqn:Hreq; [done|].
  intros [= <-].
  exists (Strings.TrimPrefix (HeaderGet req "Authorization") "Bearer "),
    tok, alg, method, kid, key.
  repeat split; try done.
  - apply TrimPrefix_changed. done.
  - unfold Jwt.Verify in Hver. apply andb_true_iff in Hver as [_ Hver].
    destruct (Jwt.TokenSignature tok) as [m' k h c|]; [|done].
    repeat (apply andb_true_iff in Hver as [Hver ?]).
    repeat match goal with H : bool_decide _ = true |- _ =>
      apply bool_decide_eq_true in H end.
    by subst.
  - by apply validateRequiredClaims_cases.
Qed.

Lemma jwt_accepts_only_verified_witness :
  ∃ tokenString tok alg method kid key,
    HeaderGet (Examples.bearer "rs256.u1.sig") "Authorization" = "Bearer " +:+ tokenString
    ∧ Examples.decodeKnown tokenString = Some tok
    ∧ Jwt.TokenHeader tok !! "alg" = Some (VString alg)
    ∧ Jwt.GetSigningMethod alg = Some method
    ∧ Jwt.isSigningMethodRSA method = true
    ∧ Jwt.TokenHeader tok !! "kid" = Some (VString kid)
    ∧ Auth.JWTMiddleware.PublicKeys Examples.jwtK1 !! kid = Some key
    ∧ Jwt.TokenSignature tok
      = Jwt.SignedBy method key (Jwt.TokenHeader tok) (Jwt.Claims tok)
    ∧ Jwt.Validate (Unix 1500) (Jwt.Claims tok) = None
    ∧ Forall (λ c, is_Some (Jwt.Claims tok !! c))
        (Auth.JWTMiddleware.RequiredClaims Examples.jwtK1)
    ∧ WithClaims Background Examples.claimsU1 = WithClaims Background (Jwt.Claims tok).
Proof.
  apply (jwt_accepts_only_verified Examples.jwtK1 Examples.decodeKnown (Unix 1500)
           Background (WithClaims Background Examples.claimsU1)
           (Examples.bearer "rs256.u1.sig")).
  - reflexivity.
  - vm_compute. reflexivity.
Defined.

(** ** More on the revocation stage *)

(** X12. The revocation stage never changes the context, and the only
    errors it returns are 401 "invalid token claims", 401
    "token has been revoked" and 503 "session service unavailable"; the
    last one only when fail-open is off.  A context without claims
    passes. *)
Theorem revoke_outcomes {W : Type} (m : Auth.RevokeMiddleware.t W) (store : W)
    (ctx : Context) (req : Request) :
  fst (Auth.RevokeMiddleware.Process m store ctx req) = ctx
  ∧ (snd (Auth.RevokeMiddleware.Process m store ctx req) = None
     ∨ snd (Auth.RevokeMiddleware.Process m store ctx req)
       = Some (GatewayErr (NewError StatusUnauthorized "Unauthorized"
                             "invalid token claims"))
     ∨ snd (Auth.RevokeMiddleware.Process m store ctx req)
       = Some (GatewayErr (NewError StatusUnauthorized "Unauthorized"
                             "token has been revoked"))
     ∨ (Auth.RevokeMiddleware.failOpen m = false
        ∧ snd (Auth.RevokeMiddleware.Process m store ctx req)
          = Some (GatewayErr (NewError StatusServiceUnavailable "ServiceUnavailable"
                                "session service unavailable"))))
  ∧ (Auth.GetClaimsFromContext ctx = None →
     Auth.RevokeMiddleware.Process m store ctx req = (ctx, None)).
Proof.
  unfold Auth.RevokeMiddleware.Process.
  destruct (Auth.GetClaimsFromContext ctx) as [claims|];
    [|simpl; by auto].
  destruct (Auth.RevokeMiddleware.getUserID m claims) as [?|u];
    [simpl; split; [done|split; [auto|done]]|].
  destruct (Auth.RevokeMiddleware.getIssuedAt m claims) as [?|T0];
    [simpl; split; [done|split; [auto|done]]|].
  destruct (Repository.GetRevokedTime _ u store) as [T1 [err|]].
  - destruct (Auth.RevokeMiddleware.failOpen m) eqn:Hf;
      simpl; split; [done|split; [auto|done]|done|split; [auto 10|done]].
  - destruct (IsZero T1); [simpl; split; [done|split; [auto|done]]|].
    destruct (Before T0 T1); simpl; split; [done|split; [auto 10|done]|done|split; [auto|done]].
Qed.

(** X13. With the Redis repository and a server that cannot be reached,
    a request whose claims hold a non-empty string user id and a numeric
    issued-at is refused with 503 when fail-open is off and passes when
    it is on. *)
Theorem revoke_store_unreachable (r : Repository.RedisSessionRepository.t)
    (userIDClaim issuedAtClaim : string) (failOpen : bool)
    (srv : Redis.Server) (cause : string) (ctx : Context) (req : Request)
    (claims : MapClaims) (u : string) (v : Value) (T0 : Z) :
  let m := Auth.RevokeMiddleware.New (Repository.RedisSessionRepository.interface r)
             userIDClaim issuedAtClaim failOpen in
  Redis.fault srv = Some cause →
  Auth.GetClaimsFromContext ctx = Some claims →
  claims !! Auth.RevokeMiddleware.userIDClaim m = Some (VString u) →
  u ≠ "" →
  claims !! Auth.RevokeMiddleware.issuedAtClaim m = Some v →
  Stated.wholeSecond v = Some T0 →
  Auth.RevokeMiddleware.Process m srv ctx req
  = (ctx, if failOpen then None
          else Some (GatewayErr (NewError StatusServiceUnavailable "ServiceUnavailable"
                                   "session service unavailable"))).
Proof.
  intros m Hf Hc Hu Hne Hv Hw. unfold Auth.RevokeMiddleware.Process.
  destruct (getIssuedAt_numeric m claims v T0 Hv Hw) as [t Hi].
  rewrite Hc, (getUserID_of_claim m claims u Hu Hne), Hi. simpl.
  unfold Repository.RedisSessionRepository.GetRevokedTime, Redis.Get. rewrite Hf.
  by destruct failOpen.
Qed.

Lemma revoke_store_unreachable_witness :
  let srv := {| Redis.fault := Some "dial tcp: connection refused";
                Redis.entries := ∅ |} in
  let m := Auth.RevokeMiddleware.New
             (Repository.RedisSessionRepository.interface
                (Repository.RedisSessionRepository.New Examples.codec2000 ""))
             "" "" false in
  let ctx := WithClaims Background Examples.claimsU1 in
  Auth.RevokeMiddleware.Process m srv ctx Examples.getUsers
  = (ctx, Some (GatewayErr (NewError StatusServiceUnavailable "ServiceUnavailable"
                              "session service unavailable"))).
Proof.
  apply (revoke_store_unreachable
           (Repository.RedisSessionRepository.New Examples.codec2000 "")
           "" "" false
           {| Redis.fault := Some "dial tcp: connection refused"; Redis.entries := ∅ |}
           "dial tcp: connection refused"
           (WithClaims Background Examples.claimsU1) Examples.getUsers
           Examples.claimsU1 "u1" (VFloat64 (1000 # 1)) 1000).
  - reflexivity.
  - reflexivity.
  - reflexivity.
  - discriminate.
  - reflexivity.
  - reflexivity.
Defined.

(** ** More on the session repository *)

Section RedisRepository.
Import Repository.
Variable r : RedisSessionRepository.t.

Lemma makeKey_inj (u u' : string) :
  RedisSessionRepository.makeKey r u = RedisSessionRepository.makeKey r u' → u = u'.
Proof. unfold RedisSessionRepository.makeKey. apply String.app_inj. Qed.

Lemma SetRevokedTime_ok (u : string) (t : Time) (ttl : Duration)
    (srv : Redis.Server) :
  0 < ttl → Redis.fault srv = None →
  RedisSessionRepository.SetRevokedTime r u t ttl srv
  = (None,
     {| Redis.fault := None;
        Redis.entries :=
          <[RedisSessionRepository.makeKey r u :=
              (Format (RedisSessionRepository.codec r) t, ttl)]> (Redis.entries srv) |}).
Proof.
  intros Httl Hf. unfold RedisSessionRepository.SetRevokedTime, Redis.Set_.
  rewrite bool_decide_eq_false_2 by lia. by rewrite Hf.
Qed.

Lemma GetRevokedTime_after_set (u : string) (t : Time) (ttl : Duration)
    (srv : Redis.Server) :
  0 < ttl → Redis.fault srv = None → Format (RedisSessionRepository.codec r) t ≠ "" →
  RedisSessionRepository.GetRevokedTime r u
    (snd (RedisSessionRepository.SetRevokedTime r u t ttl srv))
  = match Parse (RedisSessionRepository.codec r)
            (Format (RedisSessionRepository.codec r) t) with
    | inr t' => (t', None)
    | inl cause =>
        (zero, Some (PlainErr ("failed to parse revoked time for user " +:+ u
                               +:+ ": " +:+ cause)))
    end.
Proof.
  intros Httl Hf Hfmt. rewrite SetRevokedTime_ok by done.
  unfold RedisSessionRepository.GetRevokedTime, Redis.Get. simpl.
  rewrite lookup_insert_eq. by rewrite decide_False.
Qed.

Lemma GetRevokedTime_other_user (u u' : string) (t : Time) (ttl : Duration)
    (srv : Redis.Server) :
  0 < ttl → Redis.fault srv = None → u' ≠ u →
  RedisSessionRepository.GetRevokedTime r u'
    (snd (RedisSessionRepository.SetRevokedTime r u t ttl srv))
  = RedisSessionRepository.GetRevokedTime r u' srv.
Proof.
  intros Httl Hf Hne. rewrite SetRevokedTime_ok by done.
  unfold RedisSessionRepository.GetRevokedTime, Redis.Get. simpl.
  rewrite Hf, lookup_insert_ne; [done|].
  intros Hk. apply makeKey_inj in Hk. by subst.
Qed.

(** X14. After [SetRevokedTime] with a positive time-to-live on a
    reachable server, [GetRevokedTime] for the same user returns what
    parsing the formatted time gives (the instant to the precision of
    the format), provided the formatted text is not empty; the revoked
    time of every other user reads as before. *)
Theorem set_then_get_revoked_time (u : string) (t : Time) (ttl : Duration)
    (srv : Redis.Server) :
  0 < ttl → Redis.fault srv = None → Format (RedisSessionRepository.codec r) t ≠ "" →
  let srv' := snd (RedisSessionRepository.SetRevokedTime r u t ttl srv) in
  fst (RedisSessionRepository.SetRevokedTime r u t ttl srv) = None
  ∧ RedisSessionRepository.GetRevokedTime r u srv'
    = match Parse (RedisSessionRepository.codec r)
              (Format (RedisSessionRepository.codec r) t) with
      | inr t' => (t', None)
      | inl cause =>
          (zero, Some (PlainErr ("failed to parse revoked time for user " +:+ u
                                 +:+ ": " +:+ cause)))
      end
  ∧ ∀ u', u' ≠ u →
      RedisSessionRepository.GetRevokedTime r u' srv'
      = RedisSessionRepository.GetRevokedTime r u' srv.
Proof.
  intros Httl Hf Hfmt srv'. subst srv'. split_and!.
  - by rewrite SetRevokedTime_ok.
  - by apply GetRevokedTime_after_set.
  - intros u' Hne. by apply GetRevokedTime_other_user.
Qed.

(** X15. On a reachable server [DeleteRevokedTime] returns nil, after it
    the user has the zero revoked time (no marker), other users read as
    before, and deleting again changes nothing. *)
Theorem delete_revoked_time (u : string) (srv : Redis.Server) :
  Redis.fault srv = None →
  let srv' := snd (RedisSessionRepository.DeleteRevokedTime r u srv) in
  fst (RedisSessionRepository.DeleteRevokedTime r u srv) = None
  ∧ RedisSessionRepository.GetRevokedTime r u srv' = (zero, None)
  ∧ (∀ u', u' ≠ u →
       RedisSessionRepository.GetRevokedTime r u' srv'
       = RedisSessionRepository.GetRevokedTime r u' srv)
  ∧ RedisSessionRepository.DeleteRevokedTime r u srv' = (None, srv').
Proof.
  intros Hf srv'. subst srv'.
  unfold RedisSessionRepository.DeleteRevokedTime, Redis.Delete. rewrite Hf. simpl.
  split; [done|]. split; [|split].
  - unfold RedisSessionRepository.GetRevokedTime, Redis.Get. simpl.
    by rewrite lookup_delete_eq.
  - intros u' Hne. unfold RedisSessionRepository.GetRevokedTime, Redis.Get. simpl.
    rewrite Hf, lookup_delete_ne; [done|].
    intros Hk. apply makeKey_inj in Hk. by subst.
  - by rewrite delete_delete_eq.
Qed.

(** X16. When the server cannot be reached, [GetRevokedTime], a
    [SetRevokedTime] that writes (positive time-to-live) and
    [DeleteRevokedTime] each return an error, and the server state is
    what it was. *)
Theorem repository_errors_on_fault (u : string) (t : Time) (ttl : Duration)
    (srv : Redis.Server) (cause : string) :
  Redis.fault srv = Some cause → 0 < ttl →
  (∃ msg, RedisSessionRepository.GetRevokedTime r u srv = (zero, Some (PlainErr msg)))
  ∧ (∃ msg, RedisSessionRepository.SetRevokedTime r u t ttl srv
            = (Some (PlainErr msg), srv))
  ∧ (∃ msg, RedisSessionRepository.DeleteRevokedTime r u srv
            = (Some (PlainErr msg), srv)).
Proof.
  intros Hf Httl. split; [|split].
  - unfold RedisSessionRepository.GetRevokedTime, Redis.Get. rewrite Hf. by eexists.
  - unfold RedisSessionRepository.SetRevokedTime, Redis.Set_.
    rewrite bool_decide_eq_false_2 by lia. rewrite Hf. by eexists.
  - unfold RedisSessionRepository.DeleteRevokedTime, Redis.Delete. rewrite Hf.
    by eexists.
Qed.

End RedisRepository.

Lemma set_then_get_revoked_time_witness :
  let r := Repository.RedisSessionRepository.New Examples.codec2000 "" in
  Repository.RedisSessionRepository.GetRevokedTime r "u1"
    (snd (Repository.RedisSessionRepository.SetRevokedTime r "u1" (Unix 2000)
            (10 * Hour) Examples.emptyServer))
  = (Unix 2000, None).
Proof.
  refine (proj1 (proj2 (set_then_get_revoked_time
    (Repository.RedisSessionRepository.New Examples.codec2000 "")
    "u1" (Unix 2000) (10 * Hour) Examples.emptyServer _ _ _))).
  - reflexivity.
  - reflexivity.
  - discriminate.
Defined.

Lemma delete_revoked_time_witness :
  let r := Repository.RedisSessionRepository.New Examples.codec2000 "" in
  Repository.RedisSessionRepository.GetRevokedTime r "u1"
    (snd (Repository.RedisSessionRepository.DeleteRevokedTime r "u1"
            (snd (Repository.RedisSessionRepository.SetRevokedTime r "u1" (Unix 2000)
                    (10 * Hour) Examples.emptyServer))))
  = (zero, None).
Proof.
  refine (proj1 (proj2 (delete_revoked_time
    (Repository.RedisSessionRepository.New Examples.codec2000 "") "u1"
    (snd (Repository.RedisSessionRepository.SetRevokedTime
            (Repository.RedisSessionRepository.New Examples.codec2000 "")
            "u1" (Unix 2000) (10 * Hour) Examples.emptyServer)) _))).
  reflexivity.
Defined.

Lemma repository_errors_on_fault_witness :
  let r := Repository.RedisSessionRepository.New Examples.codec2000 "" in
  let srv := {| Redis.fault := Some "i/o timeout"; Redis.entries := ∅ |} in
  ∃ msg, Repository.RedisSessionRepository.SetRevokedTime r "u1" (Unix 2000)
           (10 * Hour) srv
         = (Some (PlainErr msg), srv).
Proof.
  refine (proj1 (proj2 (repository_errors_on_fault
    (Repository.RedisSessionRepository.New Examples.codec2000 "")
    "u1" (Unix 2000) (10 * Hour)
    {| Redis.fault := Some "i/o timeout"; Redis.entries := ∅ |} "i/o timeout" _ _))).
  - reflexivity.
  - reflexivity.
Defined.

(** ** The forced-revoke and logout endpoints *)

Section Endpoints.
Import Repository Endpoints.


(** *** The token of the logout endpoint *)

Lemma split_on_nonempty (sep : string) (s : string) :
  ∀ skip cur, StringsMore.split_on sep skip cur s ≠ [].
Proof.
  induction s as [|c s IH]; intros skip cur; simpl; [done|].
  destruct skip; [|apply IH]. by destruct (Strings.HasPrefix _ _).
Qed.

Lemma split_on_no_occurrence (sep s cur : string) :
  StringsMore.occurs sep s = false →
  StringsMore.split_on sep 0 cur s = [String.rev (String.rev_app s cur)].
Proof.
  revert cur. induction s as [|c s IH]; intros cur H; simpl in *; [done|].
  apply orb_false_iff in H as [Hp Ho]. rewrite Hp. by apply IH.
Qed.

Lemma split_on_occurrence (sep s cur : string) :
  StringsMore.occurs sep s = true → sep ≠ "" →
  ∃ x y l, StringsMore.split_on sep 0 cur s = x :: y :: l.
Proof.
  intros H Hsep. revert cur H. induction s as [|c s IH]; intros cur H; simpl in *.
  - by destruct sep.
  - destruct (Strings.HasPrefix (String c s) sep) eqn:Hp.
    + pose proof (split_on_nonempty sep s (String.length sep - 1) "") as Hne.
      destruct (StringsMore.split_on sep _ "" s) as [|y l]; [done|]. by eexists _, _, _.
    + simpl in H. by apply IH.
Qed.

Lemma extractToken_no_bearer (TrimSpace : string → string) (req : Request) :
  HeaderGet req "Authorization" ≠ "" →
  StringsMore.occurs "Bearer " (HeaderGet req "Authorization") = false →
  Logout.extractToken TrimSpace req = inl "invalid authorization header format".
Proof.
  intros Hne Hocc. unfold Logout.extractToken, StringsMore.Split.
  rewrite decide_False by done. by rewrite split_on_no_occurrence.
Qed.

Lemma extractToken_bearer (TrimSpace : string → string) (req : Request)
    (rest : string) :
  HeaderGet req "Authorization" = "Bearer " +:+ rest →
  Logout.extractToken TrimSpace req
  = if StringsMore.occurs "Bearer " rest
    then inl "invalid authorization header format"
    else if decide (TrimSpace rest = "") then inl "token is empty"
         else inr (TrimSpace rest).
Proof.
  unfold Logout.extractToken, StringsMore.Split.
  intros ->. rewrite decide_False by done.
  change (StringsMore.split_on "Bearer " 0 "" ("Bearer " +:+ rest))
    with ("" :: StringsMore.split_on "Bearer " 0 "" rest).
  destruct (StringsMore.occurs "Bearer " rest) eqn:Hocc.
  - destruct (split_on_occurrence "Bearer " rest "" Hocc) as (x & y & l & ->); done.
  - rewrite split_on_no_occurrence by done. by rewrite rev_rev_app.
Qed.

(** X17. Without the configured API key the forced-revoke endpoint
    writes nothing: when the [X-API-Key] header is missing or differs
    from the configured key, the store is as it was and the response is
    the 401 error, or the 405 error if the method is not POST, whatever
    the body says. *)
Theorem admin_revoke_requires_key {W : Type} (h : AdminRevoke.t W)
    (decodeBody : string → string + AdminRevoke.RevokeRequest)
    (format : Time → string) (now : Time) (w : Handler.ResponseWriter)
    (req : Request) (body : string) (s : W) :
  HeaderGet req "X-API-Key" = "" ∨ HeaderGet req "X-API-Key" ≠ AdminRevoke.apiKey h →
  AdminRevoke.ServeHTTP h decodeBody format now w req body s
  = (writeError w
       (if bool_decide (Method req = MethodPost)
        then NewError StatusUnauthorized "Unauthorized" "invalid or missing API key"
        else NewError StatusMethodNotAllowed "MethodNotAllowed"
               "only POST method is allowed"), s).
Proof.
  intros Hkey. unfold AdminRevoke.ServeHTTP.
  destruct (bool_decide (Method req = MethodPost)); [|done]. simpl.
  destruct (Handler.AdminRevokeHandler.authenticate _ req) eqn:Ha; [done|].
  apply authenticate_accepts_iff in Ha as [? ?]. by destruct Hkey.
Qed.



(** X20. The logout endpoint takes its token from a header holding
    [Bearer ] once.  A header without [Bearer ] is refused as of invalid
    format.  For a header [Bearer ] followed by [rest]: if [rest] holds
    [Bearer ] again the header is refused as of invalid format;
    otherwise the token is [rest] with white space trimmed, and an
    empty one is refused. *)
Theorem logout_extractToken (TrimSpace : string → string) (req : Request)
    (rest : string) :
  (HeaderGet req "Authorization" ≠ "" →
   StringsMore.occurs "Bearer " (HeaderGet req "Authorization") = false →
   Logout.extractToken TrimSpace req = inl "invalid authorization header format")
  ∧ (HeaderGet req "Authorization" = "Bearer " +:+ rest →
     Logout.extractToken TrimSpace req
     = if StringsMore.occurs "Bearer " rest
       then inl "invalid authorization header format"
       else if decide (TrimSpace rest = "") then inl "token is empty"
            else inr (TrimSpace rest)).
Proof.
  split; [apply extractToken_no_bearer | apply extractToken_bearer].
Qed.

End Endpoints.

Lemma admin_revoke_requires_key_witness :
  Endpoints.AdminRevoke.ServeHTTP
    (Endpoints.AdminRevoke.New
       (Repository.RedisSessionRepository.interface MoreExamples.redisRepository)
       "s3cret" 0)
    MoreExamples.decodeBodyU2 (Repository.Format Examples.codec2000) (Unix 2000)
    Handler.NewRecorder MoreExamples.revokeU2WrongKey "{user_id: u2}"
    Examples.emptyServer
  = (Endpoints.writeError Handler.NewRecorder
       (NewError StatusUnauthorized "Unauthorized" "invalid or missing API key"),
     Examples.emptyServer).
Proof.
  apply (admin_revoke_requires_key
           (Endpoints.AdminRevoke.New
              (Repository.RedisSessionRepository.interface MoreExamples.redisRepository)
              "s3cret" 0)
           MoreExamples.decodeBodyU2 (Repository.Format Examples.codec2000) (Unix 2000)
           Handler.NewRecorder MoreExamples.revokeU2WrongKey "{user_id: u2}"
           Examples.emptyServer).
  right. discriminate.
Defined.



Lemma logout_extractToken_witness :
  Endpoints.Logout.extractToken MoreExamples.trimSpaces MoreExamples.logoutU1
  = inr "none.u1.".
Proof.
  refine (eq_trans (proj2 (logout_extractToken MoreExamples.trimSpaces
                             MoreExamples.logoutU1 "none.u1.") _) _).
  - reflexivity.
  - vm_compute. reflexivity.
Defined.

(** ** More on the gateway handler *)

Lemma WithContext_same (r : Request) : WithContext r (ReqContext r) = r.
Proof. by destruct r. Qed.

Lemma createAll_error {W : Type} (f : Handler.Factory W)
    (configs : list Routing.MiddlewareConfig) :
  (∃ cfg msg, cfg ∈ configs ∧ f cfg = inl msg) →
  ∃ msg, Handler.createAll f configs = inl (PlainErr msg).
Proof.
  intros (cfg & msg & Hin & Hf).
  induction configs as [|c configs IH]; [by apply elem_of_nil in Hin|]. simpl.
  destruct (f c) as [m|mw] eqn:Hc; [by eexists|].
  apply elem_of_cons in Hin as [->|Hin]; [congruence|].
  destruct (IH Hin) as [msg' ->]. by eexists.
Qed.

(** X21. When every stage of the chain built for the matched route
    passes, the handler calls the transporter once, after the stages
    and in their order, with the context the last stage returned, the
    request carrying that context, and the backend of the route; the
    response is what the transporter wrote, followed, if the transporter
    returned an error, by the answer to that error (502 unless it is a
    gateway error). *)
Theorem passing_chain_reaches_backend {W : Type}
    (g : Handler.Gateway (Observe.Observed W)) (t : Handler.Transporter W)
    (w w' : Handler.ResponseWriter) (r : Request) (mr : Routing.MatchResult)
    (c : Middleware.Chain W) (ctx' : Context) (s s' s'' : W) (res : option error)
    (journal : list Observe.Event) :
  Handler.transporter g = Handler.observedTransporter t →
  Handler.buildMiddlewareChain g (Routing.Middleware (Routing.Route_ mr))
  = inr (Observe.observedChain c) →
  Middleware.Execute c (ReqContext r) r s = ((ctx', None), s') →
  t ctx' w (WithContext r ctx')
    (Handler.convertToTransportBackend (Routing.RouteBackend (Routing.Route_ mr))) s'
  = ((res, w'), s'') →
  Handler.serveMatched g w r (s, journal) (inr mr)
  = (match res with
     | Some err =>
         Handler.handleError w' (WithContext r ctx')
           (GatewayErr (WrapError err StatusBadGateway "TRANSPORT_ERROR"))
     | None => w'
     end,
     (s'', journal ++ (Observe.Invoked <$> seq 0 (length c))
             ++ [Observe.Transported
                   (Routing.URL (Routing.RouteBackend (Routing.Route_ mr)))])).
Proof.
  intros Ht Hbuild Hexec Htr.
  pose proof (execute_observed_pass c [] 0 (ReqContext r) ctx' r s s' journal Hexec)
    as Hobs.
  rewrite app_nil_r in Hobs. simpl in Hobs. fold (Observe.observedChain c) in Hobs.
  assert (Hfwd : ∀ r0, Handler.forward g w r0 ctx' mr
                         (s', journal ++ (Observe.Invoked <$> seq 0 (length c)))
    = (match t ctx' w r0 (Handler.convertToTransportBackend
                            (Routing.RouteBackend (Routing.Route_ mr))) s' with
       | ((Some err, w1), s1) =>
           (Handler.handleError w1 r0
              (GatewayErr (WrapError err StatusBadGateway "TRANSPORT_ERROR")),
            (s1, (journal ++ (Observe.Invoked <$> seq 0 (length c)))
                 ++ [Observe.Transported
                       (Routing.URL (Routing.RouteBackend (Routing.Route_ mr)))]))
       | ((None, w1), s1) =>
           (w1, (s1, (journal ++ (Observe.Invoked <$> seq 0 (length c)))
                     ++ [Observe.Transported
                           (Routing.URL (Routing.RouteBackend (Routing.Route_ mr)))]))
       end)).
  { intros r0. unfold Handler.forward. rewrite Ht.
    unfold Handler.observedTransporter. simpl.
    by destruct (t ctx' w r0 _ s') as [[[err|] w1] s1]. }
  unfold Handler.serveMatched.
  destruct (Routing.Middleware (Routing.Route_ mr)) as [|cfg cfgs] eqn:Hcfgs.
  - assert (c = []) as ->.
    { unfold Handler.buildMiddlewareChain in Hbuild.
      destruct (Handler.middlewareFactory g); simpl in Hbuild;
        injection Hbuild as Hbuild; by destruct c. }
    simpl in Hexec. injection Hexec as <- <-.
    specialize (Hfwd r). rewrite WithContext_same in Htr. rewrite Htr in Hfwd.
    simpl in Hfwd. rewrite app_nil_r in Hfwd. rewrite Hfwd.
    rewrite WithContext_same. by destruct res.
  - rewrite Hbuild, Hobs, Hfwd, Htr. rewrite <- app_assoc. by destruct res.
Qed.

(** X22. A gateway built without a middleware factory runs no stage:
    whatever middleware the matched route lists (jwt, revoke, ...), the
    request is forwarded to the backend as it came. *)
Theorem nil_factory_skips_middleware {W : Type} (g : Handler.Gateway W)
    (w : Handler.ResponseWriter) (r : Request) (mr : Routing.MatchResult) (s : W) :
  Handler.middlewareFactory g = None →
  Handler.serveMatched g w r s (inr mr)
  = Handler.forward g w r (ReqContext r) mr s.
Proof.
  intros Hnil. unfold Handler.serveMatched, Handler.buildMiddlewareChain.
  rewrite Hnil. destruct (Routing.Middleware (Routing.Route_ mr)); [done|].
  simpl. by rewrite WithContext_same.
Qed.

(** X23. If the factory cannot create one of the middleware the matched
    route lists (an unknown type, say), the handler answers 500 with
    code MIDDLEWARE_SETUP_ERROR and leaves the world as it was: no
    stage runs, not even those listed before the one that failed, and
    the transporter is not called. *)
Theorem uncreatable_middleware_stops_request {W : Type} (g : Handler.Gateway W)
    (f : Handler.Factory W) (w : Handler.ResponseWriter) (r : Request)
    (mr : Routing.MatchResult) (s : W) (cfg : Routing.MiddlewareConfig)
    (cause : string) :
  Handler.middlewareFactory g = Some f →
  cfg ∈ Routing.Middleware (Routing.Route_ mr) →
  f cfg = inl cause →
  ∃ msg,
    Handler.serveMatched g w r s (inr mr)
    = (Handler.handleError w r
         (GatewayErr (NewError StatusInternalServerError "MIDDLEWARE_SETUP_ERROR" msg)),
       s).
Proof.
  intros Hf Hin Hcfg. unfold Handler.serveMatched, Handler.buildMiddlewareChain.
  rewrite Hf.
  destruct (Routing.Middleware (Routing.Route_ mr)) as [|c cs] eqn:Hcs;
    [by apply elem_of_nil in Hin|].
  destruct (createAll_error f (c :: cs)) as [msg ->]; [by eexists _, _|].
  by exists msg.
Qed.

(** X24. Every error the router can return has status 404 (code
    NOT_FOUND) or 405 (code METHOD_NOT_ALLOWED), and the handler answers
    the request with that error as it is, leaving the world as it was:
    no stage runs and the transporter is not called. *)
Theorem routing_error_is_answered {W : Type} (g : Handler.Gateway W)
    (w : Handler.ResponseWriter) (r : Request) (s : W) (err : gatewayError) :
  inl err ∈ Routing.Match (Handler.router g) (Method r) (Path r) →
  ((statusCode err = 404 ∧ errorCode err = "NOT_FOUND")
   ∨ (statusCode err = 405 ∧ errorCode err = "METHOD_NOT_ALLOWED"))
  ∧ Handler.serveMatched g w r s (inl err) = (Handler.handleError w r (GatewayErr err), s)
  ∧ (Method r ≠ MethodOptions →
     (Handler.handleError w r (GatewayErr err), s) ∈ Handler.ServeHTTP g w r s).
Proof.
  intros Hin. split; [|split; [done|]].
  - unfold Routing.Match in Hin. apply list_elem_of_fmap in Hin as ([ro params] & He & _).
    unfold Routing.matchOutcome in He. destruct ro as [route|].
    + destruct (Routing.HasMethod route (Method r)); simpl in He; simplify_eq. by right.
    + simplify_eq. by left.
  - intros Hopt. unfold Handler.ServeHTTP. rewrite decide_False by done.
    apply list_elem_of_fmap. by exists (inl err).
Qed.

Lemma passing_chain_reaches_backend_witness :
  Handler.serveMatched MoreExamples.passingGateway Handler.NewRecorder
    (Examples.bearer "rs256.u1.sig") (Unix 1500, [])
    (inr {| Routing.Route_ := Examples.usersRoute; Routing.Params := ∅ |})
  = (Handler.Write (Handler.RawBytes "{}")
       (Handler.WriteHeader 200 Handler.NewRecorder),
     (Unix 1500,
      [Observe.Invoked 0; Observe.Invoked 1; Observe.Invoked 2;
       Observe.Transported "http://users:8080"])).
Proof.
  refine (passing_chain_reaches_backend MoreExamples.passingGateway
    Examples.backend200 Handler.NewRecorder
    (Handler.Write (Handler.RawBytes "{}") (Handler.WriteHeader 200 Handler.NewRecorder))
    (Examples.bearer "rs256.u1.sig")
    {| Routing.Route_ := Examples.usersRoute; Routing.Params := ∅ |}
    [Examples.jwtStageK1; MoreExamples.revokeStage500; Examples.passStage]
    (WithClaims Background Examples.claimsU1)
    (Unix 1500) (Unix 1500) (Unix 1500) None [] _ _ _ _).
  - reflexivity.
  - reflexivity.
  - vm_compute. reflexivity.
  - reflexivity.
Defined.

Lemma nil_factory_skips_middleware_witness :
  Handler.serveMatched MoreExamples.bareGateway Handler.NewRecorder Examples.getUsers
    (Unix 1500, [])
    (inr {| Routing.Route_ := Examples.usersRoute; Routing.Params := ∅ |})
  = (Handler.Write (Handler.RawBytes "{}")
       (Handler.WriteHeader 200 Handler.NewRecorder),
     (Unix 1500, [Observe.Transported "http://users:8080"])).
Proof.
  refine (eq_trans (nil_factory_skips_middleware MoreExamples.bareGateway
    Handler.NewRecorder Examples.getUsers
    {| Routing.Route_ := Examples.usersRoute; Routing.Params := ∅ |}
    (Unix 1500, []) _) _).
  - reflexivity.
  - reflexivity.
Defined.

Lemma uncreatable_middleware_stops_request_witness :
  ∃ msg,
    Handler.serveMatched MoreExamples.passingGateway Handler.NewRecorder
      Examples.getUsers (Unix 1500, [])
      (inr {| Routing.Route_ := MoreExamples.limitedRoute; Routing.Params := ∅ |})
    = (Handler.handleError Handler.NewRecorder Examples.getUsers
         (GatewayErr (NewError StatusInternalServerError "MIDDLEWARE_SETUP_ERROR" msg)),
       (Unix 1500, [])).
Proof.
  apply (uncreatable_middleware_stops_request MoreExamples.passingGateway
           MoreExamples.passingFactory Handler.NewRecorder Examples.getUsers
           {| Routing.Route_ := MoreExamples.limitedRoute; Routing.Params := ∅ |}
           (Unix 1500, [])
           {| Routing.Type_ := "ratelimit"; Routing.Config := ∅ |}
           "unknown middleware type: ratelimit").
  - reflexivity.
  - apply list_elem_of_In. simpl. tauto.
  - reflexivity.
Defined.

Lemma routing_error_is_answered_witness :
  Handler.serveMatched MoreExamples.passingGateway Handler.NewRecorder
    MoreExamples.getNowhere (Unix 1500, [])
    (inl (NewNotFoundError "no route found for path: /nowhere"))
  = (Handler.handleError Handler.NewRecorder MoreExamples.getNowhere
       (GatewayErr (NewNotFoundError "no route found for path: /nowhere")),
     (Unix 1500, [])).
Proof.
  refine (proj1 (proj2 (routing_error_is_answered MoreExamples.passingGateway
    Handler.NewRecorder MoreExamples.getNowhere (Unix 1500, [])
    (NewNotFoundError "no route found for path: /nowhere") _))).
  apply list_elem_of_In. vm_compute. tauto.
Defined.

(** ** The cors stage *)

Lemma corsHeadersFor_origin (m : Cors.CORSConfig) (origin : string) :
  Cors.corsHeadersFor m origin !! "Access-Control-Allow-Origin"
  = Some (if Cors.onlyWildcard m then "*" else origin).
Proof.
  unfold Cors.corsHeadersFor.
  destruct (bool_decide (0 < Cors.MaxAge m)); [rewrite lookup_insert_ne by done|];
    (destruct (Cors.AllowCredentials m); [rewrite lookup_insert_ne by done|]);
    (destruct (Cors.ExposedHeaders m); [|rewrite lookup_insert_ne by done]);
    (destruct (Cors.AllowedHeaders m); [|rewrite lookup_insert_ne by done]);
    (destruct (Cors.AllowedMethods m); [|rewrite lookup_insert_ne by done]);
    apply lookup_singleton_eq.
Qed.

(** X25. The cors stage never returns an error and never touches the
    rest of the context.  It leaves the context as it was when the
    request has no [Origin] or when the origin is not allowed, which is
    when the list of allowed origins is not exactly [["*"]] and does not
    hold the origin (so a ["*"] listed beside other origins allows
    nothing by itself).  Otherwise it stores a header map whose
    [Access-Control-Allow-Origin] is ["*"] when the list is exactly
    [["*"]], and the request's origin, a member of the list, when it is
    not. *)
Theorem cors_origin_policy (m : Cors.CORSConfig) (ctx : Cors.CorsContext)
    (req : Request) :
  let origin := HeaderGet req "Origin" in
  (Cors.Process m ctx req = (ctx, None)
   ∧ (origin = "" ∨ (Cors.AllowedOrigins m ≠ ["*"] ∧ origin ∉ Cors.AllowedOrigins m)))
  ∨ ∃ hs,
      Cors.Process m ctx req
      = ({| Cors.base := Cors.base ctx; Cors.corsHeaders := Some hs |}, None)
      ∧ origin ≠ ""
      ∧ ((Cors.AllowedOrigins m = ["*"]
          ∧ hs !! "Access-Control-Allow-Origin" = Some "*")
         ∨ (Cors.AllowedOrigins m ≠ ["*"] ∧ origin ∈ Cors.AllowedOrigins m
            ∧ hs !! "Access-Control-Allow-Origin" = Some origin)).
Proof.
  intros origin. unfold Cors.Process. fold origin.
  destruct (decide (origin = "")) as [He|Hne]; [left; by auto|].
  unfold Cors.isOriginAllowed.
  pose proof (corsHeadersFor_origin m origin) as Hh.
  unfold Cors.onlyWildcard in *.
  destruct (bool_decide (Cors.AllowedOrigins m = ["*"])) eqn:Hw.
  - apply bool_decide_eq_true in Hw. right. eexists. simpl.
    split; [reflexivity|]. split; [done|]. by left.
  - apply bool_decide_eq_false in Hw.
    destruct (bool_decide (origin ∈ Cors.AllowedOrigins m)) eqn:Hin; simpl.
    + apply bool_decide_eq_true in Hin. right. eexists.
      split; [reflexivity|]. split; [done|]. by right.
    + apply bool_decide_eq_false in Hin. left. by auto.
Qed.


(** ** The service behind the gateway: error answers *)

Section ErrorAnswers.
Import MyErrors ErrorHandling.

Variable Error : error → string.
Variable Verbose : error → string.

Lemma As_Some {A} (target : error → option A) (e : error) (a : A) :
  As target e = Some a → ∃ e', e' ∈ chain e ∧ target e' = Some a.
Proof.
  unfold As. intros H. apply head_Some in H as [l H].
  assert (a ∈ omap target (chain e)) as Hin by (rewrite H; left).
  apply list_elem_of_omap in Hin as (e' & ? & ?). eauto.
Qed.

Lemma As_WithStack {A} (target : error → option A) (e : error) :
  (∀ c, target (WithStack c) = None) →
  As target (WithStack e) = As target e.
Proof. intros H. unfold As. cbn [chain omap list_omap]. by rewrite H. Qed.

Lemma GetDefaultMessage_nonempty (status : Z) : GetDefaultMessage status ≠ "".
Proof.
  unfold GetDefaultMessage. destruct (DefaultMessages !! status) eqn:E; [|done].
  unfold DefaultMessages in E.
  repeat (apply lookup_insert_Some in E as [[_ <-] | [_ E]]; [done|]).
  apply lookup_singleton_Some in E as [_ <-]. done.
Qed.

Lemma GetValidationMessage_range (code : string) :
  ∃ c, ValidationMessages !! c = Some (GetValidationMessage code).
Proof.
  unfold GetValidationMessage. destruct (ValidationMessages !! code) eqn:E.
  - eauto.
  - exists ValidationUnknown. vm_compute. reflexivity.
Qed.

Lemma ValidationMessages_plain (c m : string) :
  ValidationMessages !! c = Some m → m ≠ "" ∧ m ≠ "An unexpected error occurred".
Proof.
  unfold ValidationMessages. intros E.
  repeat (apply lookup_insert_Some in E as [[_ <-] | [_ E]]; [done|]).
  apply lookup_singleton_Some in E as [_ <-]. done.
Qed.

(** What [classify] and [buildProblemDetails] make of an error. *)
(** The case of [classify] for an error found in the chain by [As]. *)
Ltac classify_step E :=
  let e' := fresh "e'" in
  let Hin := fresh "Hin" in
  let He' := fresh "He'" in
  apply As_Some in E as (e' & Hin & He');
  destruct e'; try done; simpl in He'; simplify_eq;
  eexists _, _, _, _; (split; [reflexivity|]);
  (split; [set_solver|]); (split; [done|]);
  case_decide;
  [ split; [by left | by apply GetDefaultMessage_nonempty]
  | split; [right; eexists; split; [exact Hin | done] | naive_solver] ].

Lemma classify_spec (x : error) :
  ∃ status title detail raw,
    classify x = (status, title, detail, raw)
    ∧ status ∈ [400; 401; 403; 404; 409; 422; 500]
    ∧ title = GetDefaultMessage status
    ∧ (detail = title ∨ ∃ e', e' ∈ chain x ∧ userMessageOf e' = Some detail)
    ∧ detail ≠ "".
Proof.
  unfold classify, ToHTTPStatus, GetUserMessage.
  destruct (As asInvalidArgument x) as [[um raw]|] eqn:E1.
  { apply As_Some in E1 as (e' & Hin & He').
    destruct e'; try done. simpl in He'. simplify_eq.
    eexists _, _, _, _. split; [reflexivity|].
    split; [set_solver|]. split; [done|].
    destruct (decide (um ≠ "")) as [Hum|Hum].
    - split; [|done]. right. eexists. split; [exact Hin|done].
    - apply dec_stable in Hum as ->. rewrite decide_True by auto.
      split; [by left | by apply GetDefaultMessage_nonempty]. }
  destruct (As asUnauthorized x) eqn:E2; [classify_step E2|].
  destruct (As asForbidden x) eqn:E3; [classify_step E3|].
  destruct (As asNotFound x) eqn:E4; [classify_step E4|].
  destruct (As asConflict x) eqn:E5; [classify_step E5|].
  destruct (As asUnprocessable x) eqn:E6; [classify_step E6|].
  destruct (As asSystem x) eqn:E7; [classify_step E7|].
  eexists _, _, _, _. split; [reflexivity|].
  split; [set_solver|]. split; [done|].
  rewrite decide_True by auto.
  split; [by left | by apply GetDefaultMessage_nonempty].
Qed.

Lemma ConvertOgenError_cases (e : error) :
  ∃ x, ConvertOgenError Error (Some e) = Some x
       ∧ (x = NewUnauthorized "認証が必要です"
          ∨ (∃ code raw, x = NewInvalidArgumentWithCode code raw)
          ∨ x = WithStack e).
Proof.
  unfold ConvertOgenError. eexists. split; [reflexivity|].
  destruct (As asSecurityError e); [by left|].
  destruct (Is e ErrSecurityRequirementIsNotSatisfied); [by left|].
  destruct (As asDecodeParamsError e) as [[n c]|].
  { destruct (mapOgenParamsError Error n c). right; left; eauto. }
  destruct (As asDecodeParamError e) as [[[n i] c]|].
  { destruct (mapOgenParamError Error n i c). right; left; eauto. }
  destruct (As asDecodeBodyError e) as [c|].
  { destruct (mapOgenBodyError Error c). right; left; eauto. }
  by right; right.
Qed.

(** The members of a problem-details body, in the order written. *)
Lemma Encode_buildProblemDetails (r : HttpRequest) (status : Z) (title detail : string) :
  title ≠ "" → detail ≠ "" → detail ≠ "An unexpected error occurred" →
  Encode (buildProblemDetails r status title detail)
  = JObj (("detail", JStr detail)
          :: match r with
             | Some (Some path) => [("instance", JStr path)]
             | _ => []
             end
          ++ [("status", JNum status); ("title", JStr title);
              ("type", JStr "about:blank")]).
Proof.
  intros Ht Hd Hd'. unfold buildProblemDetails.
  rewrite decide_False by done. rewrite decide_False by (intros [?|?]; done).
  destruct r as [[path|]|]; vm_compute; reflexivity.
Qed.

(** What [classify] gives after [ConvertOgenError]. *)
Lemma classify_converted (e x : error) :
  ConvertOgenError Error (Some e) = Some x →
  ∃ status title detail raw,
    classify x = (status, title, detail, raw)
    ∧ status ∈ [400; 401; 403; 404; 409; 422; 500]
    ∧ title = GetDefaultMessage status
    ∧ detail ≠ ""
    ∧ (detail = title
       ∨ (∃ e', e' ∈ chain e ∧ userMessageOf e' = Some detail)
       ∨ (∃ code, ValidationMessages !! code = Some detail)).
Proof.
  intros Hx. destruct (ConvertOgenError_cases e) as (x' & Hx' & Hcases).
  rewrite Hx in Hx'. injection Hx' as <-.
  destruct Hcases as [-> | [(code & raw & ->) | ->]].
  - eexists 401, _, _, _. split; [vm_compute; reflexivity|].
    split; [set_solver|]. split; [vm_compute; reflexivity|]. split; [done|].
    by left.
  - destruct (GetValidationMessage_range code) as (c & Hc).
    destruct (ValidationMessages_plain _ _ Hc) as [Hne Hne'].
    exists 400, (GetDefaultMessage 400), (GetValidationMessage code), raw.
    split.
    { unfold classify, NewInvalidArgumentWithCode.
      rewrite As_WithStack by done. unfold As at 1. cbn [chain omap list_omap
        asInvalidArgument head].
      unfold ToHTTPStatus. rewrite As_WithStack by done.
      unfold As at 1. cbn [chain omap list_omap asInvalidArgument head].
      by rewrite decide_True by done. }
    split; [set_solver|]. split; [done|]. split; [done|]. right; right. eauto.
  - destruct (classify_spec (WithStack e))
      as (status & title & detail & raw & Hc & Hs & Ht & Hp & Hne).
    exists status, title, detail, raw. do 4 (split; [done|]).
    destruct Hp as [-> | (e' & Hin & He')]; [by left|].
    right; left. exists e'. split; [|done].
    cbn [chain] in Hin. apply elem_of_cons in Hin as [-> | Hin]; done.
Qed.

Lemma ErrorHandler_spec (w : Handler.ResponseWriter) (r : HttpRequest) (e : error)
    (log : list LogRecord) :
  ∃ status title detail pd raw x,
    ErrorHandler Error Verbose w r (Some e) log
    = (Handler.Write (Handler.JsonBytes (Encode pd))
         (Handler.WriteHeader status
            (Handler.HeaderSet "Content-Type" "application/problem+json" w)),
       (if decide (500 ≤ status)
        then mkLogRecord LevelError
               (if decide (raw ≠ "") then <["raw_err" := JStr raw]> pd else pd)
               (Some (Verbose x))
        else mkLogRecord LevelWarn
               (if decide (raw ≠ "") then <["raw_err" := JStr raw]> pd else pd)
               None) :: log)
    ∧ Encode pd = JObj (problemMembers r status title detail)
    ∧ pd !! "raw_err" = None
    ∧ status ∈ [400; 401; 403; 404; 409; 422; 500]
    ∧ title = GetDefaultMessage status
    ∧ detail ≠ ""
    ∧ (detail = title
       ∨ (∃ e', e' ∈ chain e ∧ userMessageOf e' = Some detail)
       ∨ (∃ code, ValidationMessages !! code = Some detail)).
Proof.
  destruct (ConvertOgenError_cases e) as (x & Hx & _).
  destruct (classify_converted e x Hx)
    as (status & title & detail & raw & Hc & Hs & Ht & Hne & Hp).
  assert (title ≠ "") as Htne by (subst title; apply GetDefaultMessage_nonempty).
  unfold ErrorHandler. rewrite Hx, Hc.
  destruct (decide (detail = "An unexpected error occurred")) as [Hg|Hg].
  - exists status, title, title, (buildProblemDetails r status title detail), raw, x.
    split; [reflexivity|]. split.
    { unfold buildProblemDetails. rewrite decide_False by done.
      rewrite decide_True by auto.
      destruct r as [[path|]|]; vm_compute; reflexivity. }
    split.
    { unfold buildProblemDetails. destruct r as [[path|]|]; vm_compute; reflexivity. }
    do 3 (split; [done|]). by left.
  - exists status, title, detail, (buildProblemDetails r status title detail), raw, x.
    split; [reflexivity|]. split; [by apply Encode_buildProblemDetails|].
    split.
    { unfold buildProblemDetails. destruct r as [[path|]|]; vm_compute; reflexivity. }
    done.
Qed.

Lemma body_answer (b : Handler.Chunk) (code : Z) (k v : string)
    (w : Handler.ResponseWriter) :
  Handler.body (Handler.Write b (Handler.WriteHeader code (Handler.HeaderSet k v w)))
  = Handler.body w ++ [b].
Proof.
  unfold Handler.Write, Handler.WriteHeader, Handler.HeaderSet. simpl.
  by destruct (Handler.wrote w).
Qed.

(** X26.  Given an error and a response writer whose status line is not
    written, [ErrorHandler] answers with RFC 9457 problem details: the
    media type [application/problem+json], a status among 400, 401, 403,
    404, 409, 422 and 500, and one JSON object with the members [detail],
    [instance] (when the request has a URL), [status], [title] and
    [type], in this order, where [type] is [about:blank], [title] is the
    default message of the status and neither [title] nor [detail] is
    empty. *)
Theorem ErrorHandler_problem_details (w : Handler.ResponseWriter) (r : HttpRequest)
    (e : error) (log : list LogRecord) :
  Handler.wrote w = None →
  ∃ status title detail,
    (ErrorHandler Error Verbose w r (Some e) log).1
    = {| Handler.header :=
           <["Content-Type" := "application/problem+json"]> (Handler.header w);
         Handler.wrote :=
           Some (status,
                 <["Content-Type" := "application/problem+json"]> (Handler.header w));
         Handler.body :=
           Handler.body w
           ++ [Handler.JsonBytes (JObj (problemMembers r status title detail))] |}
    ∧ status ∈ [400; 401; 403; 404; 409; 422; 500]
    ∧ title = GetDefaultMessage status
    ∧ title ≠ "" ∧ detail ≠ "".
Proof.
  intros Hw.
  destruct (ErrorHandler_spec w r e log)
    as (status & title & detail & pd & raw & x & -> & Hpd & _ & Hs & Ht & Hne & _).
  exists status, title, detail. split.
  { cbn [fst]. rewrite Hpd.
    unfold Handler.Write, Handler.WriteHeader, Handler.HeaderSet. simpl.
    rewrite Hw. simpl. reflexivity. }
  do 2 (split; [done|]). split; [|done].
  subst title. apply GetDefaultMessage_nonempty.
Qed.

(** X27.  The [detail] of the answer is never text of the error other
    than a user message: it is the [title], or the [userMessage] of an
    error of package [myerrors] in the chain of the error, or one of the
    validation messages.  So the detail message of a [SystemError], the
    raw message of a decoding error and the text of any other error stay
    out of the response. *)
Theorem ErrorHandler_detail_origin (w : Handler.ResponseWriter) (r : HttpRequest)
    (e : error) (log : list LogRecord) :
  ∃ j title detail,
    Handler.body (ErrorHandler Error Verbose w r (Some e) log).1
    = Handler.body w ++ [Handler.JsonBytes j]
    ∧ member "title" j = Some (JStr title)
    ∧ member "detail" j = Some (JStr detail)
    ∧ (detail = title
       ∨ (∃ e', e' ∈ chain e ∧ userMessageOf e' = Some detail)
       ∨ (∃ code, ValidationMessages !! code = Some detail)).
Proof.
  destruct (ErrorHandler_spec w r e log)
    as (status & title & detail & pd & raw & x & -> & Hpd & _ & _ & _ & _ & Hp).
  exists (Encode pd), title, detail. cbn [fst]. rewrite body_answer.
  split; [done|]. rewrite Hpd. split; [|split; [|done]].
  - by destruct r as [[path|]|].
  - by destruct r as [[path|]|].
Qed.


End ErrorAnswers.

Lemma ErrorHandler_problem_details_witness :
  Handler.wrote Handler.NewRecorder = None
  ∧ ∃ status title detail,
      (ErrorHandling.ErrorHandler (λ _, "") (λ _, "") Handler.NewRecorder
         (Some (Some "/v1/hello"))
         (Some (MyErrors.NewForbidden "この操作を実行する権限がありません")) []).1
      = {| Handler.header :=
             <["Content-Type" := "application/problem+json"]>
               (Handler.header Handler.NewRecorder);
           Handler.wrote :=
             Some (status,
                   <["Content-Type" := "application/problem+json"]>
                     (Handler.header Handler.NewRecorder));
           Handler.body :=
             Handler.body Handler.NewRecorder
             ++ [Handler.JsonBytes
                   (JObj (ErrorHandling.problemMembers (Some (Some "/v1/hello"))
                            status title detail))] |}
      ∧ status ∈ [400; 401; 403; 404; 409; 422; 500]
      ∧ title = MyErrors.GetDefaultMessage status
      ∧ title ≠ "" ∧ detail ≠ "".
Proof.
  split; [reflexivity|].
  apply (ErrorHandler_problem_details (λ _, "") (λ _, "") Handler.NewRecorder).
  reflexivity.
Defined.

(** ** The service behind the gateway: authentication, then authorization *)

Section AuthnAuthz.
Import Authn.

Variable DecodeString : string → option string.
Variable Unmarshal : string → option Rest.Claims.

Lemma HasAnyRole_valid (claims : Rest.Claims) :
  IsValidRole (Rest.Role claims) = true →
  Rest.HasAnyRole claims [Rest.RoleUser; Rest.RoleAdmin] = true.
Proof.
  unfold IsValidRole, Rest.HasAnyRole. simpl.
  rewrite !orb_true_iff, !bool_decide_eq_true. tauto.
Qed.

Lemma authorizeRoleMap_lookup (op : string) :
  Rest.authorizeRoleMap !! op
  = if decide (op = "v1GetHello") then Some [Rest.RoleUser; Rest.RoleAdmin] else None.
Proof.
  unfold Rest.authorizeRoleMap. case_decide as H.
  - subst. apply lookup_singleton_eq.
  - by apply lookup_singleton_ne.
Qed.

(** X30.  The authentication stage followed by the authorization stage.
    Either the request is refused by authentication, with one of its
    five 401 errors and without a step of the world; or the second of
    the three dot-separated segments of the bearer token decodes to
    claims whose role is [admin] or [user].  In that case authorization
    never misses the claims and never refuses the role: an operation
    other than [v1GetHello] is refused with the 403 error for an
    undefined mapping, and for [v1GetHello] the handler is called with
    these claims and its result returned. *)
Theorem authn_then_authz {W : Type} (req : Request) (next : Rest.Next W) (s : W) :
  let out := Handle DecodeString Unmarshal req (thenAuthz next) s in
  (∃ userMessage,
     out = ((None, Some (MyErrors.NewUnauthorized userMessage)), s)
     ∧ userMessage ∈ ["認証トークンが必要です"; "認証形式が不正です"; "認証トークンが空です";
                      "トークンの解析に失敗しました"; "無効なロールです"])
  ∨ ∃ header payload signature decoded claims,
      Authorization req ≠ ""
      ∧ Strings.HasPrefix (Authorization req) "Bearer " = true
      ∧ StringsMore.Split (Strings.TrimPrefix (Authorization req) "Bearer ") "."
        = [header; payload; signature]
      ∧ DecodeString payload = Some decoded
      ∧ Unmarshal decoded = Some claims
      ∧ (Rest.Role claims = Rest.RoleAdmin ∨ Rest.Role claims = Rest.RoleUser)
      ∧ out
        = if decide (OperationID req = "v1GetHello") then
            let '((resp, err), s') :=
              next {| Rest.OperationID := OperationID req;
                      Rest.FromContext := Some claims |} s in
            ((resp, httpError <$> err), s')
          else
            ((None, Some (MyErrors.NewForbidden
                            "この操作を実行する権限がありません（ロールマッピング未定義）")), s).
Proof.
  intros out. subst out. unfold Handle.
  destruct (decide (Authorization req = "")) as [|Hne];
    [left; eexists; split; [done|set_solver]|].
  destruct (Strings.HasPrefix (Authorization req) "Bearer ") eqn:Hp; simpl;
    [|left; eexists; split; [done|set_solver]].
  destruct (decide (Strings.TrimPrefix (Authorization req) "Bearer " = "")) as [|Htok];
    [left; eexists; split; [done|set_solver]|].
  unfold extractClaims.
  destruct (decide (length (StringsMore.Split
              (Strings.TrimPrefix (Authorization req) "Bearer ") ".") ≠ 3%nat))
    as [|Hlen]; [left; eexists; split; [done|set_solver]|].
  apply dec_stable in Hlen.
  destruct (StringsMore.Split (Strings.TrimPrefix (Authorization req) "Bearer ") ".")
    as [|header [|payload [|signature [|]]]] eqn:Hsplit; try done.
  simpl.
  destruct (DecodeString payload) as [decoded|] eqn:Hd;
    [|left; eexists; split; [done|set_solver]].
  destruct (Unmarshal decoded) as [claims|] eqn:Hu;
    [|left; eexists; split; [done|set_solver]].
  destruct (IsValidRole (Rest.Role claims)) eqn:Hrole; simpl;
    [|left; eexists; split; [done|set_solver]].
  right. exists header, payload, signature, decoded, claims.
  do 5 (split; [done|]). split.
  { unfold IsValidRole in Hrole. apply orb_true_iff in Hrole.
    by rewrite !bool_decide_eq_true in Hrole. }
  unfold thenAuthz, Rest.Handle. simpl. rewrite authorizeRoleMap_lookup.
  case_decide; [|done].
  by rewrite HasAnyRole_valid.
Qed.

End AuthnAuthz.
